(** * nanobot: QQ channel reliability layer and tool parameter validation

    A shallow embedding of [nanobot/channels/qq.py] (class [QQChannel]) and of
    the tool validation / registry contract exercised by
    [tests/test_tool_validation.py].

    Conventions.
    - A Python [str] is a [string]; [len] is [String.length].
    - A Python [int] is a [Z].
    - [self._msg_seq], a [defaultdict(int)] keyed by a pair of strings, is a
      [gmap (string * string) Z]; a missing key reads as [0].
    - [self._processed_ids], a [deque(maxlen=1000)], is a record holding the
      bound and the items, oldest first.
    - Calls that leave the class (logger, the botpy client, the base class
      [_handle_message]) are recorded as [event]s; what such a call does once
      awaited is supplied by the caller of the model as an [await_end]. *)

From Stdlib Require Import Ascii String ZArith Sorted.
From stdpp Require Import gmap strings list fin_maps pretty.

Set Warnings "-register-all".

Open Scope string_scope.
Open Scope list_scope.
Open Scope Z_scope.

(** ** Python helpers *)

(** Truthiness of a [str]: the empty string is falsy. *)
Definition truthy (s : string) : bool := negb (String.eqb s "").

(** [a or b] on strings. *)
Definition py_or (a b : string) : string := if truthy a then a else b.

(** [x or ""] where [x] is a string or [None] (or an absent attribute read
    with default [""]). *)
Definition or_empty (x : option string) : string :=
  match x with
  | Some s => py_or s ""
  | None => ""
  end.

(** Code points that [str.strip()] removes, for code points below 256. *)
Definition is_space (c : ascii) : bool :=
  let n := nat_of_ascii c in
  ((9 <=? n)%nat && (n <=? 13)%nat) || ((28 <=? n)%nat && (n <=? 32)%nat)
  || (n =? 133)%nat || (n =? 160)%nat.

Fixpoint lstrip (s : string) : string :=
  match s with
  | String c r => if is_space c then lstrip r else s
  | EmptyString => EmptyString
  end.

Fixpoint rstrip (s : string) : string :=
  match s with
  | String c r =>
      match rstrip r with
      | EmptyString => if is_space c then EmptyString else String c EmptyString
      | r' => String c r'
      end
  | EmptyString => EmptyString
  end.

Definition strip (s : string) : string := rstrip (lstrip s).

(** How an awaited external call ends.  [Raised] stands for any exception
    derived from [Exception]; [Cancelled] for [asyncio.CancelledError], which
    [except Exception] does not catch. *)
Inductive await_end : Type :=
  | Returned
  | Raised (e : string)
  | Cancelled.

(** What the caller of a coroutine of the channel observes. *)
Inductive completion : Type :=
  | ReturnsNone
  | Propagates (e : await_end).

Module QQ.

(** *** Data *)

(** [collections.deque(maxlen=n)]: [items] oldest first. *)
Record deque : Type := Deque { maxlen : nat; items : list string }.

(** [deque.append]: the item goes to the right end, then the left end is
    dropped when the bound is exceeded. *)
Definition deque_append (x : string) (d : deque) : deque :=
  let l := items d ++ [x] in
  Deque (maxlen d) (if (maxlen d <? length l)%nat then tail l else l).

(** [x in deque]. *)
Definition deque_contains (x : string) (d : deque) : bool :=
  bool_decide (x ∈ items d).

Record QQConfig : Type := { app_id : string; secret : string }.

(** [nanobot.bus.events.OutboundMessage], the fields [send] reads.
    [metadata] values are read through [str(...)]; they are kept as the
    strings that [str] yields. *)
Record OutboundMessage : Type := {
  chat_id : string;
  content : string;
  reply_to : option string;
  metadata : gmap string string
}.

(** [botpy.message.C2CMessage] as [_on_message] reads it: each attribute may
    be absent or [None]. *)
Record Author : Type := { user_openid : option string }.

Record C2CMessage : Type := {
  id : option string;
  author : option Author;
  msg_content : option string
}.

(** The [botpy.Client] instance built by [start], as far as the channel
    probes it: which of [close], [http.close] and [stop] it exposes. *)
Record Client : Type := {
  has_close : bool;
  has_http_close : bool;
  has_stop : bool
}.

Record QQChannel : Type := {
  config : QQConfig;
  _running : bool;
  _client : option Client;
  _processed_ids : deque;
  _msg_seq : gmap (string * string) Z
}.

(** Calls that leave the class. *)
Inductive event : Type :=
  | LogDebug (s : string)
  | LogInfo (s : string)
  | LogWarning (s : string)
  | LogError (s : string)
  | LogException (s : string)
  | ClientStart (appid sec : string)
  | ClientClose
  | HttpClose
  | ClientStop
  | Sleep (seconds : Z)
  | PostC2C (openid : string) (msg_type : Z) (text : string)
            (msg_id : string) (msg_seq : Z)
  | HandleMessage (sender_id chat : string) (text : string)
                  (meta : list (string * string)).

(** [QQChannel.__init__] *)
Definition __init__ (cfg : QQConfig) : QQChannel :=
  {| config := cfg;
     _running := false;
     _client := None;
     _processed_ids := Deque 1000 [];
     _msg_seq := ∅ |}.

Definition set_running (b : bool) (st : QQChannel) : QQChannel :=
  {| config := config st; _running := b; _client := _client st;
     _processed_ids := _processed_ids st; _msg_seq := _msg_seq st |}.

Definition set_client (c : option Client) (st : QQChannel) : QQChannel :=
  {| config := config st; _running := _running st; _client := c;
     _processed_ids := _processed_ids st; _msg_seq := _msg_seq st |}.

Definition set_processed_ids (d : deque) (st : QQChannel) : QQChannel :=
  {| config := config st; _running := _running st; _client := _client st;
     _processed_ids := d; _msg_seq := _msg_seq st |}.

Definition set_msg_seq (m : gmap (string * string) Z) (st : QQChannel)
  : QQChannel :=
  {| config := config st; _running := _running st; _client := _client st;
     _processed_ids := _processed_ids st; _msg_seq := m |}.

(** *** [send] *)

(** [msg.reply_to or str(msg.metadata.get("message_id", "") or "")] *)
Definition reply_msg_id (msg : OutboundMessage) : string :=
  py_or (or_empty (reply_to msg)) (or_empty (metadata msg !! "message_id")).

(** [(msg.chat_id, reply_msg_id or "__proactive__")] *)
Definition seq_key (msg : OutboundMessage) : string * string :=
  (chat_id msg, py_or (reply_msg_id msg) "__proactive__").

(** Reading a [defaultdict(int)]. *)
Definition seq_get (m : gmap (string * string) Z) (k : string * string) : Z :=
  default 0 (m !! k).

(** [self._msg_seq[seq_key] += 1] *)
Definition seq_bump (k : string * string) (m : gmap (string * string) Z)
  : gmap (string * string) Z :=
  <[k := seq_get m k + 1]> m.

(** [QQChannel.send].  [post] is how the awaited [post_c2c_message] ends. *)
Definition send (st : QQChannel) (msg : OutboundMessage) (post : await_end)
  : QQChannel * list event * completion :=
  match _client st with
  | None => (st, [LogWarning "QQ client not initialized"], ReturnsNone)
  | Some _ =>
      let k := seq_key msg in
      let st' := set_msg_seq (seq_bump k (_msg_seq st)) st in
      let call := PostC2C (chat_id msg) 0 (content msg) (reply_msg_id msg)
                          (seq_get (_msg_seq st') k) in
      match post with
      | Returned => (st', [call], ReturnsNone)
      | Raised e =>
          (st', [call; LogError ("Error sending QQ message: " +:+ e)],
           ReturnsNone)
      | Cancelled => (st', [call], Propagates Cancelled)
      end
  end.

(** *** [_on_message] *)

(** Where [_on_message] leaves. *)
Inductive exit_point : Type :=
  | ExitDuplicate
  | ExitNoSender
  | ExitEmptyContent
  | ExitForwarded
  | ExitHandlerError.

(** [str(getattr(data, "id", "") or "")] *)
Definition message_id (data : C2CMessage) : string := or_empty (id data).

(** [str(getattr(author, "user_openid", "") or "")] *)
Definition sender_openid (data : C2CMessage) : string :=
  match author data with
  | Some a => or_empty (user_openid a)
  | None => ""
  end.

(** [(getattr(data, "content", "") or "").strip()] *)
Definition stripped_content (data : C2CMessage) : string :=
  strip (or_empty (msg_content data)).

(** The dedup step: [None] when the id is already cached, else the cache
    after recording the id (unchanged for an empty id). *)
Definition dedup (d : deque) (mid : string) : option deque :=
  if truthy mid then
    if deque_contains mid d then None else Some (deque_append mid d)
  else Some d.

(** [QQChannel._on_message].  [handled] is how the awaited
    [self._handle_message(...)] of the base class ends. *)
Definition _on_message (st : QQChannel) (data : C2CMessage)
    (handled : await_end)
  : QQChannel * list event * completion * exit_point :=
  let mid := message_id data in
  match dedup (_processed_ids st) mid with
  | None => (st, [], ReturnsNone, ExitDuplicate)
  | Some d =>
      let st' := set_processed_ids d st in
      let uid := sender_openid data in
      if negb (truthy uid) then
        (st', [LogWarning "QQ message missing author.user_openid; ignored"],
         ReturnsNone, ExitNoSender)
      else
        let text := stripped_content data in
        if negb (truthy text) then (st', [], ReturnsNone, ExitEmptyContent)
        else
          let ev := [LogInfo ("QQ inbound from openid=" +:+ uid);
                     HandleMessage uid uid text
                       [("message_id", mid); ("user_openid", uid)]] in
          match handled with
          | Returned => (st', ev, ReturnsNone, ExitForwarded)
          | Raised e =>
              (st', ev ++ [LogException "Error handling QQ message"],
               ReturnsNone, ExitHandlerError)
          | Cancelled => (st', ev, Propagates Cancelled, ExitHandlerError)
          end
  end.

(** *** [start], [_run_bot], [stop] *)

(** The two assignments of [stop] that the rest of the class can observe:
    [self._running = False] on entry, [self._client = None] after teardown. *)
Definition stop_begin (st : QQChannel) : QQChannel := set_running false st.
Definition stop_end (st : QQChannel) : QQChannel := set_client None st.

(** One teardown step of [stop]: [await _await_maybe(fn)] under
    [try ... except Exception], logging at debug level.  The result is the
    events and whether [stop] goes on. *)
Definition teardown_step (call : event) (what : string) (r : await_end)
  : list event * option await_end :=
  match r with
  | Returned => ([call], None)
  | Raised e => ([call; LogDebug (what +:+ " error (ignored): " +:+ e)], None)
  | Cancelled => ([call], Some Cancelled)
  end.

(** [QQChannel.stop].  [closed] and [stopped] are how the awaited close and
    stop operations of the client end. *)
Definition stop (st : QQChannel) (closed stopped : await_end)
  : QQChannel * list event * completion :=
  let st1 := stop_begin st in
  match _client st1 with
  | None => (stop_end st1, [LogInfo "QQ bot stopped"], ReturnsNone)
  | Some c =>
      let '(ev1, x1) :=
        if has_close c then teardown_step ClientClose "QQ client close" closed
        else if has_http_close c
             then teardown_step HttpClose "QQ http close" closed
             else ([], None) in
      match x1 with
      | Some e => (st1, ev1, Propagates e)
      | None =>
          let '(ev2, x2) :=
            if has_stop c then teardown_step ClientStop "QQ client stop" stopped
            else ([], None) in
          match x2 with
          | Some e => (st1, ev1 ++ ev2, Propagates e)
          | None =>
              (stop_end st1, ev1 ++ ev2 ++ [LogInfo "QQ bot stopped"],
               ReturnsNone)
          end
      end
  end.

(** What another task did to the channel while [_run_bot] was suspended in
    an [await]: nothing, a [stop()] that has cleared the flag, or a [stop()]
    that has run to its end. *)
Inductive meanwhile : Type :=
  | Quiet
  | StopCalled
  | StopFinished.

Definition during (m : meanwhile) (st : QQChannel) : QQChannel :=
  match m with
  | Quiet => st
  | StopCalled => stop_begin st
  | StopFinished => stop_end (stop_begin st)
  end.

(** One [await] of [_run_bot] as the loop sees it when it resumes. *)
Record await_obs : Type := { env : meanwhile; ended : await_end }.

Inductive loop_status : Type :=
  | LoopExited
  | LoopPropagates (e : await_end)
  | LoopSuspended.

Definition loop_result : Type := QQChannel * list event * loop_status.

Definition prepend (evs : list event) (r : loop_result) : loop_result :=
  let '(st, evs', s) := r in (st, evs ++ evs', s).

(** Line 104, [await asyncio.sleep(5)], followed by the next turn [again] of
    the loop.  The sleep is outside the [try], so whatever ends it other than
    its return leaves [_run_bot]. *)
Definition sleep_then (again : list await_obs -> QQChannel -> loop_result)
    (script : list await_obs) (st : QQChannel) : loop_result :=
  let evs := [LogInfo "Reconnecting QQ bot in 5 seconds..."; Sleep 5] in
  match script with
  | [] => (st, evs, LoopSuspended)
  | b :: rest =>
      let st' := during (env b) st in
      match ended b with
      | Returned => prepend evs (again rest st')
      | e => (st', evs, LoopPropagates e)
      end
  end.

(** Lines 102-104: [if self._running: ...; await asyncio.sleep(5)]. *)
Definition backoff (again : list await_obs -> QQChannel -> loop_result)
    (script : list await_obs) (st : QQChannel) : loop_result :=
  if _running st then sleep_then again script st else again script st.

(** [QQChannel._run_bot].  [script] lists, in order, what each [await] of
    the loop observes; when it is used up the loop is left suspended in its
    current [await]. *)
Fixpoint _run_bot (script : list await_obs) (st : QQChannel) : loop_result :=
  if _running st then
    match _client st with
    | Some _ =>
        let call := ClientStart (app_id (config st)) (secret (config st)) in
        match script with
        | [] => (st, [call], LoopSuspended)
        | a :: rest =>
            let st' := during (env a) st in
            match ended a with
            | Cancelled => (st', [call], LoopExited)
            | Raised e =>
                prepend [call; LogWarning ("QQ bot error: " +:+ e)]
                        (backoff _run_bot rest st')
            | Returned => prepend [call] (backoff _run_bot rest st')
            end
        end
    | None =>
        (* [self._client.start] raises AttributeError before any await *)
        let e := "'NoneType' object has no attribute 'start'" in
        prepend [LogWarning ("QQ bot error: " +:+ e)]
                (sleep_then _run_bot script st)
    end
  else (st, [], LoopExited).

(** [QQChannel.start] up to the call of [_run_bot]; [None] when it returns
    early. *)
Definition start_setup (qq_available : bool) (c : Client) (st : QQChannel)
  : option QQChannel * list event :=
  if negb qq_available then
    (None, [LogError "QQ SDK not installed. Run: pip install qq-botpy"])
  else if negb (truthy (app_id (config st))) || negb (truthy (secret (config st)))
  then (None, [LogError "QQ app_id and secret not configured"])
  else (Some (set_client (Some c) (set_running true st)),
        [LogInfo "QQ bot started (C2C private message)"]).

(** [QQChannel.start] *)
Definition start (qq_available : bool) (c : Client) (script : list await_obs)
    (st : QQChannel) : loop_result :=
  match start_setup qq_available c st with
  | (None, evs) => (st, evs, LoopExited)
  | (Some st', evs) => prepend evs (_run_bot script st')
  end.

(** *** Histories of a channel *)

(** The operations other tasks perform on one channel instance, each atomic
    between two suspension points. *)
Inductive op : Type :=
  | OpSend (msg : OutboundMessage) (post : await_end)
  | OpMessage (data : C2CMessage) (handled : await_end)
  | OpStart (qq_available : bool) (c : Client)
  | OpStopBegin
  | OpStopEnd.

Definition step (st : QQChannel) (o : op) : QQChannel * list event :=
  match o with
  | OpSend msg post => (send st msg post).1
  | OpMessage data handled => (_on_message st data handled).1.1
  | OpStart qq_available c =>
      match start_setup qq_available c st with
      | (Some st', evs) => (st', evs)
      | (None, evs) => (st, evs)
      end
  | OpStopBegin => (stop_begin st, [])
  | OpStopEnd => (stop_end st, [])
  end.

Fixpoint run (st : QQChannel) (ops : list op) : QQChannel * list event :=
  match ops with
  | [] => (st, [])
  | o :: rest =>
      let '(st1, evs1) := step st o in
      let '(st2, evs2) := run st1 rest in
      (st2, evs1 ++ evs2)
  end.

(** The conversation key a transport call was numbered under. *)
Definition key_of_post (openid msg_id : string) : string * string :=
  (openid, py_or msg_id "__proactive__").

(** The sequence numbers handed to the transport under key [k], in order. *)
Fixpoint issued (k : string * string) (evs : list event) : list Z :=
  match evs with
  | [] => []
  | PostC2C openid _ _ msg_id n :: rest =>
      if bool_decide (key_of_post openid msg_id = k) then n :: issued k rest
      else issued k rest
  | _ :: rest => issued k rest
  end.

(** The sequence number a call of [send] handed to the transport, if any. *)
Definition posted_seq (r : QQChannel * list event * completion) : option Z :=
  match r.1.2 with
  | PostC2C _ _ _ _ n :: _ => Some n
  | _ => None
  end.

Definition is_send_under (k : string * string) (o : op) : bool :=
  match o with
  | OpSend msg _ => bool_decide (seq_key msg = k)
  | _ => false
  end.

Definition is_send (o : op) : bool :=
  match o with
  | OpSend _ _ => true
  | _ => false
  end.

(** The history without the sends made under keys other than [k]. *)
Definition without_other_keys (k : string * string) (ops : list op)
  : list op :=
  List.filter (fun o => negb (is_send o) || is_send_under k o) ops.

Definition is_forward (e : event) : bool :=
  match e with
  | HandleMessage _ _ _ _ => true
  | _ => false
  end.

Definition is_connect (e : event) : bool :=
  match e with
  | ClientStart _ _ => true
  | _ => false
  end.

(** How many times the loop started the connection. *)
Definition attempts (evs : list event) : nat :=
  length (List.filter is_connect evs).

(** The channel after a call of [send], and after a history. *)
Definition after_send (st : QQChannel) (msg : OutboundMessage)
    (post : await_end) : QQChannel := (send st msg post).1.1.

Definition after (st : QQChannel) (ops : list op) : QQChannel :=
  (run st ops).1.

(** The channel after a call of [_on_message], and where the call left. *)
Definition after_message (st : QQChannel) (data : C2CMessage)
    (handled : await_end) : QQChannel := (_on_message st data handled).1.1.1.

Definition exit_of (st : QQChannel) (data : C2CMessage) (handled : await_end)
  : exit_point := (_on_message st data handled).2.

(** Whether a call of [_on_message] reached [_handle_message]. *)
Definition forwarded (st : QQChannel) (data : C2CMessage)
    (handled : await_end) : bool :=
  existsb is_forward (_on_message st data handled).1.1.2.

(** [x in self._processed_ids] *)
Definition cached (x : string) (st : QQChannel) : Prop :=
  x ∈ items (_processed_ids st).

(** [x] is cached and stays so for at least [j] more appends: fewer than
    [maxlen - j] items sit to its right. *)
Definition recent_within (j : nat) (x : string) (d : deque) : Prop :=
  exists l1 l2 : list string,
    items d = l1 ++ x :: l2 /\ (length l2 + j < maxlen d)%nat.


(** Inbound events presented one after the other. *)
Definition present (evs : list (C2CMessage * await_end)) : list op :=
  List.map (fun ev => OpMessage ev.1 ev.2) evs.


(** Three things a caller may expect of [send] when the transport raises
    [e]: the failure is logged, the caller can tell it from a delivery, and
    nothing propagates. *)
Definition failure_logged (st : QQChannel) (msg : OutboundMessage)
    (e : string) : Prop :=
  LogError ("Error sending QQ message: " +:+ e) ∈ (send st msg (Raised e)).1.2.

Definition failure_reported (st : QQChannel) (msg : OutboundMessage)
    (e : string) : Prop :=
  (send st msg (Raised e)).2 <> (send st msg Returned).2.

Definition failure_contained (st : QQChannel) (msg : OutboundMessage)
    (e : string) : Prop :=
  (send st msg (Raised e)).2 = ReturnsNone.

(** *** Scenarios *)

(** A channel as [start] leaves it on entry to [_run_bot], and a few
    messages, used in the examples. *)
Definition demo_config : QQConfig := {| app_id := "app"; secret := "s3" |}.
Definition demo_client : Client :=
  {| has_close := true; has_http_close := false; has_stop := false |}.
Definition started : QQChannel :=
  set_client (Some demo_client) (set_running true (__init__ demo_config)).
Definition inbound (mid sender text : string) : C2CMessage :=
  {| id := Some mid;
     author := Some {| user_openid := Some sender |};
     msg_content := Some text |}.
Definition anonymous (mid text : string) : C2CMessage :=
  {| id := Some mid; author := None; msg_content := Some text |}.
(** [n] inbound events with the ids [m0], [m1], ... *)
Definition numbered (n : nat) : list (C2CMessage * await_end) :=
  List.map (fun i : nat => (inbound ("m" +:+ pretty i) "u1" "hello", Returned))
           (seq 0 n).
Definition reply (chat : string) (to : option string) (text : string)
  : OutboundMessage :=
  {| chat_id := chat; content := text; reply_to := to; metadata := ∅ |}.

End QQ.

(** ** Tool parameter validation and the tool registry

    [nanobot/agent/tools/base.py] ([Tool.validate_params]) and
    [nanobot/agent/tools/registry.py] ([ToolRegistry]) are exercised by
    [tests/test_tool_validation.py] and subclassed in
    [nanobot/agent/tools/web.py]; the definitions below follow their written
    specification. *)

Module Tools.

(** Argument values: what a JSON document decodes to. *)
Inductive value : Type :=
  | VNull
  | VBool (b : bool)
  | VInt (n : Z)
  | VFloat (repr : string)
  | VStr (s : string)
  | VArr (elems : list value)
  | VObj (fields : list (string * value)).

(** The schema subset: a node is [string], [integer], [object] or [array]
    with the constraints that are meaningful for its type; other keys of a
    node ([description], [default], ...) are ignored and not kept. *)
Inductive schema : Type :=
  | SString (minLength : option Z) (enum : option (list string))
  | SInteger (minimum maximum : option Z)
  | SObject (properties : list (string * schema)) (required : list string)
  | SArray (items : option schema).

Inductive type_name : Type := TString | TInteger | TObject | TArray.

Definition declared_type (s : schema) : type_name :=
  match s with
  | SString _ _ => TString
  | SInteger _ _ => TInteger
  | SObject _ _ => TObject
  | SArray _ => TArray
  end.

(** The runtime type of a value, when it is one a schema can declare. *)
Definition runtime_type (v : value) : option type_name :=
  match v with
  | VStr _ => Some TString
  | VInt _ => Some TInteger
  | VObj _ => Some TObject
  | VArr _ => Some TArray
  | VNull | VBool _ | VFloat _ => None
  end.

Definition type_text (t : type_name) : string :=
  match t with
  | TString => "string"
  | TInteger => "integer"
  | TObject => "object"
  | TArray => "array"
  end.

(** [k in value] / [value[k]] on a mapping kept as a list of bindings (keys
    of a mapping are unique; the first binding is the one read). *)
Fixpoint lookup_field (k : string) (fields : list (string * value))
  : option value :=
  match fields with
  | [] => None
  | (k', x) :: rest => if String.eqb k k' then Some x else lookup_field k rest
  end.

(** Path notation: [meta.tag], [meta.flags[0]]. *)
Definition child_path (path k : string) : string :=
  if truthy path then path +:+ "." +:+ k else k.

Definition index_path (path : string) (i : nat) : string :=
  path +:+ "[" +:+ pretty i +:+ "]".

(** [", ".join(xs)] and the like. *)
Fixpoint join (sep : string) (xs : list string) : string :=
  match xs with
  | [] => ""
  | [x] => x
  | x :: rest => x +:+ sep +:+ join sep rest
  end.

(** Modelled from the spec: the entry [<path> should be <type>] that the
    validator of [nanobot/agent/tools/base.py] (not among the sources) emits
    on a type mismatch. *)
Definition type_error (path : string) (t : type_name) : string :=
  path +:+ " should be " +:+ type_text t.

(** Modelled from the spec: the [object] rule of the validator of
    [nanobot/agent/tools/base.py] (not among the sources) for [required]:
    one entry [missing required <path>] per required name absent from the
    value. *)
Definition missing_required (path : string) (required : list string)
    (fields : list (string * value)) : list string :=
  flat_map (fun k =>
              match lookup_field k fields with
              | Some _ => []
              | None => ["missing required " +:+ child_path path k]
              end) required.

(** Modelled from the spec: the [string] rule of the validator of
    [nanobot/agent/tools/base.py] (not among the sources) once the type is
    right: the length check, else the enum check. *)
Definition check_string (path : string) (minLength : option Z)
    (enum : option (list string)) (x : string) : list string :=
  match minLength with
  | Some n =>
      if Z.of_nat (String.length x) <? n then
        [path +:+ " must be at least " +:+ pretty n +:+ " chars"]
      else
        match enum with
        | Some e =>
            if bool_decide (x ∈ e) then []
            else [path +:+ " must be one of {" +:+ join ", " e +:+ "}"]
        | None => []
        end
  | None =>
      match enum with
      | Some e =>
          if bool_decide (x ∈ e) then []
          else [path +:+ " must be one of {" +:+ join ", " e +:+ "}"]
      | None => []
      end
  end.

(** Modelled from the spec: the [integer] rule of the validator of
    [nanobot/agent/tools/base.py] (not among the sources) once the type is
    right: the lower bound, then the upper bound. *)
Definition check_integer (path : string) (minimum maximum : option Z)
    (n : Z) : list string :=
  match minimum with
  | Some a => if n <? a then [path +:+ " must be >= " +:+ pretty a] else []
  | None => []
  end ++
  match maximum with
  | Some b => if b <? n then [path +:+ " must be <= " +:+ pretty b] else []
  | None => []
  end.

(** Modelled from the spec: [SchemaValidator.validate] at a path (the
    [_validate] helper of [nanobot/agent/tools/base.py], which is not among
    the sources).  Depth first, driven by the schema; a type mismatch yields
    the single entry [<path> should be <type>] for that node. *)
Fixpoint validate_at (s : schema) (v : value) (path : string) {struct s}
  : list string :=
  match s with
  | SString minLength enum =>
      match v with
      | VStr x => check_string path minLength enum x
      | _ => [type_error path TString]
      end
  | SInteger minimum maximum =>
      match v with
      | VInt n => check_integer path minimum maximum n
      | _ => [type_error path TInteger]
      end
  | SObject properties required =>
      match v with
      | VObj fields =>
          missing_required path required fields ++
          (fix each (ps : list (string * schema)) : list string :=
             match ps with
             | [] => []
             | (k, sub) :: ps' =>
                 match lookup_field k fields with
                 | Some x => validate_at sub x (child_path path k)
                 | None => []
                 end ++ each ps'
             end) properties
      | _ => [type_error path TObject]
      end
  | SArray items =>
      match v with
      | VArr elems =>
          match items with
          | Some sub =>
              (fix each (i : nat) (xs : list value) : list string :=
                 match xs with
                 | [] => []
                 | x :: xs' =>
                     validate_at sub x (index_path path i) ++ each (S i) xs'
                 end) 0%nat elems
          | None => []
          end
      | _ => [type_error path TArray]
      end
  end.

(** The two loops of [validate_at] on their own, over a check for the
    children: the declared fields of an object in declaration order, and the
    elements of an array from index [i] on. *)
Definition field_errors (check : schema -> value -> string -> list string)
    (path : string) (fields : list (string * value)) (p : string * schema)
  : list string :=
  match lookup_field p.1 fields with
  | Some x => check p.2 x (child_path path p.1)
  | None => []
  end.

Fixpoint element_errors (check : value -> string -> list string)
    (path : string) (i : nat) (xs : list value) : list string :=
  match xs with
  | [] => []
  | x :: xs' =>
      check x (index_path path i) ++ element_errors check path (S i) xs'
  end.

(** Modelled from the spec: [validate(schema, value) -> sequence<string>]
    ([Tool.validate_params] of [nanobot/agent/tools/base.py], which is not
    among the sources), the traversal started at the empty path. *)
Definition validate (s : schema) (v : value) : list string :=
  validate_at s v "".

(** The property tested in the spec's words: the value structurally
    satisfies every required, type, range, enum and length constraint that
    the schema declares.  Fields of the value that the schema does not
    declare are not constrained. *)
Inductive conforms : schema -> value -> Prop :=
  | conforms_string minLength enum x :
      (forall n, minLength = Some n -> n <= Z.of_nat (String.length x)) ->
      (forall e, enum = Some e -> x ∈ e) ->
      conforms (SString minLength enum) (VStr x)
  | conforms_integer minimum maximum n :
      (forall a, minimum = Some a -> a <= n) ->
      (forall b, maximum = Some b -> n <= b) ->
      conforms (SInteger minimum maximum) (VInt n)
  | conforms_object properties required fields :
      (forall k, k ∈ required -> is_Some (lookup_field k fields)) ->
      (forall k sub x, (k, sub) ∈ properties ->
                       lookup_field k fields = Some x -> conforms sub x) ->
      conforms (SObject properties required) (VObj fields)
  | conforms_array items elems :
      (forall sub x, items = Some sub -> x ∈ elems -> conforms sub x) ->
      conforms (SArray items) (VArr elems).

(** *** The registry *)

(** What invoking a tool's capability yields. *)
Inductive invocation : Type :=
  | Produces (text : string)
  | Fails (e : string).

Record Tool : Type := {
  name : string;
  description : string;
  parameters : schema;
  invoke : value -> invocation
}.

(** What the caller of [execute] observes. *)
Inductive outcome : Type :=
  | Result (text : string)
  | Escapes (e : string).

(** Modelled from the spec: [ToolRegistry.register] of
    [nanobot/agent/tools/registry.py] (not among the sources): adds or
    replaces the tool keyed by its name. *)
Definition register (t : Tool) (reg : gmap string Tool) : gmap string Tool :=
  <[name t := t]> reg.

(** Modelled from the spec: [ToolRegistry.execute] of
    [nanobot/agent/tools/registry.py] (not among the sources).  The second
    component lists the invocations made, as a call counter would see them. *)
Definition execute (reg : gmap string Tool) (nm : string) (args : value)
  : outcome * list (string * value) :=
  match reg !! nm with
  | None => (Result ("unknown tool " +:+ nm), [])
  | Some t =>
      match validate (parameters t) args with
      | [] =>
          match invoke t args with
          | Produces text => (Result text, [(nm, args)])
          | Fails e => (Result ("Error executing " +:+ nm +:+ ": " +:+ e),
                        [(nm, args)])
          end
      | errors => (Result ("Invalid parameters: " +:+ join "; " errors), [])
      end
  end.

(** [SampleTool.parameters] of [tests/test_tool_validation.py]. *)
Definition sample_parameters : schema :=
  SObject
    [("query", SString (Some 2) None);
     ("count", SInteger (Some 1) (Some 10));
     ("mode", SString None (Some ["fast"; "full"]));
     ("meta", SObject [("tag", SString None None);
                       ("flags", SArray (Some (SString None None)))]
                      ["tag"])]
    ["query"; "count"].

(** [SampleTool] of [tests/test_tool_validation.py]. *)
Definition SampleTool : Tool :=
  {| name := "sample"; description := "sample tool";
     parameters := sample_parameters; invoke := fun _ => Produces "ok" |}.

(** A tool whose invocation always fails. *)
Definition BrokenTool : Tool :=
  {| name := "broken"; description := "always fails";
     parameters := SObject [] []; invoke := fun _ => Fails "boom" |}.

(** Whether [needle] is a prefix of [s]; whether it occurs in [s]
    (Python's [needle in s]). *)
Fixpoint starts_with (needle s : string) : bool :=
  match needle, s with
  | EmptyString, _ => true
  | String a n', String b s' => Ascii.eqb a b && starts_with n' s'
  | String _ _, EmptyString => false
  end.

Fixpoint contains (needle s : string) : bool :=
  starts_with needle s ||
  match s with
  | EmptyString => false
  | String _ s' => contains needle s'
  end.

End Tools.

(** ** More observations on the QQ channel *)

Module QQTraces.
Import QQ.

(** Whether, in a trace of [_run_bot], every start of the connection but
    the first comes after a five-second sleep made since the start before
    it.  [slept] tells whether the next start may come at once. *)
Fixpoint spaced (slept : bool) (evs : list event) : bool :=
  match evs with
  | [] => true
  | ClientStart _ _ :: rest => slept && spaced false rest
  | Sleep n :: rest => if n =? 5 then spaced true rest else spaced slept rest
  | _ :: rest => spaced slept rest
  end.

(** A script for [_run_bot] in which nothing stops or cancels the loop: each
    connection ends as listed in [ends] and each backoff sleep elapses. *)
Definition uneventful (ends : list await_end) : list await_obs :=
  flat_map (fun e => [ {| env := Quiet; ended := e |};
                       {| env := Quiet; ended := Returned |} ]) ends.

Definition is_teardown (e : event) : bool :=
  match e with
  | ClientClose | HttpClose | ClientStop => true
  | _ => false
  end.

Definition is_post (e : event) : bool :=
  match e with
  | PostC2C _ _ _ _ _ => true
  | _ => false
  end.

Definition is_client_close (e : event) : bool :=
  match e with ClientClose => true | _ => false end.

Definition is_http_close (e : event) : bool :=
  match e with HttpClose => true | _ => false end.

Definition is_client_stop (e : event) : bool :=
  match e with ClientStop => true | _ => false end.

Definition is_error_event (e : event) : bool :=
  match e with LogError _ => true | _ => false end.

Definition is_sleep (e : event) : bool :=
  match e with Sleep _ => true | _ => false end.

(** The events, the completion and the state of a call of [_on_message] and
    of a call of [stop]. *)
Definition events_of (st : QQChannel) (data : C2CMessage)
    (handled : await_end) : list event :=
  (_on_message st data handled).1.1.2.

Definition completion_of (st : QQChannel) (data : C2CMessage)
    (handled : await_end) : completion :=
  (_on_message st data handled).1.2.

Definition after_stop (st : QQChannel) (closed stopped : await_end)
  : QQChannel := (stop st closed stopped).1.1.

Definition stop_events (st : QQChannel) (closed stopped : await_end)
  : list event := (stop st closed stopped).1.2.

End QQTraces.

(** ** Web tools: [nanobot/agent/tools/web.py]

    What the tools get from [httpx], [json], [urllib.parse] and
    [readability] is supplied by the caller of the model: the outcome of each
    request as an [http_outcome], the library functions as section
    variables.  Every request made is recorded as a [request]. *)

Module Web.
Import Tools.

(** The line feed, [\n]. *)
Definition NL : string := String "010" EmptyString.

Definition USER_AGENT : string :=
  "Mozilla/5.0 (Macintosh; Intel Mac OS X 14_7_2) AppleWebKit/537.36".
Definition MAX_REDIRECTS : Z := 5.
Definition BRAVE_LLM_CONTEXT_URL : string :=
  "https://api.search.brave.com/res/v1/llm/context".
(** The literal URL of [WebSearchTool.execute]. *)
Definition BRAVE_WEB_SEARCH_URL : string :=
  "https://api.search.brave.com/res/v1/web/search".

(** *** [_normalize] *)

(** The class [[ \t]]. *)
Definition is_blank (c : ascii) : bool :=
  Ascii.eqb c " " || Ascii.eqb c "009".

Definition is_newline (c : ascii) : bool := Ascii.eqb c "010".

(** [re.sub(r'[ \t]+', ' ', text)]: a blank followed by a blank is dropped,
    the last blank of a run becomes the space. *)
Fixpoint sub_blank_runs (s : string) : string :=
  match s with
  | EmptyString => EmptyString
  | String c r =>
      if is_blank c then
        match r with
        | String c' _ =>
            if is_blank c' then sub_blank_runs r
            else String " " (sub_blank_runs r)
        | EmptyString => String " " EmptyString
        end
      else String c (sub_blank_runs r)
  end.

(** [re.sub(r'\n{3,}', '\n\n', text)]: a line feed followed by two more is
    dropped, so that a run of three or more shrinks to two. *)
Fixpoint sub_newline_runs (s : string) : string :=
  match s with
  | EmptyString => EmptyString
  | String c r =>
      if is_newline c && starts_with (NL +:+ NL) r then sub_newline_runs r
      else String c (sub_newline_runs r)
  end.

(** [_normalize] *)
Definition _normalize (text : string) : string :=
  strip (sub_newline_runs (sub_blank_runs text)).

(** *** [_validate_url] *)

(** What [urlparse] yields, as far as it is read: the scheme and the network
    location, or the exception it raises. *)
Inductive parsed : Type :=
  | Parsed (scheme netloc : string)
  | ParseError (e : string).

(** [_validate_url], over [urllib.parse.urlparse]. *)
Definition _validate_url (urlparse : string -> parsed) (url : string)
  : bool * string :=
  match urlparse url with
  | Parsed scheme netloc =>
      if negb (String.eqb scheme "http" || String.eqb scheme "https") then
        (false,
         "Only http/https allowed, got '" +:+ py_or scheme "none" +:+ "'")
      else if negb (truthy netloc) then (false, "Missing domain")
      else (true, "")
  | ParseError e => (false, e)
  end.

(** *** HTTP *)

(** [resp.json()]: the decoded body, or the exception raised. *)
Inductive decoded : Type :=
  | Json (v : value)
  | NotJson (e : string).

(** A response as the tools read it.  [status_error] is what
    [raise_for_status()] raises, if it does; [url] is absent on objects that
    have no such attribute; [content_type] is the header, if sent. *)
Record Response : Type := {
  status_code : Z;
  status_error : option string;
  json : decoded;
  url : option string;
  text : string;
  content_type : option string
}.

(** How a request made inside [async with httpx.AsyncClient(...)] ends:
    with a response, with an exception derived from [Exception], or with one
    that is not (a cancellation). *)
Inductive http_outcome : Type :=
  | Responded (r : Response)
  | Failed (e : string)
  | Aborted.

(** A request as made: [redirects] is [Some max_redirects] for a client
    built with [follow_redirects=True]; timeouts are in seconds. *)
Inductive request : Type :=
  | Get (target : string) (params : list (string * value))
        (headers : list (string * string)) (timeout : Z)
        (redirects : option Z)
  | Post (target : string) (body : list (string * value))
         (headers : list (string * string)) (timeout : Z).

(** What the caller of a tool's [execute] observes. *)
Inductive answer : Type :=
  | Returns (text : string)
  | Raises (e : string)
  | Aborts.

(** The state of a [WebSearchTool] or [WebLLMContextTool]. *)
Record BraveTool : Type := { api_key : string; max_results : Z }.

(** [__init__] of both: [api_key or os.environ.get("BRAVE_API_KEY", "")]. *)
Definition brave_init (key : option string) (env_key : option string)
    (results : Z) : BraveTool :=
  {| api_key := py_or (or_empty key) (default "" env_key);
     max_results := results |}.

(** [min(max(count or self.max_results, 1), 10)] *)
Definition result_count (count : option Z) (self_max : Z) : Z :=
  Z.min (Z.max (match count with
                | Some c => if c =? 0 then self_max else c
                | None => self_max
                end) 1) 10.

Definition brave_headers (self : BraveTool) : list (string * string) :=
  [("Accept", "application/json"); ("X-Subscription-Token", api_key self)].

Definition brave_params (query : string) (n : Z) : list (string * value) :=
  [("q", VStr query); ("count", VInt n)].

(** *** [WebSearchTool] *)

(** The name of the Python type of a decoded value. *)
Definition py_type (v : value) : string :=
  match v with
  | VNull => "NoneType"
  | VBool _ => "bool"
  | VInt _ => "int"
  | VFloat _ => "float"
  | VStr _ => "str"
  | VArr _ => "list"
  | VObj _ => "dict"
  end.

(** The text of the [AttributeError] for [v.attr]. *)
Definition no_attribute (v : value) (attr : string) : string :=
  "'" +:+ py_type v +:+ "' object has no attribute '" +:+ attr +:+ "'".

(** [v.get(k, dflt)]: defined on a dict only. *)
Definition get_or (k : string) (dflt : value) (v : value) : value + string :=
  match v with
  | VObj fields => inl (default dflt (lookup_field k fields))
  | _ => inr (no_attribute v "get")
  end.

Section Search.

(** Truthiness of a float, given its text; [str()] of a float, a list or a
    dict; the text of the exception raised by slicing a dict. *)
Variable float_truthy : string -> bool.
Variable py_str : value -> string.
Variable dict_slice_error : string.

(** Truthiness of a decoded value. *)
Definition value_truthy (v : value) : bool :=
  match v with
  | VNull => false
  | VBool b => b
  | VInt n => negb (n =? 0)
  | VFloat f => float_truthy f
  | VStr s => truthy s
  | VArr l => match l with [] => false | _ => true end
  | VObj f => match f with [] => false | _ => true end
  end.

(** A value inside an f-string. *)
Definition fmt (v : value) : string :=
  match v with
  | VStr s => s
  | VInt n => pretty n
  | VNull => "None"
  | VBool true => "True"
  | VBool false => "False"
  | _ => py_str v
  end.

(** [results[:n]], as the sequence the loop runs over. *)
Definition sliced (results : value) (n : Z) : list value + string :=
  match results with
  | VArr l => inl (take (Z.to_nat n) l)
  | VStr s =>
      inl ((fun c => VStr (String c EmptyString))
             <$> take (Z.to_nat n) (list_ascii_of_string s))
  | VObj _ => inr dict_slice_error
  | v => inr ("'" +:+ py_type v +:+ "' object is not subscriptable")
  end.

(** The body of the loop over [enumerate(results[:n], 1)], from index [i]:
    the lines appended, or the text of the exception raised. *)
Fixpoint result_lines (i : nat) (found : list value) : list string + string :=
  match found with
  | [] => inl []
  | item :: rest =>
      match item with
      | VObj fields =>
          let head :=
            pretty i +:+ ". "
            +:+ fmt (default (VStr "") (lookup_field "title" fields))
            +:+ NL +:+ "   "
            +:+ fmt (default (VStr "") (lookup_field "url" fields)) in
          let desc :=
            match lookup_field "description" fields with
            | Some d => if value_truthy d then ["   " +:+ fmt d] else []
            | None => []
            end in
          match result_lines (S i) rest with
          | inl ls => inl (head :: desc ++ ls)
          | inr e => inr e
          end
      | _ => inr (no_attribute item "get")
      end
  end.

(** Lines 80-89 of [WebSearchTool.execute]: from the response to the text
    returned, or to the text of the exception raised on the way. *)
Definition search_text (query : string) (n : Z) (r : Response)
  : string + string :=
  match json r with
  | NotJson e => inr e
  | Json j =>
      match get_or "web" (VObj []) j with
      | inr e => inr e
      | inl web =>
          match get_or "results" (VArr []) web with
          | inr e => inr e
          | inl results =>
              if negb (value_truthy results) then
                inl ("No results for: " +:+ query)
              else
                match sliced results n with
                | inr e => inr e
                | inl found =>
                    match result_lines 1 found with
                    | inr e => inr e
                    | inl ls =>
                        inl (join NL (("Results for: " +:+ query +:+ NL) :: ls))
                    end
                end
          end
      end
  end.

(** [WebSearchTool.execute].  [got] is how the GET ends. *)
Definition search_execute (self : BraveTool) (query : string)
    (count : option Z) (got : http_outcome) : answer * list request :=
  if negb (truthy (api_key self)) then
    (Returns "Error: BRAVE_API_KEY not configured", [])
  else
    let n := result_count count (max_results self) in
    let req := Get BRAVE_WEB_SEARCH_URL (brave_params query n)
                   (brave_headers self) 10 None in
    match got with
    | Aborted => (Aborts, [req])
    | Failed e => (Returns ("Error: " +:+ e), [req])
    | Responded r =>
        match status_error r with
        | Some e => (Returns ("Error: " +:+ e), [req])
        | None =>
            match search_text query n r with
            | inl s => (Returns s, [req])
            | inr e => (Returns ("Error: " +:+ e), [req])
            end
        end
    end.

End Search.

(** *** [WebLLMContextTool] *)

Definition DEFAULT_OUTPUT_MODE : string := "raw".

(** What [_request_context] hands back: the response, or what it raises. *)
Inductive fetched : Type :=
  | Got (r : Response)
  | Raised_ (e : string)
  | Aborted_.

(** [resp.raise_for_status(); return resp] *)
Definition checked (r : Response) : fetched :=
  match status_error r with
  | Some e => Raised_ e
  | None => Got r
  end.

(** [WebLLMContextTool._request_context].  [got] is how the GET ends and
    [posted] how the POST ends, if it is made. *)
Definition _request_context (params : list (string * value))
    (headers : list (string * string)) (got posted : http_outcome)
  : fetched * list request :=
  let get := Get BRAVE_LLM_CONTEXT_URL params headers 20 None in
  match got with
  | Aborted => (Aborted_, [get])
  | Failed e => (Raised_ e, [get])
  | Responded r =>
      if status_code r =? 405 then
        let post := Post BRAVE_LLM_CONTEXT_URL params
                         (headers ++ [("Content-Type", "application/json")])
                         20 in
        match posted with
        | Aborted => (Aborted_, [get; post])
        | Failed e => (Raised_ e, [get; post])
        | Responded r' => (checked r', [get; post])
        end
      else (checked r, [get])
  end.

(** [isinstance(part, str) and part.strip()], then [part.strip()]. *)
Definition snippet_of (part : option value) : list string :=
  match part with
  | Some (VStr s) => if truthy (strip s) then [strip s] else []
  | _ => []
  end.

(** The snippets one item of a result list contributes. *)
Definition item_snippets (item : value) : list string :=
  match item with
  | VObj fields =>
      flat_map (fun field => snippet_of (lookup_field field fields))
               ["snippet"; "text"; "content"; "description"]
      ++ match lookup_field "extra_snippets" fields with
         | Some (VArr extra) => flat_map (fun p => snippet_of (Some p)) extra
         | _ => []
         end
  | _ => []
  end.

(** The loop over [("results", "contexts", "documents", "items")]. *)
Definition collect_snippets (fields : list (string * value)) : list string :=
  flat_map (fun key =>
              match lookup_field key fields with
              | Some (VArr found) => flat_map item_snippets found
              | _ => []
              end)
           ["results"; "contexts"; "documents"; "items"].

(** A non-blank string under [key], stripped. *)
Definition stripped_field (key : string) (fields : list (string * value))
  : option string :=
  match lookup_field key fields with
  | Some (VStr s) => if truthy (strip s) then Some (strip s) else None
  | _ => None
  end.

(** [WebLLMContextTool._extract_context_text], over
    [json.dumps(data, ensure_ascii=False)]. *)
Definition _extract_context_text (dumps_unicode : value -> string)
    (data : value) : string :=
  match data with
  | VObj fields =>
      match stripped_field "context" fields with
      | Some s => s
      | None =>
          match stripped_field "summary" fields with
          | Some s => s
          | None =>
              match collect_snippets fields with
              | [] => dumps_unicode data
              | snippets => _normalize (join (NL +:+ NL) snippets)
              end
          end
      end
  | _ => dumps_unicode data
  end.

Section LLMContext.

(** [json.dumps(payload)] and [json.dumps(data, ensure_ascii=False)]. *)
Variable dumps : value -> string.
Variable dumps_unicode : value -> string.

(** [output_mode if output_mode in {"raw", "web_fetch"} else
    self.DEFAULT_OUTPUT_MODE] *)
Definition output_mode_of (output_mode : option string) : string :=
  match output_mode with
  | Some m =>
      if String.eqb m "raw" || String.eqb m "web_fetch" then m
      else DEFAULT_OUTPUT_MODE
  | None => DEFAULT_OUTPUT_MODE
  end.

Definition error_payload (e : string) (target : string) : value :=
  VObj [("error", VStr e); ("url", VStr target)].

(** The payload built in the [try] of [WebLLMContextTool.execute]. *)
Definition context_payload (mode query : string) (n : Z) (r : Response)
    (data : value) : value :=
  if String.eqb mode "web_fetch" then
    let found := _extract_context_text dumps_unicode data in
    VObj [("url", VStr BRAVE_LLM_CONTEXT_URL);
          ("finalUrl", VStr (default BRAVE_LLM_CONTEXT_URL (url r)));
          ("status", VInt (status_code r));
          ("extractor", VStr "brave_llm_context");
          ("truncated", VBool false);
          ("length", VInt (Z.of_nat (String.length found)));
          ("text", VStr found);
          ("data", data)]
  else
    VObj [("query", VStr query);
          ("count", VInt n);
          ("endpoint", VStr BRAVE_LLM_CONTEXT_URL);
          ("status", VInt (status_code r));
          ("data", data)].

(** [WebLLMContextTool.execute] *)
Definition context_execute (self : BraveTool) (query : string)
    (count : option Z) (output_mode : option string)
    (got posted : http_outcome) : answer * list request :=
  if negb (truthy (api_key self)) then
    (Returns "Error: BRAVE_API_KEY not configured", [])
  else
    let mode := output_mode_of output_mode in
    let n := result_count count (max_results self) in
    let '(resp, reqs) :=
      _request_context (brave_params query n) (brave_headers self)
                       got posted in
    match resp with
    | Aborted_ => (Aborts, reqs)
    | Raised_ e =>
        (Returns (dumps (error_payload e BRAVE_LLM_CONTEXT_URL)), reqs)
    | Got r =>
        match json r with
        | NotJson e =>
            (Returns (dumps (error_payload e BRAVE_LLM_CONTEXT_URL)), reqs)
        | Json data =>
            (Returns (dumps (context_payload mode query n r data)), reqs)
        end
    end.

End LLMContext.

(** *** [WebFetchTool] *)

(** [s[:n]] for [n >= 0]. *)
Fixpoint str_take (n : nat) (s : string) : string :=
  match n, s with
  | S n', String c r => String c (str_take n' r)
  | _, _ => EmptyString
  end.

(** [s[:m]] for any integer [m]: a negative [m] counts from the end. *)
Definition slice_to (s : string) (m : Z) : string :=
  if 0 <=? m then str_take (Z.to_nat m) s
  else str_take (Z.to_nat (Z.of_nat (String.length s) + m)) s.

(** [str.lower] on code points below 256. *)
Definition lower_char (c : ascii) : ascii :=
  let n := nat_of_ascii c in
  if ((65 <=? n)%nat && (n <=? 90)%nat)
     || ((192 <=? n)%nat && (n <=? 222)%nat && negb (n =? 215)%nat)
  then ascii_of_nat (n + 32) else c.

Fixpoint lower (s : string) : string :=
  match s with
  | EmptyString => EmptyString
  | String c r => String (lower_char c) (lower r)
  end.

(** What [readability.Document(text)] gives: [summary()] and [title()], or
    the exception one of them raises. *)
Inductive document : Type :=
  | Document (summary title : string)
  | Unreadable (e : string).

Section Fetch.

(** [urllib.parse.urlparse]; [json.dumps(payload)] and
    [json.dumps(..., indent=2)]; [readability.Document]; and the two
    converters of the module, [WebFetchTool._to_markdown] and [_strip_tags],
    which rest on [re] and [html.unescape]. *)
Variable urlparse : string -> parsed.
Variable dumps : value -> string.
Variable dumps_indent : value -> string.
Variable readability : string -> document.
Variable _to_markdown : string -> string.
Variable _strip_tags : string -> string.

(** Lines 257-269: the text extracted from a response and the extractor
    named, or the text of the exception raised on the way. *)
Definition page_text (r : Response) (extractMode : string)
  : string * string + string :=
  let ctype := default "" (content_type r) in
  if contains "application/json" ctype then
    match json r with
    | Json v => inl (dumps_indent v, "json")
    | NotJson e => inr e
    end
  else if contains "text/html" ctype
          || starts_with "<!doctype" (lower (str_take 256 (text r)))
          || starts_with "<html" (lower (str_take 256 (text r)))
  then
    match readability (text r) with
    | Unreadable e => inr e
    | Document summary title =>
        let body := if String.eqb extractMode "markdown"
                    then _to_markdown summary else _strip_tags summary in
        inl (if truthy title then "# " +:+ title +:+ NL +:+ NL +:+ body
             else body, "readability")
    end
  else inl (text r, "raw").

(** Lines 271-276: truncation and the payload. *)
Definition page_payload (target : string) (final : string) (r : Response)
    (found extractor : string) (max_chars : Z) : value :=
  let truncated := max_chars <? Z.of_nat (String.length found) in
  let kept := if truncated then slice_to found max_chars else found in
  VObj [("url", VStr target);
        ("finalUrl", VStr final);
        ("status", VInt (status_code r));
        ("extractor", VStr extractor);
        ("truncated", VBool truncated);
        ("length", VInt (Z.of_nat (String.length kept)));
        ("text", VStr kept)].

(** [maxChars or self.max_chars] *)
Definition effective_max (maxChars : option Z) (self_max_chars : Z) : Z :=
  match maxChars with
  | Some m => if m =? 0 then self_max_chars else m
  | None => self_max_chars
  end.

(** [WebFetchTool.execute].  [importable] tells whether
    [from readability import Document] succeeds; [got] is how the GET ends.
    A response whose [url] is absent stands for [r.url] raising, with the
    text [no_url]. *)
Definition fetch_execute (self_max_chars : Z) (importable : bool)
    (no_url : string) (target : string) (extractMode : string)
    (maxChars : option Z) (got : http_outcome) : answer * list request :=
  if negb importable then (Raises "No module named 'readability'", [])
  else
    let max_chars := effective_max maxChars self_max_chars in
    let '(is_valid, error_msg) := _validate_url urlparse target in
    if negb is_valid then
      (Returns (dumps (error_payload
                         ("URL validation failed: " +:+ error_msg) target)),
       [])
    else
      let req := Get target [] [("User-Agent", USER_AGENT)] 30
                     (Some MAX_REDIRECTS) in
      match got with
      | Aborted => (Aborts, [req])
      | Failed e => (Returns (dumps (error_payload e target)), [req])
      | Responded r =>
          match status_error r with
          | Some e => (Returns (dumps (error_payload e target)), [req])
          | None =>
              match page_text r extractMode with
              | inr e => (Returns (dumps (error_payload e target)), [req])
              | inl (found, extractor) =>
                  match url r with
                  | None =>
                      (Returns (dumps (error_payload no_url target)), [req])
                  | Some final =>
                      (Returns (dumps (page_payload target final r found
                                                    extractor max_chars)),
                       [req])
                  end
              end
          end
      end.

End Fetch.

(** *** Reading a request back *)

Definition request_target (q : request) : string :=
  match q with
  | Get target _ _ _ _ => target
  | Post target _ _ _ => target
  end.

Definition request_params (q : request) : list (string * value) :=
  match q with
  | Get _ params _ _ _ => params
  | Post _ body _ _ => body
  end.

Definition request_headers (q : request) : list (string * string) :=
  match q with
  | Get _ _ headers _ _ => headers
  | Post _ _ headers _ => headers
  end.

Definition is_http_post (q : request) : bool :=
  match q with
  | Post _ _ _ _ => true
  | Get _ _ _ _ _ => false
  end.

(** [headers[k]] *)
Fixpoint header (k : string) (headers : list (string * string))
  : option string :=
  match headers with
  | [] => None
  | (k', x) :: rest => if String.eqb k k' then Some x else header k rest
  end.

(** [isinstance(v, dict)] *)
Definition is_dict (v : value) : bool :=
  match v with
  | VObj _ => true
  | _ => false
  end.

(** Whether a string holds a character that [str.strip] keeps. *)
Fixpoint has_ink (s : string) : bool :=
  match s with
  | EmptyString => false
  | String c r => negb (is_space c) || has_ink r
  end.

(** *** Scenarios: the doubles of [tests/test_tool_validation.py] *)

(** [_FakeResponse(payload, status_code)]: [raise_for_status] raises from
    400 on; there is no [url]. *)
Definition _FakeResponse (payload : value) (status : Z) : Response :=
  {| status_code := status;
     status_error := if 400 <=? status
                     then Some ("http " +:+ pretty status) else None;
     json := Json payload;
     url := None;
     text := "";
     content_type := None |}.

End Web.

(** * Properties of the QQ channel *)

Module QQFacts.
Import QQ.

(** ** [send] *)

(** C10: [send] with no client initialised returns normally, leaves the
    whole channel state as it was (so no sequence number is consumed) and only
    logs a warning, however the transport would have behaved. *)
Theorem send_without_client (st : QQChannel) (msg : OutboundMessage)
    (post : await_end) :
  _client st = None ->
  send st msg post = (st, [LogWarning "QQ client not initialized"], ReturnsNone)
  /\ _msg_seq (send st msg post).1.1 = _msg_seq st.
Proof.
  intros Hc. unfold send. rewrite Hc. done.
Qed.

Lemma send_without_client_witness :
  send (__init__ demo_config) (reply "u1" None "hi") (Raised "down")
  = (__init__ demo_config, [LogWarning "QQ client not initialized"],
     ReturnsNone)
  /\ _msg_seq (send (__init__ demo_config) (reply "u1" None "hi")
                    (Raised "down")).1.1
     = _msg_seq (__init__ demo_config).
Proof.
  apply (send_without_client (__init__ demo_config)). reflexivity.
Defined.

(** C6 as stated fails: with the transport down, [send] hands its caller the
    same [None] as after a delivery, so the failure is not reported. *)
Lemma send_failure_not_reported :
  ~ (failure_logged started (reply "u1" (Some "m7") "hi") "timeout"
     /\ failure_reported started (reply "u1" (Some "m7") "hi") "timeout"
     /\ failure_contained started (reply "u1" (Some "m7") "hi") "timeout").
Proof.
  intros (_ & Hrep & _). apply Hrep. reflexivity.
Qed.

(** C6, amended: a failure raised by the transport is logged at error level
    and swallowed; [send] returns [None] exactly as after a delivery, and no
    exception reaches its caller. *)
Theorem send_failure_logged_and_swallowed (st : QQChannel)
    (msg : OutboundMessage) (e : string) :
  is_Some (_client st) ->
  failure_logged st msg e
  /\ failure_contained st msg e
  /\ (send st msg (Raised e)).2 = (send st msg Returned).2.
Proof.
  intros [c Hc]. unfold failure_logged, failure_contained, send.
  rewrite Hc. simpl. split; [|done].
  apply list_elem_of_further, list_elem_of_here.
Qed.

Lemma send_failure_logged_and_swallowed_witness :
  failure_logged started (reply "u1" (Some "m7") "hi") "timeout"
  /\ failure_contained started (reply "u1" (Some "m7") "hi") "timeout"
  /\ (send started (reply "u1" (Some "m7") "hi") (Raised "timeout")).2
     = (send started (reply "u1" (Some "m7") "hi") Returned).2.
Proof.
  apply (send_failure_logged_and_swallowed started). simpl. eauto.
Defined.

(** ** [_run_bot] *)

Lemma run_bot_not_running (script : list await_obs) (st : QQChannel) :
  _running st = false -> _run_bot script st = (st, [], LoopExited).
Proof. intros H. destruct script; simpl; by rewrite H. Qed.

Lemma during_stop_clears (m : meanwhile) (st : QQChannel) :
  m <> Quiet -> _running (during m st) = false.
Proof. by destruct m. Qed.

(** C5: the loop is at its head with the flag set and a client; the
    connection attempt [a] fails with an exception, and [stop()] is called
    while that attempt or the backoff wait [b] that follows it is pending.
    Then the connection was started once and is not started again, whatever
    the rest of the script holds; the flag is clear, the loop is not left
    waiting, and it exits normally when the wait itself was not cancelled. *)
Theorem no_reconnect_after_stop (st : QQChannel) (a b : await_obs)
    (rest : list await_obs) (e : string) :
  _running st = true ->
  is_Some (_client st) ->
  ended a = Raised e ->
  env a <> Quiet \/ env b <> Quiet ->
  attempts (_run_bot (a :: b :: rest) st).1.2 = 1%nat
  /\ _running (_run_bot (a :: b :: rest) st).1.1 = false
  /\ (_run_bot (a :: b :: rest) st).2 <> LoopSuspended
  /\ (ended b = Returned -> (_run_bot (a :: b :: rest) st).2 = LoopExited).
Proof.
  intros Hrun [c Hc] Ha Hstop.
  cbn [_run_bot]. rewrite Hrun, Hc, Ha. unfold backoff.
  assert (env a = Quiet \/ env a <> Quiet) as [Hq|Hq]
    by (destruct (env a); auto).
  - destruct Hstop as [Hs|Hs]; [done|].
    rewrite Hq. cbn [during]. rewrite Hrun. unfold sleep_then.
    pose proof (during_stop_clears (env b) st Hs) as Hb.
    destruct (ended b) eqn:Eb.
    + rewrite (run_bot_not_running rest _ Hb). cbn. by rewrite Hb.
    + cbn. by rewrite Hb.
    + cbn. by rewrite Hb.
  - pose proof (during_stop_clears (env a) st Hq) as Hb.
    rewrite Hb. rewrite (run_bot_not_running _ _ Hb). cbn. by rewrite Hb.
Qed.

Lemma no_reconnect_after_stop_witness :
  attempts (_run_bot [ {| env := Quiet; ended := Raised "reset" |};
                       {| env := StopCalled; ended := Returned |};
                       {| env := Quiet; ended := Returned |} ] started).1.2
  = 1%nat
  /\ _running (_run_bot [ {| env := Quiet; ended := Raised "reset" |};
                          {| env := StopCalled; ended := Returned |};
                          {| env := Quiet; ended := Returned |} ] started).1.1
     = false
  /\ (_run_bot [ {| env := Quiet; ended := Raised "reset" |};
                 {| env := StopCalled; ended := Returned |};
                 {| env := Quiet; ended := Returned |} ] started).2
     <> LoopSuspended
  /\ (ended {| env := StopCalled; ended := Returned |} = Returned ->
      (_run_bot [ {| env := Quiet; ended := Raised "reset" |};
                  {| env := StopCalled; ended := Returned |};
                  {| env := Quiet; ended := Returned |} ] started).2
      = LoopExited).
Proof.
  apply (no_reconnect_after_stop started
           {| env := Quiet; ended := Raised "reset" |}
           {| env := StopCalled; ended := Returned |}
           [ {| env := Quiet; ended := Returned |} ] "reset").
  - reflexivity.
  - simpl. eauto.
  - reflexivity.
  - right. simpl. discriminate.
Defined.

(** ** The sequencer: [_msg_seq] *)

Lemma seq_get_bump_same (k : string * string) (m : gmap (string * string) Z) :
  seq_get (seq_bump k m) k = seq_get m k + 1.
Proof. unfold seq_bump, seq_get at 1. by rewrite lookup_insert_eq. Qed.

Lemma seq_get_bump_other (k k' : string * string)
    (m : gmap (string * string) Z) :
  k <> k' -> seq_get (seq_bump k m) k' = seq_get m k'.
Proof. intros H. unfold seq_bump, seq_get. by rewrite lookup_insert_ne. Qed.

Lemma issued_app (k : string * string) (e1 e2 : list event) :
  issued k (e1 ++ e2) = issued k e1 ++ issued k e2.
Proof.
  induction e1 as [|x e1 IH]; [done|].
  destruct x; simpl; try apply IH. case_bool_decide; simpl; by rewrite IH.
Qed.

(** Whether an operation hands a number to the transport under [k]. *)
Lemma step_issues (k : string * string) (st : QQChannel) (o : op) :
  (is_send_under k o = true /\ is_Some (_client st)
   /\ issued k (step st o).2 = [seq_get (_msg_seq st) k + 1]
   /\ seq_get (_msg_seq (step st o).1) k = seq_get (_msg_seq st) k + 1)
  \/ ((is_send_under k o = false \/ _client st = None)
      /\ issued k (step st o).2 = []
      /\ seq_get (_msg_seq (step st o).1) k = seq_get (_msg_seq st) k).
Proof.
  destruct o as [msg post|data handled|av c| |]; simpl.
  - unfold send. destruct (_client st) as [c|] eqn:Hc; [|right; auto].
    case_bool_decide as Hk.
    + left. split; [done|]. split; [eauto|].
      unfold key_of_post. fold (seq_key msg).
      destruct post; simpl; unfold key_of_post; fold (seq_key msg);
        rewrite bool_decide_eq_true_2 by done;
        subst k; by rewrite seq_get_bump_same.
    + right. split; [auto|].
      destruct post; simpl; unfold key_of_post; fold (seq_key msg);
        rewrite bool_decide_eq_false_2 by done;
        by rewrite seq_get_bump_other.
  - right. split; [auto|]. unfold _on_message.
    destruct (dedup _ _); [|done].
    destruct (negb (truthy (sender_openid data))); [done|].
    destruct (negb (truthy (stripped_content data))); [done|].
    by destruct handled.
  - right. split; [auto|]. unfold start_setup.
    destruct (negb av); [done|]. by destruct (_ || _).
  - right. auto.
  - right. auto.
Qed.

Lemma run_cons (st : QQChannel) (o : op) (rest : list op) :
  run st (o :: rest)
  = ((run (step st o).1 rest).1, (step st o).2 ++ (run (step st o).1 rest).2).
Proof.
  simpl. destruct (step st o) as [st1 e1]. simpl.
  by destruct (run st1 rest).
Qed.

(** Along any history the numbers issued under [k] continue the counter of
    [k] one by one, and the counter ends at the last number issued. *)
Lemma issued_run (k : string * string) (ops : list op) (st : QQChannel) :
  issued k (run st ops).2
  = (fun i => seq_get (_msg_seq st) k + Z.of_nat i)
      <$> seq 1 (length (issued k (run st ops).2))
  /\ seq_get (_msg_seq (run st ops).1) k
     = seq_get (_msg_seq st) k + Z.of_nat (length (issued k (run st ops).2)).
Proof.
  revert st. induction ops as [|o ops IH]; intros st.
  - simpl. split; [done|lia].
  - rewrite run_cons. cbn [fst snd]. rewrite issued_app.
    destruct (IH (step st o).1) as [IH1 IH2].
    destruct (step_issues k st o) as [(_ & _ & Hi & Hs)|(_ & Hi & Hs)];
      rewrite Hi, Hs in *.
    + cbn [app length seq fmap list_fmap]. split.
      * f_equal. rewrite IH1 at 1.
        rewrite <- (fmap_S_seq 1), <- list_fmap_compose.
        apply list_fmap_ext. intros _ i _. simpl. lia.
      * rewrite IH2. lia.
    + simpl. split; [exact IH1|exact IH2].
Qed.

Lemma run_counter_le (k : string * string) (ops : list op) (st : QQChannel) :
  seq_get (_msg_seq st) k <= seq_get (_msg_seq (run st ops).1) k.
Proof. destruct (issued_run k ops st) as [_ ->]. lia. Qed.

Lemma send_frame (st : QQChannel) (msg : OutboundMessage) (post : await_end) :
  config (send st msg post).1.1 = config st
  /\ _client (send st msg post).1.1 = _client st.
Proof.
  unfold send. destruct (_client st) eqn:Hc; [|done].
  destruct post; simpl; by rewrite ?Hc.
Qed.

(** Two channels that a history cannot tell apart as far as key [k] goes. *)
Lemma issued_without_other_keys (k : string * string) (ops : list op)
    (st st' : QQChannel) :
  config st = config st' ->
  _client st = _client st' ->
  seq_get (_msg_seq st) k = seq_get (_msg_seq st') k ->
  issued k (run st ops).2 = issued k (run st' (without_other_keys k ops)).2.
Proof.
  revert st st'. induction ops as [|o ops IH]; intros st st' Hcfg Hcl Hseq;
    [done|].
  rewrite run_cons. cbn [snd]. rewrite issued_app.
  unfold without_other_keys. cbn [List.filter].
  fold (without_other_keys k ops).
  destruct o as [msg post|data handled|av c| |]; cbn [is_send is_send_under negb orb].
  - case_bool_decide as Hk.
    + rewrite run_cons. cbn [snd]. rewrite issued_app.
      cbn [step]. unfold send. rewrite <- Hcl.
      destruct (_client st) as [c|] eqn:Hc.
      * subst k.
        destruct post; cbn [fst snd issued set_msg_seq _msg_seq];
          rewrite !seq_get_bump_same, Hseq; f_equal;
          apply IH; cbn [set_msg_seq config _client _msg_seq];
          rewrite ?seq_get_bump_same; congruence.
      * cbn. apply IH; congruence.
    + destruct (step_issues k st (OpSend msg post))
        as [(Hu & _)|(_ & Hi & Hs)].
      { simpl in Hu. by rewrite bool_decide_eq_false_2 in Hu. }
      rewrite Hi. cbn [app].
      destruct (send_frame st msg post) as [Hf1 Hf2].
      cbn [step] in *. apply IH; congruence.
  - rewrite run_cons. cbn [snd]. rewrite issued_app.
    assert (forall s : QQChannel,
              issued k (step s (OpMessage data handled)).2 = []
              /\ config (step s (OpMessage data handled)).1 = config s
              /\ _client (step s (OpMessage data handled)).1 = _client s
              /\ _msg_seq (step s (OpMessage data handled)).1 = _msg_seq s)
      as Hm.
    { intros s. cbn [step]. unfold _on_message.
      destruct (dedup _ _); [|done].
      destruct (negb (truthy (sender_openid data))); [done|].
      destruct (negb (truthy (stripped_content data))); [done|].
      by destruct handled. }
    destruct (Hm st) as (-> & ? & ? & ?), (Hm st') as (-> & ? & ? & ?).
    cbn [app]. apply IH; congruence.
  - rewrite run_cons. cbn [snd]. rewrite issued_app.
    cbn [step]. unfold start_setup. rewrite <- Hcfg.
    destruct (negb av); [cbn; by apply IH|].
    destruct (_ || _); cbn; by apply IH.
  - rewrite run_cons. cbn. by apply IH.
  - rewrite run_cons. cbn. by apply IH.
Qed.

Lemma seq_from_sorted (n : nat) (j : nat) :
  StronglySorted Z.lt (Z.of_nat <$> seq j n).
Proof.
  revert j. induction n as [|n IH]; intros j; simpl; constructor; [apply IH|].
  apply Forall_forall. intros x Hx.
  apply list_elem_of_fmap in Hx as (i & -> & Hi).
  apply elem_of_seq in Hi. lia.
Qed.

Lemma run_snoc (st : QQChannel) (ops : list op) (o : op) :
  run st (ops ++ [o])
  = ((step (run st ops).1 o).1, (run st ops).2 ++ (step (run st ops).1 o).2).
Proof.
  revert st. induction ops as [|o' ops IH]; intros st.
  - cbn [app run fst snd]. destruct (step st o) as [st1 e1]. cbn.
    by rewrite app_nil_r.
  - rewrite <- app_comm_cons, !run_cons, IH. cbn [fst snd].
    by rewrite app_assoc.
Qed.

(** A send under [k] with a client present hands the transport the counter
    of [k] plus one, in a [post_c2c_message] call for that chat and text. *)
Lemma send_posts_next (st : QQChannel) (msg : OutboundMessage)
    (post : await_end) :
  is_Some (_client st) ->
  exists rest,
    (send st msg post).1.2
    = PostC2C (chat_id msg) 0 (content msg) (reply_msg_id msg)
              (seq_get (_msg_seq st) (seq_key msg) + 1) :: rest
    /\ issued (seq_key msg) rest = [].
Proof.
  intros [c Hc]. unfold send. rewrite Hc.
  destruct post; cbn [fst snd set_msg_seq _msg_seq];
    rewrite seq_get_bump_same; eauto.
Qed.

(** C3: from [__init__], along any history of the channel, the numbers
    handed to the transport under a conversation key are 1, 2, 3, ... in
    order; hence strictly increasing and never reused; and they are the same
    when every send under another key is left out of the history.  Every
    send under the key made while a client is present is handed the next
    number: it calls [post_c2c_message] with one more than the count of the
    numbers issued under the key so far (so the first send under a key is
    handed 1), and the history extended by that send has this number
    appended to the numbers issued. *)
Theorem sequence_numbers_per_key (cfg : QQConfig) (ops : list op)
    (k : string * string) :
  issued k (run (__init__ cfg) ops).2
  = Z.of_nat <$> seq 1 (length (issued k (run (__init__ cfg) ops).2))
  /\ StronglySorted Z.lt (issued k (run (__init__ cfg) ops).2)
  /\ NoDup (issued k (run (__init__ cfg) ops).2)
  /\ issued k (run (__init__ cfg) ops).2
     = issued k (run (__init__ cfg) (without_other_keys k ops)).2
  /\ (forall (msg : OutboundMessage) (post : await_end),
        seq_key msg = k ->
        is_Some (_client (after (__init__ cfg) ops)) ->
        (exists rest,
           (send (after (__init__ cfg) ops) msg post).1.2
           = PostC2C (chat_id msg) 0 (content msg) (reply_msg_id msg)
               (Z.of_nat (length (issued k (run (__init__ cfg) ops).2)) + 1)
             :: rest)
        /\ posted_seq (send (after (__init__ cfg) ops) msg post)
           = Some (Z.of_nat (length (issued k (run (__init__ cfg) ops).2))
                   + 1)
        /\ issued k (run (__init__ cfg) (ops ++ [OpSend msg post])).2
           = issued k (run (__init__ cfg) ops).2
             ++ [Z.of_nat (length (issued k (run (__init__ cfg) ops).2))
                 + 1]).
Proof.
  destruct (issued_run k ops (__init__ cfg)) as [H Hcount].
  assert (seq_get (_msg_seq (__init__ cfg)) k = 0) as H0.
  { unfold seq_get. simpl. by rewrite lookup_empty. }
  rewrite H0 in H, Hcount.
  assert (issued k (run (__init__ cfg) ops).2
          = Z.of_nat <$> seq 1 (length (issued k (run (__init__ cfg) ops).2)))
    as Heq.
  { rewrite H at 1. apply list_fmap_ext. intros _ i _. lia. }
  split; [exact Heq|]. split; [|split; [|split]].
  - rewrite Heq. apply seq_from_sorted.
  - rewrite Heq. apply NoDup_fmap; [apply _|apply NoDup_seq].
  - by apply issued_without_other_keys.
  - intros msg post Hk Hcl.
    destruct (send_posts_next (after (__init__ cfg) ops) msg post Hcl)
      as (rest & Hev & Hrest).
    subst k. unfold after in Hev, Hrest |- *. rewrite Hcount in Hev.
    rewrite Z.add_0_l in Hev.
    split; [eauto|]. split.
    + unfold posted_seq. by rewrite Hev.
    + rewrite run_snoc. cbn [fst snd step]. rewrite issued_app, Hev.
      f_equal. cbn [issued]. unfold key_of_post. fold (seq_key msg).
      rewrite bool_decide_eq_true_2 by done. by rewrite Hrest.
Qed.

Lemma sequence_numbers_per_key_witness :
  posted_seq
    (send (after (__init__ demo_config)
             [OpStart true demo_client;
              OpSend (reply "u1" (Some "m7") "a") Returned;
              OpSend (reply "u2" None "x") (Raised "timeout")])
          (reply "u1" (Some "m7") "b") Returned)
  = Some (Z.of_nat
            (length
               (issued (seq_key (reply "u1" (Some "m7") "b"))
                  (run (__init__ demo_config)
                     [OpStart true demo_client;
                      OpSend (reply "u1" (Some "m7") "a") Returned;
                      OpSend (reply "u2" None "x") (Raised "timeout")]).2))
          + 1)
  /\ issued (seq_key (reply "u1" (Some "m7") "b"))
       (run (__init__ demo_config)
          ([OpStart true demo_client;
            OpSend (reply "u1" (Some "m7") "a") Returned;
            OpSend (reply "u2" None "x") (Raised "timeout")]
           ++ [OpSend (reply "u1" (Some "m7") "b") Returned])).2
     = [1; 2].
Proof.
  destruct (sequence_numbers_per_key demo_config
              [OpStart true demo_client;
               OpSend (reply "u1" (Some "m7") "a") Returned;
               OpSend (reply "u2" None "x") (Raised "timeout")]
              (seq_key (reply "u1" (Some "m7") "b")))
    as (_ & _ & _ & _ & H).
  destruct (H (reply "u1" (Some "m7") "b") Returned) as (_ & H2 & H3).
  - reflexivity.
  - vm_compute. eauto.
  - split; [exact H2|]. rewrite H3. reflexivity.
Defined.

Lemma posted_seq_send (st : QQChannel) (msg : OutboundMessage)
    (post : await_end) (n : Z) :
  posted_seq (send st msg post) = Some n ->
  is_Some (_client st)
  /\ n = seq_get (_msg_seq st) (seq_key msg) + 1
  /\ seq_get (_msg_seq (after_send st msg post)) (seq_key msg) = n.
Proof.
  unfold posted_seq, after_send, send.
  destruct (_client st) as [c|]; [|done].
  destruct post; cbn [fst snd set_msg_seq _msg_seq];
    rewrite seq_get_bump_same; intros [= <-]; eauto.
Qed.

(** C8: a delivered send under key [k] used the number [n1]; later, with a
    client present, a send under [k] fails in the transport; later again a
    send under [k] is delivered with the number [n3].  The failed send has
    advanced the counter of [k] by one and nothing takes that back, so
    [n3] is at least [n1 + 2] (exactly that when nothing else happens in
    between). *)
Theorem failed_send_consumes_number (st0 : QQChannel)
    (m1 m2 m3 : OutboundMessage) (mid1 mid2 : list op) (e : string)
    (n1 n3 : Z) :
  seq_key m1 = seq_key m2 ->
  seq_key m3 = seq_key m2 ->
  posted_seq (send st0 m1 Returned) = Some n1 ->
  is_Some (_client (after (after_send st0 m1 Returned) mid1)) ->
  posted_seq
    (send (after (after_send (after (after_send st0 m1 Returned) mid1)
                             m2 (Raised e)) mid2) m3 Returned) = Some n3 ->
  seq_get (_msg_seq (after_send (after (after_send st0 m1 Returned) mid1)
                                m2 (Raised e))) (seq_key m2)
  = seq_get (_msg_seq (after (after_send st0 m1 Returned) mid1)) (seq_key m2)
    + 1
  /\ n1 + 2 <= n3
  /\ (mid1 = [] -> mid2 = [] -> n3 = n1 + 2).
Proof.
  intros K1 K3 H1 [c Hc] H3.
  apply posted_seq_send in H1 as (_ & _ & H1).
  apply posted_seq_send in H3 as (_ & H3 & _).
  rewrite K1 in H1. rewrite K3 in H3.
  set (st1 := after (after_send st0 m1 Returned) mid1) in *.
  assert (seq_get (_msg_seq (after_send st1 m2 (Raised e))) (seq_key m2)
          = seq_get (_msg_seq st1) (seq_key m2) + 1) as Hbump.
  { unfold after_send, send. rewrite Hc. cbn [fst snd set_msg_seq _msg_seq].
    apply seq_get_bump_same. }
  pose proof (run_counter_le (seq_key m2) mid1 (after_send st0 m1 Returned))
    as Hle1.
  pose proof (run_counter_le (seq_key m2) mid2
                (after_send st1 m2 (Raised e))) as Hle2.
  fold (after (after_send st0 m1 Returned) mid1) in Hle1.
  fold (after (after_send st1 m2 (Raised e)) mid2) in Hle2.
  fold st1 in Hle1.
  split; [exact Hbump|]. split; [lia|].
  intros -> ->. unfold st1, after in *. simpl in *. lia.
Qed.

Lemma failed_send_consumes_number_witness :
  seq_get (_msg_seq (after_send
                       (after (after_send started
                                 (reply "u1" (Some "m7") "a") Returned) [])
                       (reply "u1" (Some "m7") "b") (Raised "timeout")))
          (seq_key (reply "u1" (Some "m7") "b"))
  = seq_get (_msg_seq (after (after_send started
                                (reply "u1" (Some "m7") "a") Returned) []))
            (seq_key (reply "u1" (Some "m7") "b")) + 1
  /\ 1 + 2 <= 3
  /\ (@nil op = [] -> @nil op = [] -> 3 = 1 + 2).
Proof.
  apply (failed_send_consumes_number started
           (reply "u1" (Some "m7") "a") (reply "u1" (Some "m7") "b")
           (reply "u1" (Some "m7") "c") [] [] "timeout" 1 3).
  - reflexivity.
  - reflexivity.
  - reflexivity.
  - simpl. eauto.
  - reflexivity.
Defined.

(** ** The dedup cache: [_processed_ids] *)

Lemma deque_append_maxlen (x : string) (d : deque) :
  maxlen (deque_append x d) = maxlen d.
Proof. done. Qed.





(** What [_on_message] does to the cache, whatever the event holds
    otherwise and however the handler ends. *)
Lemma after_message_ids (st : QQChannel) (data : C2CMessage)
    (handled : await_end) :
  _processed_ids (after_message st data handled)
  = match dedup (_processed_ids st) (message_id data) with
    | Some d => d
    | None => _processed_ids st
    end.
Proof.
  unfold after_message, _on_message.
  destruct (dedup _ _); [|done].
  destruct (negb (truthy (sender_openid data))); [done|].
  destruct (negb (truthy (stripped_content data))); [done|].
  by destruct handled.
Qed.

Lemma dedup_fresh (d : deque) (x : string) :
  truthy x = true -> x ∉ items d -> dedup d x = Some (deque_append x d).
Proof.
  intros Ht Hx. unfold dedup, deque_contains. rewrite Ht.
  by rewrite bool_decide_eq_false_2.
Qed.

Lemma dedup_cached (d : deque) (x : string) :
  truthy x = true -> x ∈ items d -> dedup d x = None.
Proof.
  intros Ht Hx. unfold dedup, deque_contains. rewrite Ht.
  by rewrite bool_decide_eq_true_2.
Qed.

Lemma on_message_duplicate (st : QQChannel) (data : C2CMessage)
    (handled : await_end) :
  truthy (message_id data) = true ->
  cached (message_id data) st ->
  _on_message st data handled = (st, [], ReturnsNone, ExitDuplicate).
Proof.
  intros Ht Hc. unfold _on_message. by rewrite (dedup_cached _ _ Ht Hc).
Qed.


(** Right after it is appended an id is the newest of the cache. *)
Lemma deque_append_recent (j : nat) (x : string) (d : deque) :
  (j < maxlen d)%nat -> recent_within j x (deque_append x d).
Proof.
  intros Hm. unfold recent_within, deque_append. cbn [items maxlen].
  destruct (maxlen d <? length (items d ++ [x]))%nat eqn:E.
  - destruct (items d) as [|y l] eqn:Hl.
    + apply Nat.ltb_lt in E. simpl in E. lia.
    + exists l, []. simpl. split; [done|lia].
  - exists (items d), []. simpl. split; [done|lia].
Qed.

Lemma recent_within_cached (j : nat) (x : string) (d : deque) :
  recent_within j x d -> x ∈ items d.
Proof.
  intros (l1 & l2 & -> & _). apply elem_of_app. right.
  apply list_elem_of_here.
Qed.

(** One append uses up one unit of the slack. *)
Lemma deque_append_keeps (j : nat) (x y : string) (d : deque) :
  recent_within (S j) x d -> recent_within j x (deque_append y d).
Proof.
  intros (l1 & l2 & Hi & Hlen). unfold recent_within, deque_append.
  cbn [items maxlen]. rewrite Hi.
  destruct (maxlen d <? length ((l1 ++ x :: l2) ++ [y]))%nat eqn:E.
  - apply Nat.ltb_lt in E. destruct l1 as [|a l1].
    + simpl in E. rewrite length_app in E. simpl in E. lia.
    + exists l1, (l2 ++ [y]). split.
      * simpl. by rewrite <- app_assoc.
      * rewrite length_app. simpl. lia.
  - exists l1, (l2 ++ [y]). split.
    + by rewrite <- app_assoc.
    + rewrite length_app. simpl. lia.
Qed.

Lemma recent_within_weaken (j : nat) (x : string) (d : deque) :
  recent_within (S j) x d -> recent_within j x d.
Proof. intros (l1 & l2 & Hi & Hlen). exists l1, l2. split; [done|lia]. Qed.

Lemma recent_within_weaken_all (j : nat) (x : string) (d : deque) :
  recent_within (j + 0) x d -> recent_within 0 x d.
Proof. intros (l1 & l2 & Hi & Hlen). exists l1, l2. split; [done|lia]. Qed.

Lemma step_ids (st : QQChannel) (o : op) :
  _processed_ids (step st o).1 = _processed_ids st
  \/ exists y, _processed_ids (step st o).1
               = deque_append y (_processed_ids st).
Proof.
  destruct o as [msg post|data handled|av c| |]; cbn [step].
  - left. unfold send. destruct (_client st); [|done]. by destruct post.
  - fold (after_message st data handled). rewrite after_message_ids.
    unfold dedup. destruct (truthy (message_id data)); [|by left].
    destruct (deque_contains _ _); [by left|right; eauto].
  - left. unfold start_setup. destruct (negb av); [done|].
    by destruct (_ || _).
  - by left.
  - by left.
Qed.

Lemma step_keeps (j : nat) (x : string) (st : QQChannel) (o : op) :
  recent_within (S j) x (_processed_ids st) ->
  recent_within j x (_processed_ids (step st o).1).
Proof.
  intros H. destruct (step_ids st o) as [->|[y ->]].
  - by apply recent_within_weaken.
  - by apply deque_append_keeps.
Qed.

Lemma run_keeps (ops : list op) (j : nat) (x : string) (st : QQChannel) :
  recent_within (length ops + j) x (_processed_ids st) ->
  recent_within j x (_processed_ids (after st ops)).
Proof.
  revert st. induction ops as [|o ops IH]; intros st H; [done|].
  unfold after. rewrite run_cons. cbn [fst]. apply IH.
  apply step_keeps. exact H.
Qed.

Lemma after_cons (st : QQChannel) (o : op) (ops : list op) :
  after st (o :: ops) = after (step st o).1 ops.
Proof. unfold after. by rewrite run_cons. Qed.



(** C9: an event with a non-empty id that the cache does not hold, and with
    no sender or with blank content, is dropped without reaching
    [_handle_message], yet its id is cached; after fewer than [maxlen] further
    operations on the channel, an event with the same id is dropped as a
    duplicate, whatever sender and content it carries. *)
Theorem id_recorded_before_checks (st : QQChannel) (data : C2CMessage)
    (h : await_end) (mid : list op) (data' : C2CMessage) (h' : await_end) :
  truthy (message_id data) = true ->
  ~ cached (message_id data) st ->
  truthy (sender_openid data) = false
    \/ truthy (stripped_content data) = false ->
  (length mid < maxlen (_processed_ids st))%nat ->
  message_id data' = message_id data ->
  (exit_of st data h = ExitNoSender \/ exit_of st data h = ExitEmptyContent)
  /\ forwarded st data h = false
  /\ cached (message_id data) (after_message st data h)
  /\ _on_message (after (after_message st data h) mid) data' h'
     = (after (after_message st data h) mid, [], ReturnsNone, ExitDuplicate).
Proof.
  intros Ht Hnew Hdrop Hlen Hsame.
  assert (recent_within (length mid + 0) (message_id data)
            (_processed_ids (after_message st data h))) as Hrec.
  { rewrite after_message_ids, (dedup_fresh _ _ Ht Hnew).
    apply deque_append_recent. lia. }
  split; [|split; [|split]].
  - unfold exit_of, _on_message. rewrite (dedup_fresh _ _ Ht Hnew).
    destruct Hdrop as [->| ->]; simpl; [by left|].
    destruct (negb (truthy (sender_openid data))); [by left|by right].
  - unfold forwarded, _on_message. rewrite (dedup_fresh _ _ Ht Hnew).
    destruct Hdrop as [->| ->]; simpl; [done|].
    by destruct (negb (truthy (sender_openid data))).
  - eapply recent_within_cached, recent_within_weaken_all, Hrec.
  - apply on_message_duplicate; [by rewrite Hsame|].
    rewrite Hsame. eapply recent_within_cached. apply run_keeps, Hrec.
Qed.


Lemma id_recorded_before_checks_witness :
  (exit_of (__init__ demo_config) (anonymous "lost" "hello") Returned
   = ExitNoSender
   \/ exit_of (__init__ demo_config) (anonymous "lost" "hello") Returned
      = ExitEmptyContent)
  /\ forwarded (__init__ demo_config) (anonymous "lost" "hello") Returned
     = false
  /\ cached (message_id (anonymous "lost" "hello"))
            (after_message (__init__ demo_config) (anonymous "lost" "hello")
                           Returned)
  /\ _on_message
       (after (after_message (__init__ demo_config)
                             (anonymous "lost" "hello") Returned)
              (present (numbered 3)))
       (inbound "lost" "u1" "hello") Returned
     = (after (after_message (__init__ demo_config)
                             (anonymous "lost" "hello") Returned)
              (present (numbered 3)),
        [], ReturnsNone, ExitDuplicate).
Proof.
  apply (id_recorded_before_checks (__init__ demo_config)
           (anonymous "lost" "hello") Returned (present (numbered 3))
           (inbound "lost" "u1" "hello") Returned).
  - reflexivity.
  - unfold cached. simpl. apply not_elem_of_nil.
  - left. reflexivity.
  - simpl. lia.
  - reflexivity.
Defined.

End QQFacts.

(** * Properties of the validator and the registry *)

Module ToolsFacts.
Import Tools.

(** ** The tests of [tests/test_tool_validation.py] on the model *)

Example test_validate_params_missing_required :
  validate sample_parameters (VObj [("query", VStr "hi")])
  = ["missing required count"].
Proof. reflexivity. Qed.

Example test_validate_params_type_and_range :
  validate sample_parameters (VObj [("query", VStr "hi"); ("count", VInt 0)])
  = ["count must be >= 1"]
  /\ validate sample_parameters
       (VObj [("query", VStr "hi"); ("count", VStr "2")])
     = ["count should be integer"].
Proof. split; reflexivity. Qed.

Example test_validate_params_enum_and_min_length :
  validate sample_parameters
    (VObj [("query", VStr "h"); ("count", VInt 2); ("mode", VStr "slow")])
  = ["query must be at least 2 chars"; "mode must be one of {fast, full}"].
Proof. reflexivity. Qed.

Example test_validate_params_nested_object_and_array :
  validate sample_parameters
    (VObj [("query", VStr "hi"); ("count", VInt 2);
           ("meta", VObj [("flags", VArr [VInt 1; VStr "ok"])])])
  = ["missing required meta.tag"; "meta.flags[0] should be string"].
Proof. reflexivity. Qed.

Example test_validate_params_ignores_unknown_fields :
  validate sample_parameters
    (VObj [("query", VStr "hi"); ("count", VInt 2); ("extra", VStr "x")])
  = [].
Proof. reflexivity. Qed.

Example test_registry_returns_validation_error :
  execute (register SampleTool ∅) "sample" (VObj [("query", VStr "hi")])
  = (Result "Invalid parameters: missing required count", []).
Proof. reflexivity. Qed.

(** ** The shape of [validate_at] *)

(** Induction over schemas that reaches the schemas nested under
    [properties] and [items]. *)
Lemma schema_nested_ind (P : schema -> Prop) :
  (forall m e, P (SString m e)) ->
  (forall a b, P (SInteger a b)) ->
  (forall props req, Forall (fun p => P p.2) props -> P (SObject props req)) ->
  (forall sub, P sub -> P (SArray (Some sub))) ->
  P (SArray None) ->
  forall s, P s.
Proof.
  intros HS HI HO HA HN. fix IH 1. intros [m e|a b|props req|items].
  - apply HS.
  - apply HI.
  - apply HO. induction props as [|[k sub] props IHp]; constructor.
    + apply IH.
    + apply IHp.
  - destruct items as [sub|]; [apply HA, IH|apply HN].
Qed.

Lemma validate_at_object (props : list (string * schema)) (req : list string)
    (fields : list (string * value)) (path : string) :
  validate_at (SObject props req) (VObj fields) path
  = missing_required path req fields
    ++ flat_map (field_errors validate_at path fields) props.
Proof.
  cbn [validate_at]. f_equal.
  induction props as [|[k sub] props IH]; [done|].
  cbn [flat_map]. rewrite <- IH. done.
Qed.

Lemma validate_at_array (sub : schema) (xs : list value) (path : string) :
  validate_at (SArray (Some sub)) (VArr xs) path
  = element_errors (validate_at sub) path 0 xs.
Proof.
  cbn [validate_at]. generalize 0%nat.
  induction xs as [|x xs IH]; intros i; [done|].
  cbn [element_errors]. by rewrite <- IH.
Qed.

(** A value of the wrong runtime type yields the type error alone. *)
Lemma validate_at_mismatch (s : schema) (v : value) (path : string) :
  runtime_type v <> Some (declared_type s) ->
  validate_at s v path = [type_error path (declared_type s)].
Proof. destruct s, v; simpl; done. Qed.

(** ** When each check is silent *)

Lemma flat_map_nil {A B : Type} (f : A -> list B) (l : list A) :
  flat_map f l = [] <-> Forall (fun x => f x = []) l.
Proof.
  induction l as [|x l IH]; simpl.
  - split; [constructor|done].
  - rewrite Forall_cons, <- IH. split.
    + intros H. by apply app_eq_nil in H.
    + intros [-> ->]. done.
Qed.

Lemma missing_required_nil (path : string) (req : list string)
    (fields : list (string * value)) :
  missing_required path req fields = []
  <-> forall k, k ∈ req -> is_Some (lookup_field k fields).
Proof.
  unfold missing_required. rewrite flat_map_nil, Forall_forall.
  split; intros H k Hk; specialize (H k Hk).
  - destruct (lookup_field k fields); [eauto|done].
  - by destruct H as [x ->].
Qed.

Lemma check_enum_nil (x : string) (e : list string) (msg : string) :
  (if bool_decide (x ∈ e) then [] else [msg]) = [] <-> x ∈ e.
Proof. case_bool_decide; split; done. Qed.

Lemma check_string_nil (path : string) (m : option Z)
    (e : option (list string)) (x : string) :
  check_string path m e x = []
  <-> (forall n, m = Some n -> n <= Z.of_nat (String.length x))
      /\ (forall l, e = Some l -> x ∈ l).
Proof.
  unfold check_string. destruct m as [n|].
  - destruct (Z.ltb_spec (Z.of_nat (String.length x)) n) as [Hlt|Hge].
    + split; [done|]. intros [H _]. specialize (H n eq_refl). lia.
    + destruct e as [l|].
      * rewrite check_enum_nil. split.
        -- intros Hx. split; [by intros ? [= <-]|by intros ? [= <-]].
        -- intros [_ H]. by apply H.
      * split; [|done]. intros _. split; [by intros ? [= <-]|done].
  - destruct e as [l|].
    + rewrite check_enum_nil. split.
      * intros Hx. split; [done|by intros ? [= <-]].
      * intros [_ H]. by apply H.
    + split; done.
Qed.

Lemma check_integer_nil (path : string) (mn mx : option Z) (n : Z) :
  check_integer path mn mx n = []
  <-> (forall a, mn = Some a -> a <= n) /\ (forall b, mx = Some b -> n <= b).
Proof.
  unfold check_integer. split.
  - intros H. apply app_eq_nil in H as [H1 H2]. split.
    + intros a ->. destruct (Z.ltb_spec n a); [done|lia].
    + intros b ->. destruct (Z.ltb_spec b n); [done|lia].
  - intros [H1 H2].
    destruct mn as [a|]; [specialize (H1 a eq_refl)|];
      destruct mx as [b|]; [specialize (H2 b eq_refl)| |specialize (H2 b eq_refl)|];
      repeat match goal with
             | |- context [(?p <? ?q)] => destruct (Z.ltb_spec p q); try lia
             end; done.
Qed.

Lemma element_errors_nil (check : value -> string -> list string)
    (Q : value -> Prop) (path : string) (xs : list value) (i : nat) :
  (forall x p, x ∈ xs -> (check x p = [] <-> Q x)) ->
  element_errors check path i xs = [] <-> Forall Q xs.
Proof.
  revert i. induction xs as [|x xs IH]; intros i Hq; simpl.
  - split; [constructor|done].
  - rewrite Forall_cons, <- (IH (S i)), <- (Hq x (index_path path i)).
    + split; [by intros H%app_eq_nil|by intros [-> ->]].
    + apply list_elem_of_here.
    + intros y p Hy. apply Hq. by apply list_elem_of_further.
Qed.

(** At any path, [validate_at] is silent exactly on conforming values. *)
Lemma validate_at_nil_iff (s : schema) :
  forall (v : value) (path : string),
    validate_at s v path = [] <-> conforms s v.
Proof.
  induction s as [m e|a b|props req IH|sub IH|] using schema_nested_ind;
    intros v path.
  - destruct v; try (split; [done|by inversion 1]).
    cbn [validate_at]. rewrite check_string_nil. split.
    + intros [H1 H2]. by constructor.
    + inversion 1; subst. by split.
  - destruct v; try (split; [done|by inversion 1]).
    cbn [validate_at]. rewrite check_integer_nil. split.
    + intros [H1 H2]. by constructor.
    + inversion 1; subst. by split.
  - destruct v as [| | | | | |fields]; try (split; [done|by inversion 1]).
    rewrite validate_at_object. split.
    + intros H. apply app_eq_nil in H as [Hreq Hprops].
      pose proof (proj1 (missing_required_nil _ _ _) Hreq) as Hreq'.
      apply flat_map_nil in Hprops.
      constructor; [exact Hreq'|]. intros k sub x Hin Hx.
      rewrite Forall_forall in IH, Hprops.
      specialize (IH _ Hin x (child_path path k)).
      specialize (Hprops _ Hin). unfold field_errors in Hprops.
      cbn [fst snd] in *. rewrite Hx in Hprops. by apply IH.
    + inversion 1 as [| |? ? ? Hreq Hprops|]; subst.
      rewrite (proj2 (missing_required_nil path _ _) Hreq). cbn [app].
      apply flat_map_nil, Forall_forall. intros [k sub] Hin.
      unfold field_errors. cbn [fst snd].
      destruct (lookup_field k fields) as [x|] eqn:Hx; [|done].
      rewrite Forall_forall in IH. apply (IH _ Hin x). by eapply Hprops.
  - destruct v as [| | | | |xs|]; try (split; [done|by inversion 1]).
    rewrite validate_at_array.
    rewrite (element_errors_nil _ (conforms sub)) by (intros; apply IH).
    rewrite Forall_forall. split.
    + intros H. constructor. intros ? x [= <-] Hx. by apply H.
    + inversion 1; subst. intros x Hx. eauto.
  - destruct v as [| | | | |xs|]; try (split; [done|by inversion 1]).
    cbn [validate_at]. split; [|done]. intros _. constructor. by intros.
Qed.

(** C1: for every schema and every argument value, in particular every
    argument mapping, [validate] returns the empty sequence if and only if
    the value satisfies every required, type, range, enum and length
    constraint the schema declares. *)
Theorem validate_empty_iff_conforms (s : schema) (v : value) :
  validate s v = [] <-> conforms s v.
Proof. apply validate_at_nil_iff. Qed.

(** ** Type mismatches *)

Lemma elem_of_flat_map_intro {A B : Type} (f : A -> list B) (l : list A)
    (x : A) (y : B) :
  x ∈ l -> y ∈ f x -> y ∈ flat_map f l.
Proof.
  intros Hx Hy. apply list_elem_of_In, in_flat_map. exists x.
  by rewrite <- !list_elem_of_In.
Qed.

(** Every error of a declared, present field is reported by the object. *)
Lemma object_reports_field (props : list (string * schema))
    (req : list string) (fields : list (string * value)) (path : string)
    (k : string) (sub : schema) (x : value) (err : string) :
  (k, sub) ∈ props ->
  lookup_field k fields = Some x ->
  err ∈ validate_at sub x (child_path path k) ->
  err ∈ validate_at (SObject props req) (VObj fields) path.
Proof.
  intros Hin Hx He. rewrite validate_at_object. apply elem_of_app. right.
  apply (elem_of_flat_map_intro _ _ (k, sub)); [done|].
  unfold field_errors. cbn [fst snd]. by rewrite Hx.
Qed.

Lemma element_errors_reports (check : value -> string -> list string)
    (path : string) (xs : list value) (i j : nat) (x : value) (err : string) :
  xs !! j = Some x ->
  err ∈ check x (index_path path (i + j)) ->
  err ∈ element_errors check path i xs.
Proof.
  revert i j. induction xs as [|y xs IH]; intros i j Hj He; [done|].
  cbn [element_errors]. apply elem_of_app. destruct j as [|j].
  - left. simpl in Hj. injection Hj as ->. by rewrite Nat.add_0_r in He.
  - right. apply (IH (S i) j); [done|].
    by replace (S i + j)%nat with (i + S j)%nat by lia.
Qed.

(** Every error of an element is reported by the array. *)
Lemma array_reports_element (sub : schema) (xs : list value) (path : string)
    (j : nat) (x : value) (err : string) :
  xs !! j = Some x ->
  err ∈ validate_at sub x (index_path path j) ->
  err ∈ validate_at (SArray (Some sub)) (VArr xs) path.
Proof.
  intros Hj He. rewrite validate_at_array.
  by apply (element_errors_reports _ _ _ 0 j x).
Qed.

(** Every required name that the value lacks is reported by the object. *)
Lemma object_reports_missing (props : list (string * schema))
    (req : list string) (fields : list (string * value)) (path k : string) :
  k ∈ req ->
  lookup_field k fields = None ->
  ("missing required " +:+ child_path path k)
    ∈ validate_at (SObject props req) (VObj fields) path.
Proof.
  intros Hk Hnone. rewrite validate_at_object. apply elem_of_app. left.
  unfold missing_required.
  apply (elem_of_flat_map_intro _ _ k); [done|].
  rewrite Hnone. apply list_elem_of_here.
Qed.

(** C7: a value whose runtime type is not the one its schema node declares
    yields, at any path, the single entry [<path> should be <type>]: no
    range, length, enum or element check is made for that node; as a declared
    field of an object it contributes exactly that entry.  Validation goes on
    around it, at every depth: an object reports one [missing required] entry
    for every required name the value lacks, followed by the errors of each
    declared field that is present, in declaration order, and an array
    reports the errors of each of its elements in order; so the type error
    and every violation of every other field, element or nested node reach
    the result of every enclosing node. *)
Theorem type_mismatch_short_circuits (s : schema) (v : value) :
  runtime_type v <> Some (declared_type s) ->
  (forall path, validate_at s v path = [type_error path (declared_type s)])
  /\ (forall props req fields path k k' s' v' err,
        (k, s) ∈ props -> lookup_field k fields = Some v ->
        (k', s') ∈ props -> lookup_field k' fields = Some v' ->
        err ∈ validate_at s' v' (child_path path k') ->
        type_error (child_path path k) (declared_type s)
          ∈ validate_at (SObject props req) (VObj fields) path
        /\ err ∈ validate_at (SObject props req) (VObj fields) path)
  /\ (forall (xs : list value) path i j v' err,
        xs !! i = Some v -> xs !! j = Some v' ->
        err ∈ validate_at s v' (index_path path j) ->
        type_error (index_path path i) (declared_type s)
          ∈ validate_at (SArray (Some s)) (VArr xs) path
        /\ err ∈ validate_at (SArray (Some s)) (VArr xs) path)
  /\ (forall fields path k,
        lookup_field k fields = Some v ->
        field_errors validate_at path fields (k, s)
        = [type_error (child_path path k) (declared_type s)])
  /\ (forall props req fields path,
        validate_at (SObject props req) (VObj fields) path
        = missing_required path req fields
          ++ flat_map (field_errors validate_at path fields) props)
  /\ (forall sub xs path,
        validate_at (SArray (Some sub)) (VArr xs) path
        = element_errors (validate_at sub) path 0 xs)
  /\ (forall props req fields path k,
        k ∈ req -> lookup_field k fields = None ->
        ("missing required " +:+ child_path path k)
          ∈ validate_at (SObject props req) (VObj fields) path)
  /\ (forall props req fields path k' s' v' err,
        (k', s') ∈ props -> lookup_field k' fields = Some v' ->
        err ∈ validate_at s' v' (child_path path k') ->
        err ∈ validate_at (SObject props req) (VObj fields) path)
  /\ (forall sub (xs : list value) path j v' err,
        xs !! j = Some v' ->
        err ∈ validate_at sub v' (index_path path j) ->
        err ∈ validate_at (SArray (Some sub)) (VArr xs) path).
Proof.
  intros Hty.
  pose proof (fun path => validate_at_mismatch s v path Hty) as Hone.
  split; [exact Hone|]. split; [|split; [|split; [|split; [|split;
    [|split; [|split]]]]]].
  - intros props req fields path k k' s' v' err Hk Hv Hk' Hv' He. split.
    + apply (object_reports_field _ _ _ _ k s v); [done|done|].
      rewrite Hone. apply list_elem_of_here.
    + by apply (object_reports_field _ _ _ _ k' s' v').
  - intros xs path i j v' err Hi Hj He. split.
    + apply (array_reports_element _ _ _ i v); [done|].
      rewrite Hone. apply list_elem_of_here.
    + by apply (array_reports_element _ _ _ j v').
  - intros fields path k Hv. unfold field_errors. cbn [fst snd].
    rewrite Hv. apply Hone.
  - apply validate_at_object.
  - apply validate_at_array.
  - apply object_reports_missing.
  - apply object_reports_field.
  - apply array_reports_element.
Qed.

(** The input of [test_validate_params_nested_object_and_array]. *)
Lemma type_mismatch_short_circuits_witness :
  "meta.flags[0] should be string"
    ∈ validate sample_parameters
        (VObj [("query", VStr "hi"); ("count", VInt 2);
               ("meta", VObj [("flags", VArr [VInt 1; VStr "ok"])])])
  /\ "missing required meta.tag"
       ∈ validate sample_parameters
           (VObj [("query", VStr "hi"); ("count", VInt 2);
                  ("meta", VObj [("flags", VArr [VInt 1; VStr "ok"])])])
  /\ type_error (child_path "" "count")
                (declared_type (SInteger (Some 1) (Some 10)))
       ∈ validate_at sample_parameters
           (VObj [("query", VStr "h"); ("count", VStr "2")]) ""
  /\ "query must be at least 2 chars"
       ∈ validate_at sample_parameters
           (VObj [("query", VStr "h"); ("count", VStr "2")]) "".
Proof.
  destruct (type_mismatch_short_circuits (SString None None) (VInt 1))
    as (Hone & _ & _ & _ & _ & _ & Hmissing & Hfield & Helem);
    [simpl; discriminate|].
  destruct (type_mismatch_short_circuits (SInteger (Some 1) (Some 10))
              (VStr "2")) as (_ & Hobj & _); [simpl; discriminate|].
  split; [|split].
  - unfold validate, sample_parameters.
    apply (Hfield _ _ _ "" "meta"
             (SObject [("tag", SString None None);
                       ("flags", SArray (Some (SString None None)))]
                      ["tag"])
             (VObj [("flags", VArr [VInt 1; VStr "ok"])]));
      [do 3 apply list_elem_of_further; apply list_elem_of_here
      |reflexivity|].
    apply (Hfield _ _ _ _ "flags" (SArray (Some (SString None None)))
             (VArr [VInt 1; VStr "ok"]));
      [apply list_elem_of_further, list_elem_of_here|reflexivity|].
    apply (Helem _ _ _ 0%nat (VInt 1)); [reflexivity|].
    rewrite Hone. apply list_elem_of_here.
  - unfold validate, sample_parameters.
    apply (Hfield _ _ _ "" "meta"
             (SObject [("tag", SString None None);
                       ("flags", SArray (Some (SString None None)))]
                      ["tag"])
             (VObj [("flags", VArr [VInt 1; VStr "ok"])]));
      [do 3 apply list_elem_of_further; apply list_elem_of_here
      |reflexivity|].
    exact (Hmissing [("tag", SString None None);
                     ("flags", SArray (Some (SString None None)))]
                    ["tag"] [("flags", VArr [VInt 1; VStr "ok"])]
                    "meta" "tag" (list_elem_of_here _ _) eq_refl).
  - apply (Hobj _ ["query"; "count"]
                [("query", VStr "h"); ("count", VStr "2")] ""
                "count" "query" (SString (Some 2) None) (VStr "h")).
    + apply list_elem_of_further, list_elem_of_here.
    + reflexivity.
    + apply list_elem_of_here.
    + reflexivity.
    + vm_compute. apply list_elem_of_here.
Defined.

(** ** The registry *)

Lemma starts_with_app (a b : string) : starts_with a (a +:+ b) = true.
Proof.
  induction a as [|c a IH]; [done|]. simpl.
  by rewrite Ascii.eqb_refl, IH.
Qed.

Lemma contains_prefix (a b : string) : contains a (a +:+ b) = true.
Proof. destruct (a +:+ b) eqn:E; simpl; by rewrite <- E, starts_with_app. Qed.

Lemma starts_with_self (s : string) : starts_with s s = true.
Proof.
  induction s as [|c s IH]; [done|]. simpl. by rewrite Ascii.eqb_refl, IH.
Qed.

Lemma contains_self (s : string) : contains s s = true.
Proof. destruct s; simpl; [done|]. by rewrite Ascii.eqb_refl, starts_with_self. Qed.

Lemma contains_app_right (needle a b : string) :
  contains needle b = true -> contains needle (a +:+ b) = true.
Proof.
  intros H. induction a as [|c a IH]; [exact H|].
  change (String c a +:+ b) with (String c (a +:+ b)).
  cbn [contains]. rewrite IH. apply orb_true_r.
Qed.

Lemma starts_with_app_left (needle a b : string) :
  starts_with needle a = true -> starts_with needle (a +:+ b) = true.
Proof.
  revert a. induction needle as [|c n IH]; intros a H; [done|].
  destruct a as [|c' a]; [done|]. simpl in *.
  apply andb_true_iff in H as [-> H]. simpl. by apply IH.
Qed.

Lemma contains_app_left (needle a b : string) :
  contains needle a = true -> contains needle (a +:+ b) = true.
Proof.
  induction a as [|c a IH]; intros H.
  - simpl in H. rewrite orb_false_r in H.
    destruct needle; [by destruct b|done].
  - cbn [contains] in H.
    change (String c a +:+ b) with (String c (a +:+ b)). cbn [contains].
    apply orb_true_iff in H as [H|H]; apply orb_true_iff.
    + left. by apply (starts_with_app_left needle (String c a) b).
    + right. by apply IH.
Qed.

(** Every entry of a joined list occurs in the text. *)
Lemma contains_join (sep err : string) (errs : list string) :
  err ∈ errs -> contains err (join sep errs) = true.
Proof.
  induction errs as [|x rest IH]; intros H; [by apply not_elem_of_nil in H|].
  apply elem_of_cons in H as [->|H].
  - destruct rest as [|y r]; cbn [join]; [apply contains_self|].
    apply contains_app_left, contains_self.
  - destruct rest as [|y r]; [by apply not_elem_of_nil in H|].
    cbn [join]. do 2 apply contains_app_right. by apply IH.
Qed.

(** C2: [execute] always hands its caller a text and never lets anything
    escape.  For a name that is not registered the text names the unknown
    tool and nothing is invoked.  For a registered tool whose schema the
    arguments fail the text is [Invalid parameters: ] followed by the
    violations joined, each of which occurs in it, and the tool is not
    invoked.  When the invocation of a registered tool fails with [e], the
    failure comes back as the error text [Error executing <name>: <e>], which
    carries [e]; when it produces a text, that text is the result.  The tool
    is invoked at most once, and it is invoked exactly when the name is
    registered and the arguments conform to its schema. *)
Theorem execute_isolates_failures (reg : gmap string Tool) (nm : string)
    (args : value) :
  (exists text, (execute reg nm args).1 = Result text)
  /\ (reg !! nm = None ->
      execute reg nm args = (Result ("unknown tool " +:+ nm), []))
  /\ (forall t, reg !! nm = Some t -> validate (parameters t) args <> [] ->
      execute reg nm args
      = (Result ("Invalid parameters: "
                 +:+ join "; " (validate (parameters t) args)), [])
      /\ (exists text, (execute reg nm args).1 = Result text
                       /\ contains "Invalid parameters: " text = true
                       /\ forall err, err ∈ validate (parameters t) args ->
                                      contains err text = true)
      /\ (execute reg nm args).2 = [])
  /\ (forall t e, reg !! nm = Some t -> validate (parameters t) args = [] ->
      invoke t args = Fails e ->
      execute reg nm args
      = (Result ("Error executing " +:+ nm +:+ ": " +:+ e), [(nm, args)])
      /\ exists text, (execute reg nm args).1 = Result text
                      /\ starts_with "Error" text = true
                      /\ contains e text = true)
  /\ (forall t text, reg !! nm = Some t ->
      validate (parameters t) args = [] ->
      invoke t args = Produces text ->
      execute reg nm args = (Result text, [(nm, args)]))
  /\ ((execute reg nm args).2 = [(nm, args)]
      <-> exists t, reg !! nm = Some t /\ conforms (parameters t) args)
  /\ ((execute reg nm args).2 = [(nm, args)] \/ (execute reg nm args).2 = []).
Proof.
  split; [|split; [|split; [|split; [|split; [|split]]]]].
  - unfold execute. destruct (reg !! nm) as [t|]; [|eauto].
    destruct (validate (parameters t) args); [|eauto].
    destruct (invoke t args); eauto.
  - intros H. unfold execute. by rewrite H.
  - intros t Ht Hv.
    assert (execute reg nm args
            = (Result ("Invalid parameters: "
                       +:+ join "; " (validate (parameters t) args)), []))
      as Hex.
    { unfold execute. rewrite Ht.
      by destruct (validate (parameters t) args). }
    rewrite Hex. split; [done|]. split; [|done].
    eexists. split; [done|]. split; [apply contains_prefix|].
    intros err Herr. apply contains_app_right. by apply contains_join.
  - intros t e Ht Hv He.
    assert (execute reg nm args
            = (Result ("Error executing " +:+ nm +:+ ": " +:+ e),
               [(nm, args)])) as Hex.
    { unfold execute. by rewrite Ht, Hv, He. }
    rewrite Hex. split; [done|]. eexists. split; [done|]. split.
    + apply (starts_with_app_left "Error" "Error executing " _).
      reflexivity.
    + do 3 apply contains_app_right. apply contains_self.
  - intros t text Ht Hv Hp. unfold execute. by rewrite Ht, Hv, Hp.
  - unfold execute. destruct (reg !! nm) as [t|] eqn:Ht.
    + pose proof (validate_at_nil_iff (parameters t) args "") as Hiff.
      fold (validate (parameters t) args) in Hiff.
      destruct (validate (parameters t) args) as [|x xs] eqn:Hv.
      * split; [|by destruct (invoke t args)].
        intros _. exists t. split; [done|]. by apply Hiff.
      * split; [done|]. intros (t' & [= <-] & Hc).
        by apply Hiff in Hc.
    + split; [done|]. by intros (t & ? & _).
  - unfold execute. destruct (reg !! nm) as [t|]; [|by right].
    destruct (validate (parameters t) args); [|by right].
    left. by destruct (invoke t args).
Qed.

Lemma execute_isolates_failures_witness :
  execute (register BrokenTool (register SampleTool ∅)) "sample"
          (VObj [("query", VStr "hi")])
  = (Result "Invalid parameters: missing required count", [])
  /\ execute (register BrokenTool (register SampleTool ∅)) "nope" (VObj [])
     = (Result "unknown tool nope", [])
  /\ execute (register BrokenTool (register SampleTool ∅)) "broken"
             (VObj [])
     = (Result "Error executing broken: boom", [("broken", VObj [])])
  /\ execute (register BrokenTool (register SampleTool ∅)) "sample"
             (VObj [("query", VStr "hi"); ("count", VInt 2)])
     = (Result "ok",
        [("sample", VObj [("query", VStr "hi"); ("count", VInt 2)])]).
Proof.
  pose proof (execute_isolates_failures
                (register BrokenTool (register SampleTool ∅)) "sample"
                (VObj [("query", VStr "hi")])) as (_ & _ & Hbad & _).
  pose proof (execute_isolates_failures
                (register BrokenTool (register SampleTool ∅)) "nope"
                (VObj [])) as (_ & Hunknown & _).
  pose proof (execute_isolates_failures
                (register BrokenTool (register SampleTool ∅)) "broken"
                (VObj [])) as (_ & _ & _ & Hfail & _).
  pose proof (execute_isolates_failures
                (register BrokenTool (register SampleTool ∅)) "sample"
                (VObj [("query", VStr "hi"); ("count", VInt 2)]))
    as (_ & _ & _ & _ & Hok & _).
  split; [|split; [|split]].
  - apply (Hbad SampleTool); [reflexivity|vm_compute; discriminate].
  - apply Hunknown. reflexivity.
  - apply (Hfail BrokenTool "boom"); reflexivity.
  - apply (Hok SampleTool "ok"); reflexivity.
Defined.

End ToolsFacts.

(** * Further properties of the QQ channel *)

Module QQMore.
Import QQ QQTraces QQFacts.

(** ** Python's [str.strip] *)

Lemma lstrip_fixed (c : ascii) (r : string) :
  is_space c = false -> lstrip (String c r) = String c r.
Proof. intros H. simpl. by rewrite H. Qed.

Lemma rstrip_head (c : ascii) (r : string) :
  is_space c = false -> exists r', rstrip (String c r) = String c r'.
Proof.
  intros H. simpl. destruct (rstrip r); rewrite ?H; eauto.
Qed.

Lemma rstrip_idem (s : string) : rstrip (rstrip s) = rstrip s.
Proof.
  induction s as [|c r IH]; [done|]. simpl.
  destruct (rstrip r) as [|c' r'] eqn:E.
  - destruct (is_space c) eqn:Hc; [done|]. simpl. by rewrite Hc.
  - simpl in *. by rewrite IH.
Qed.

(** [lstrip] leaves the empty string or a string that starts with a
    character that is not white space. *)
Lemma lstrip_head (s : string) :
  lstrip s = EmptyString
  \/ exists c r, lstrip s = String c r /\ is_space c = false.
Proof.
  induction s as [|c r IH]; [by left|]. simpl.
  destruct (is_space c) eqn:Hc; [exact IH|]. right. eauto.
Qed.

Lemma strip_idem (s : string) : strip (strip s) = strip s.
Proof.
  unfold strip. destruct (lstrip_head s) as [->|(c & r & -> & Hc)]; [done|].
  destruct (rstrip_head c r Hc) as [r' Hr]. rewrite Hr.
  rewrite (lstrip_fixed c r' Hc), <- Hr. apply rstrip_idem.
Qed.

(** ** The dedup cache, continued *)

Lemma step_ids_fresh (st : QQChannel) (o : op) :
  _processed_ids (step st o).1 = _processed_ids st
  \/ exists y, truthy y = true /\ (y ∉ items (_processed_ids st))
               /\ _processed_ids (step st o).1
                  = deque_append y (_processed_ids st).
Proof.
  destruct o as [msg post|data handled|av c| |]; cbn [step].
  - left. unfold send. destruct (_client st); [|done]. by destruct post.
  - fold (after_message st data handled). rewrite after_message_ids.
    unfold dedup, deque_contains.
    destruct (truthy (message_id data)) eqn:Ht; [|by left].
    case_bool_decide as Hin; [by left|]. right. eauto.
  - left. unfold start_setup. destruct (negb av); [done|].
    by destruct (_ || _).
  - by left.
  - by left.
Qed.

Lemma deque_append_ok (y : string) (d : deque) :
  truthy y = true -> y ∉ items d ->
  (length (items d) <= maxlen d)%nat -> NoDup (items d) -> "" ∉ items d ->
  (length (items (deque_append y d)) <= maxlen d)%nat
  /\ NoDup (items (deque_append y d))
  /\ "" ∉ items (deque_append y d).
Proof.
  intros Ht Hy Hlen Hnd Hne.
  assert (NoDup (items d ++ [y])) as Hnd'.
  { apply NoDup_app. split; [done|]. split; [|apply NoDup_singleton].
    intros x Hx Hx'. apply list_elem_of_singleton in Hx'. by subst x. }
  assert ("" ∉ items d ++ [y]) as Hne'.
  { intros H. apply elem_of_app in H as [H|H]; [done|].
    apply list_elem_of_singleton in H. subst y. done. }
  unfold deque_append. cbn [items].
  destruct (Nat.ltb_spec (maxlen d) (length (items d ++ [y]))) as [Hlt|Hge].
  - rewrite length_app in Hlt. simpl in Hlt.
    destruct (items d ++ [y]) as [|z l] eqn:El.
    { by destruct (items d). }
    assert (length (z :: l) = S (length (items d))) as Hl.
    { rewrite <- El, length_app. simpl. lia. }
    simpl in *. apply NoDup_cons in Hnd' as [_ Hnd'].
    split; [lia|]. split; [done|].
    intros H. apply Hne'. by apply list_elem_of_further.
  - done.
Qed.

(** X1: the dedup cache keeps its shape.  From [__init__], along any
    history of the channel, the cache is bounded by 1000, holds at most 1000
    ids, holds no id twice and never holds the empty id. *)
Theorem cache_invariant (cfg : QQConfig) (ops : list op) :
  maxlen (_processed_ids (after (__init__ cfg) ops)) = 1000%nat
  /\ (length (items (_processed_ids (after (__init__ cfg) ops))) <= 1000)%nat
  /\ NoDup (items (_processed_ids (after (__init__ cfg) ops)))
  /\ "" ∉ items (_processed_ids (after (__init__ cfg) ops)).
Proof.
  assert (forall st,
            maxlen (_processed_ids st) = 1000%nat ->
            (length (items (_processed_ids st)) <= 1000)%nat ->
            NoDup (items (_processed_ids st)) ->
            "" ∉ items (_processed_ids st) ->
            maxlen (_processed_ids (after st ops)) = 1000%nat
            /\ (length (items (_processed_ids (after st ops))) <= 1000)%nat
            /\ NoDup (items (_processed_ids (after st ops)))
            /\ "" ∉ items (_processed_ids (after st ops))) as Hgen.
  { induction ops as [|o ops IH]; intros st Hm Hl Hnd Hne; [done|].
    rewrite after_cons.
    destruct (step_ids_fresh st o) as [Heq|(y & Hy & Hnew & Heq)].
    - apply IH; by rewrite Heq.
    - assert ((length (items (_processed_ids st))
               <= maxlen (_processed_ids st))%nat) as Hl' by (rewrite Hm; lia).
      destruct (deque_append_ok y _ Hy Hnew Hl' Hnd Hne) as (H1 & H2 & H3).
      rewrite Hm in H1.
      apply IH; rewrite Heq; [by rewrite deque_append_maxlen|done..]. }
  apply Hgen; simpl; [done|lia|constructor|apply not_elem_of_nil].
Qed.

(** ** [_on_message], continued *)

Lemma forwarded_not_duplicate (st : QQChannel) (data : C2CMessage)
    (h : await_end) (d : deque) :
  dedup (_processed_ids st) (message_id data) = Some d ->
  forwarded st data h
  = truthy (sender_openid data) && truthy (stripped_content data).
Proof.
  intros Hd. unfold forwarded, _on_message. rewrite Hd.
  destruct (truthy (sender_openid data)); [|done].
  destruct (truthy (stripped_content data)); [|done].
  by destruct h.
Qed.

(** X2: an event without an id is never recorded and never taken for a
    duplicate: presented again, it is handled exactly as the first time. *)
Theorem empty_id_never_deduplicated (st : QQChannel) (data : C2CMessage)
    (h h' : await_end) :
  message_id data = "" ->
  _processed_ids (after_message st data h) = _processed_ids st
  /\ exit_of st data h <> ExitDuplicate
  /\ exit_of (after_message st data h) data h' <> ExitDuplicate
  /\ forwarded (after_message st data h) data h' = forwarded st data h'
  /\ forwarded st data h
     = truthy (sender_openid data) && truthy (stripped_content data).
Proof.
  intros Hid.
  assert (forall s, dedup (_processed_ids s) (message_id data)
                    = Some (_processed_ids s)) as Hd.
  { intros s. unfold dedup. by rewrite Hid. }
  assert (forall s k, exit_of s data k <> ExitDuplicate) as Hex.
  { intros s k. unfold exit_of, _on_message. rewrite Hd.
    destruct (negb (truthy (sender_openid data))); [done|].
    destruct (negb (truthy (stripped_content data))); [done|].
    by destruct k. }
  split; [|split; [|split; [|split]]].
  - rewrite after_message_ids. by rewrite Hd.
  - apply Hex.
  - apply Hex.
  - by rewrite !(forwarded_not_duplicate _ _ _ _ (Hd _)).
  - by rewrite (forwarded_not_duplicate _ _ _ _ (Hd _)).
Qed.

Lemma empty_id_never_deduplicated_witness :
  _processed_ids (after_message started
                    {| id := None;
                       author := Some {| user_openid := Some "u1" |};
                       msg_content := Some "hi" |} Returned)
  = _processed_ids started
  /\ exit_of started
       {| id := None; author := Some {| user_openid := Some "u1" |};
          msg_content := Some "hi" |} Returned <> ExitDuplicate
  /\ exit_of (after_message started
                {| id := None; author := Some {| user_openid := Some "u1" |};
                   msg_content := Some "hi" |} Returned)
       {| id := None; author := Some {| user_openid := Some "u1" |};
          msg_content := Some "hi" |} Returned <> ExitDuplicate
  /\ forwarded (after_message started
                  {| id := None;
                     author := Some {| user_openid := Some "u1" |};
                     msg_content := Some "hi" |} Returned)
       {| id := None; author := Some {| user_openid := Some "u1" |};
          msg_content := Some "hi" |} Returned
     = forwarded started
         {| id := None; author := Some {| user_openid := Some "u1" |};
            msg_content := Some "hi" |} Returned
  /\ forwarded started
       {| id := None; author := Some {| user_openid := Some "u1" |};
          msg_content := Some "hi" |} Returned
     = truthy (sender_openid
                 {| id := None;
                    author := Some {| user_openid := Some "u1" |};
                    msg_content := Some "hi" |})
       && truthy (stripped_content
                    {| id := None;
                       author := Some {| user_openid := Some "u1" |};
                       msg_content := Some "hi" |}).
Proof.
  apply (empty_id_never_deduplicated started
           {| id := None; author := Some {| user_openid := Some "u1" |};
              msg_content := Some "hi" |} Returned Returned).
  reflexivity.
Defined.

(** X3: when [_handle_message] raises, [_on_message] logs the exception and
    returns normally, and the id stays recorded: the same event delivered
    again after fewer than [maxlen] further operations on the channel is
    dropped as a duplicate without reaching the handler, so a failed event is
    not retried while its id is in the cache. *)
Theorem handler_failure_not_retried (st : QQChannel) (data : C2CMessage)
    (e : string) (mid : list op) (data' : C2CMessage) (h' : await_end) :
  truthy (message_id data) = true ->
  ~ cached (message_id data) st ->
  truthy (sender_openid data) = true ->
  truthy (stripped_content data) = true ->
  (length mid < maxlen (_processed_ids st))%nat ->
  message_id data' = message_id data ->
  completion_of st data (Raised e) = ReturnsNone
  /\ forwarded st data (Raised e) = true
  /\ LogException "Error handling QQ message" ∈ events_of st data (Raised e)
  /\ cached (message_id data) (after_message st data (Raised e))
  /\ _on_message (after (after_message st data (Raised e)) mid) data' h'
     = (after (after_message st data (Raised e)) mid, [], ReturnsNone,
        ExitDuplicate)
  /\ forwarded (after (after_message st data (Raised e)) mid) data' h'
     = false.
Proof.
  intros Ht Hnew Hs Hc Hlen Hsame.
  assert (recent_within (length mid + 0) (message_id data)
            (_processed_ids (after_message st data (Raised e)))) as Hrec.
  { rewrite after_message_ids, (dedup_fresh _ _ Ht Hnew).
    apply deque_append_recent. lia. }
  assert (_on_message (after (after_message st data (Raised e)) mid) data' h'
          = (after (after_message st data (Raised e)) mid, [], ReturnsNone,
             ExitDuplicate)) as Hdup.
  { apply on_message_duplicate; [by rewrite Hsame|].
    rewrite Hsame. eapply recent_within_cached. apply run_keeps, Hrec. }
  split; [|split; [|split; [|split; [|split]]]].
  - unfold completion_of, _on_message.
    by rewrite (dedup_fresh _ _ Ht Hnew), Hs, Hc.
  - unfold forwarded, _on_message.
    by rewrite (dedup_fresh _ _ Ht Hnew), Hs, Hc.
  - unfold events_of, _on_message.
    rewrite (dedup_fresh _ _ Ht Hnew), Hs, Hc. cbn.
    do 2 apply list_elem_of_further. apply list_elem_of_here.
  - eapply recent_within_cached, recent_within_weaken_all, Hrec.
  - exact Hdup.
  - unfold forwarded. by rewrite Hdup.
Qed.

Lemma handler_failure_not_retried_witness :
  completion_of started (inbound "m9" "u1" " hi ") (Raised "bus closed")
  = ReturnsNone
  /\ forwarded started (inbound "m9" "u1" " hi ") (Raised "bus closed")
     = true
  /\ LogException "Error handling QQ message"
       ∈ events_of started (inbound "m9" "u1" " hi ") (Raised "bus closed")
  /\ cached (message_id (inbound "m9" "u1" " hi "))
       (after_message started (inbound "m9" "u1" " hi ")
                      (Raised "bus closed"))
  /\ _on_message
       (after (after_message started (inbound "m9" "u1" " hi ")
                             (Raised "bus closed"))
              (present (numbered 3)))
       (inbound "m9" "u1" " hi ") Returned
     = (after (after_message started (inbound "m9" "u1" " hi ")
                             (Raised "bus closed"))
              (present (numbered 3)),
        [], ReturnsNone, ExitDuplicate)
  /\ forwarded
       (after (after_message started (inbound "m9" "u1" " hi ")
                             (Raised "bus closed"))
              (present (numbered 3)))
       (inbound "m9" "u1" " hi ") Returned = false.
Proof.
  apply (handler_failure_not_retried started (inbound "m9" "u1" " hi ")
           "bus closed" (present (numbered 3)) (inbound "m9" "u1" " hi ")
           Returned).
  - reflexivity.
  - unfold cached. simpl. apply not_elem_of_nil.
  - reflexivity.
  - reflexivity.
  - simpl. lia.
  - reflexivity.
Defined.

(** X4: what reaches [_handle_message].  A forwarded event makes exactly one
    call, with the sender's openid as both sender and chat, the content
    stripped (so not empty and without white space at either end) and the
    message id in the metadata. *)
Theorem forwarded_event_shape (st : QQChannel) (data : C2CMessage)
    (h : await_end) :
  forwarded st data h = true ->
  List.filter is_forward (events_of st data h)
  = [HandleMessage (sender_openid data) (sender_openid data)
       (stripped_content data)
       [("message_id", message_id data);
        ("user_openid", sender_openid data)]]
  /\ sender_openid data <> ""
  /\ stripped_content data <> ""
  /\ strip (stripped_content data) = stripped_content data.
Proof.
  unfold forwarded, events_of, _on_message.
  destruct (dedup _ _); [|done].
  destruct (truthy (sender_openid data)) eqn:Hs; [|done].
  destruct (truthy (stripped_content data)) eqn:Hc; [|done].
  intros _. split; [by destruct h|].
  unfold truthy in Hs, Hc.
  split; [|split].
  - intros E. by rewrite E in Hs.
  - intros E. by rewrite E in Hc.
  - apply strip_idem.
Qed.

Lemma forwarded_event_shape_witness :
  List.filter is_forward (events_of started (inbound "m9" "u1" " hi ")
                                    Returned)
  = [HandleMessage (sender_openid (inbound "m9" "u1" " hi "))
       (sender_openid (inbound "m9" "u1" " hi "))
       (stripped_content (inbound "m9" "u1" " hi "))
       [("message_id", message_id (inbound "m9" "u1" " hi "));
        ("user_openid", sender_openid (inbound "m9" "u1" " hi "))]]
  /\ sender_openid (inbound "m9" "u1" " hi ") <> ""
  /\ stripped_content (inbound "m9" "u1" " hi ") <> ""
  /\ strip (stripped_content (inbound "m9" "u1" " hi "))
     = stripped_content (inbound "m9" "u1" " hi ").
Proof.
  apply (forwarded_event_shape started (inbound "m9" "u1" " hi ") Returned).
  reflexivity.
Defined.

Lemma send_without_client_frame (st : QQChannel) (msg : OutboundMessage)
    (post : await_end) :
  _client st = None ->
  send st msg post
  = (st, [LogWarning "QQ client not initialized"], ReturnsNone).
Proof. intros Hc. unfold send. by rewrite Hc. Qed.

(** ** [stop] *)

(** X5: [stop] clears the running flag whatever happens, touches neither
    the cache nor the counters, and, unless a teardown call is cancelled,
    returns normally with the client dropped: exceptions raised by the
    teardown calls never reach its caller. *)
Theorem stop_always_stops (st : QQChannel) (closed stopped : await_end) :
  _running (after_stop st closed stopped) = false
  /\ _processed_ids (after_stop st closed stopped) = _processed_ids st
  /\ _msg_seq (after_stop st closed stopped) = _msg_seq st
  /\ (closed <> Cancelled -> stopped <> Cancelled ->
      (stop st closed stopped).2 = ReturnsNone
      /\ _client (after_stop st closed stopped) = None).
Proof.
  unfold after_stop, stop. cbn [stop_begin set_running _client].
  destruct (_client st) as [[[] [] []]|];
    destruct closed, stopped; cbn; done.
Qed.

Lemma stop_always_stops_witness :
  _running (after_stop started (Raised "session closed") Returned) = false
  /\ (stop started (Raised "session closed") Returned).2 = ReturnsNone
  /\ _client (after_stop started (Raised "session closed") Returned) = None.
Proof.
  destruct (stop_always_stops started (Raised "session closed") Returned)
    as (H1 & _ & _ & H4).
  split; [exact H1|]. apply H4; discriminate.
Defined.

(** X6: the teardown calls of [stop].  The session of the HTTP layer is
    closed only for a client without [close], so never both; and the client's
    [stop] is called whenever it exists and the close before it was not
    cancelled, also when that close raised. *)
Theorem stop_teardown_order (st : QQChannel) (c : Client)
    (closed stopped : await_end) :
  _client st = Some c ->
  existsb is_client_close (stop_events st closed stopped) = has_close c
  /\ existsb is_http_close (stop_events st closed stopped)
     = negb (has_close c) && has_http_close c
  /\ (closed <> Cancelled ->
      existsb is_client_stop (stop_events st closed stopped) = has_stop c).
Proof.
  intros Hc. unfold stop_events, stop.
  cbn [stop_begin set_running _client]. rewrite Hc.
  destruct c as [[] [] []]; destruct closed, stopped; cbn; done.
Qed.

Lemma stop_teardown_order_witness :
  existsb is_client_close (stop_events started (Raised "boom") Returned)
  = has_close demo_client
  /\ existsb is_http_close (stop_events started (Raised "boom") Returned)
     = negb (has_close demo_client) && has_http_close demo_client
  /\ existsb is_client_stop (stop_events started (Raised "boom") Returned)
     = has_stop demo_client.
Proof.
  destruct (stop_teardown_order started demo_client (Raised "boom") Returned)
    as (H1 & H2 & H3); [reflexivity|].
  split; [exact H1|]. split; [exact H2|]. apply H3. discriminate.
Defined.

(** X7: a channel on which [stop] has returned is inert: [send] posts
    nothing and consumes no sequence number, [_run_bot] leaves at once
    without starting the connection, and a second [stop] makes no teardown
    call and changes nothing. *)
Theorem stopped_channel_is_inert (st : QQChannel)
    (closed stopped closed' stopped' post : await_end)
    (msg : OutboundMessage) (script : list await_obs) :
  (stop st closed stopped).2 = ReturnsNone ->
  send (after_stop st closed stopped) msg post
  = (after_stop st closed stopped,
     [LogWarning "QQ client not initialized"], ReturnsNone)
  /\ _run_bot script (after_stop st closed stopped)
     = (after_stop st closed stopped, [], LoopExited)
  /\ stop (after_stop st closed stopped) closed' stopped'
     = (after_stop st closed stopped, [LogInfo "QQ bot stopped"],
        ReturnsNone).
Proof.
  intros Hret.
  assert (_running (after_stop st closed stopped) = false
          /\ _client (after_stop st closed stopped) = None) as [Hr Hc].
  { revert Hret. unfold after_stop, stop.
    cbn [stop_begin set_running _client].
    destruct (_client st) as [[[] [] []]|];
      destruct closed, stopped; cbn; done. }
  split; [|split].
  - by apply send_without_client_frame.
  - by apply run_bot_not_running.
  - unfold stop. cbn [stop_begin set_running _client]. rewrite Hc.
    destruct (after_stop st closed stopped) as [cfg r cl ids sq].
    simpl in *. by subst.
Qed.

Lemma stopped_channel_is_inert_witness :
  send (after_stop started (Raised "boom") Returned)
       (reply "u1" (Some "m7") "hi") Returned
  = (after_stop started (Raised "boom") Returned,
     [LogWarning "QQ client not initialized"], ReturnsNone)
  /\ _run_bot [ {| env := Quiet; ended := Returned |} ]
              (after_stop started (Raised "boom") Returned)
     = (after_stop started (Raised "boom") Returned, [], LoopExited)
  /\ stop (after_stop started (Raised "boom") Returned) Returned Returned
     = (after_stop started (Raised "boom") Returned,
        [LogInfo "QQ bot stopped"], ReturnsNone).
Proof.
  apply (stopped_channel_is_inert started (Raised "boom") Returned
           Returned Returned Returned).
  reflexivity.
Defined.

(** ** [start] and [_run_bot], continued *)

Lemma attempts_app (e1 e2 : list event) :
  attempts (e1 ++ e2) = (attempts e1 + attempts e2)%nat.
Proof. unfold attempts. by rewrite List.filter_app, length_app. Qed.

Lemma prepend_events (evs : list event) (r : loop_result) :
  (prepend evs r).1.2 = evs ++ r.1.2.
Proof. by destruct r as [[? ?] ?]. Qed.

Lemma prepend_state (evs : list event) (r : loop_result) :
  (prepend evs r).1.1 = r.1.1.
Proof. by destruct r as [[? ?] ?]. Qed.

Lemma prepend_status (evs : list event) (r : loop_result) :
  (prepend evs r).2 = r.2.
Proof. by destruct r as [[? ?] ?]. Qed.

(** Entered with the flag set and a client, the loop starts the
    connection at least once. *)
Lemma run_bot_attempts_once (script : list await_obs) (st : QQChannel) :
  _running st = true -> is_Some (_client st) ->
  (0 < attempts (_run_bot script st).1.2)%nat.
Proof.
  intros Hr [c Hc]. destruct script as [|a rest]; simpl; rewrite Hr, Hc.
  - cbn. lia.
  - destruct (ended a); rewrite ?prepend_events, ?attempts_app; cbn; lia.
Qed.

(** X8: [start] starts the connection if and only if the SDK is installed
    and both credentials are set; otherwise it logs an error and returns
    with the channel unchanged and the flag not set. *)
Theorem start_connects_iff (qq_available : bool) (c : Client)
    (script : list await_obs) (st : QQChannel) :
  ((0 < attempts (start qq_available c script st).1.2)%nat
   <-> qq_available = true /\ app_id (config st) <> ""
       /\ secret (config st) <> "")
  /\ (attempts (start qq_available c script st).1.2 = 0%nat ->
      (start qq_available c script st).1.1 = st
      /\ (start qq_available c script st).2 = LoopExited
      /\ existsb is_error_event (start qq_available c script st).1.2 = true).
Proof.
  unfold start, start_setup.
  destruct qq_available; cbn [negb].
  2:{ cbn. split; [|done]. split; [lia|]. by intros [? _]. }
  unfold truthy.
  destruct (String.eqb_spec (app_id (config st)) "") as [Ha|Ha];
    cbn [negb orb].
  { cbn. split; [|done]. split; [lia|]. by intros (_ & ? & _). }
  destruct (String.eqb_spec (secret (config st)) "") as [Hs|Hs];
    cbn [negb orb].
  { cbn. split; [|done]. split; [lia|]. by intros (_ & _ & ?). }
  pose proof (run_bot_attempts_once script
                (set_client (Some c) (set_running true st))
                eq_refl (ltac:(simpl; eauto))) as Hpos.
  rewrite prepend_events, attempts_app. split.
  - split; [done|]. intros _. lia.
  - intros H0. lia.
Qed.

Lemma start_connects_iff_witness :
  (0 < attempts (start true demo_client [] (__init__ demo_config)).1.2)%nat
  /\ (start false demo_client [] (__init__ demo_config)).1.1
     = __init__ demo_config.
Proof.
  destruct (start_connects_iff true demo_client [] (__init__ demo_config))
    as [Hyes _].
  destruct (start_connects_iff false demo_client [] (__init__ demo_config))
    as [_ Hno].
  split.
  - apply Hyes. repeat split; discriminate.
  - apply Hno. reflexivity.
Defined.

(** X9: cancellation ends the loop where it hits.  Cancelled while
    connecting, the loop leaves at once with the one attempt made, without
    backoff and whatever the flag says; cancelled while sleeping, the
    cancellation leaves [_run_bot] as it is, again without a new attempt. *)
Theorem cancellation_ends_loop (st : QQChannel) (a b : await_obs)
    (rest : list await_obs) :
  _running st = true ->
  is_Some (_client st) ->
  (ended a = Cancelled ->
   (_run_bot (a :: b :: rest) st).2 = LoopExited
   /\ attempts (_run_bot (a :: b :: rest) st).1.2 = 1%nat
   /\ existsb is_sleep (_run_bot (a :: b :: rest) st).1.2 = false)
  /\ (ended a <> Cancelled -> env a = Quiet -> ended b = Cancelled ->
      (_run_bot (a :: b :: rest) st).2 = LoopPropagates Cancelled
      /\ attempts (_run_bot (a :: b :: rest) st).1.2 = 1%nat).
Proof.
  intros Hr [c Hc]. split.
  - intros Ha. cbn [_run_bot]. rewrite Hr, Hc, Ha. done.
  - intros Ha Hq Hb. cbn [_run_bot]. rewrite Hr, Hc, Hq.
    unfold backoff, sleep_then. cbn [during]. rewrite Hr, Hb.
    destruct (ended a); done.
Qed.

Lemma cancellation_ends_loop_witness :
  (_run_bot [ {| env := Quiet; ended := Cancelled |};
              {| env := Quiet; ended := Returned |} ] started).2
  = LoopExited
  /\ attempts (_run_bot [ {| env := Quiet; ended := Cancelled |};
                          {| env := Quiet; ended := Returned |} ]
                        started).1.2 = 1%nat
  /\ existsb is_sleep
       (_run_bot [ {| env := Quiet; ended := Cancelled |};
                   {| env := Quiet; ended := Returned |} ] started).1.2
     = false.
Proof.
  destruct (cancellation_ends_loop started
              {| env := Quiet; ended := Cancelled |}
              {| env := Quiet; ended := Returned |} []) as [H _].
  - reflexivity.
  - simpl. eauto.
  - apply H. reflexivity.
Defined.

Lemma spaced_false_true (evs : list event) :
  spaced false evs = true -> spaced true evs = true.
Proof.
  induction evs as [|e evs IH]; [done|].
  destruct e; simpl; try done. by destruct (_ =? _).
Qed.

(** In any trace of the loop a start of the connection is preceded by a
    backoff sleep, unless it is the first thing the loop does. *)
Lemma run_bot_spaced (n : nat) :
  forall (script : list await_obs) (st : QQChannel),
    (length script <= n)%nat ->
    spaced true (_run_bot script st).1.2 = true.
Proof.
  induction n as [|n IH]; intros script st Hn.
  - destruct script; [|simpl in Hn; lia]. simpl.
    destruct (_running st); [|done]. by destruct (_client st).
  - assert (forall (scr : list await_obs) (s : QQChannel),
              (length scr <= n)%nat -> _running s = true ->
              spaced false (sleep_then _run_bot scr s).1.2 = true) as Hsleep.
    { intros scr s Hl Hs. unfold sleep_then.
      destruct scr as [|b scr']; [done|].
      destruct (ended b); rewrite ?prepend_events; cbn;
        try done. apply IH. simpl in Hl. lia. }
    assert (forall (scr : list await_obs) (s : QQChannel),
              (length scr <= n)%nat ->
              spaced false (backoff _run_bot scr s).1.2 = true) as Hback.
    { intros scr s Hl. unfold backoff.
      destruct (_running s) eqn:Hs; [by apply Hsleep|].
      by rewrite (run_bot_not_running _ _ Hs). }
    destruct script as [|a rest]; [by apply (IH [] st); simpl; lia|].
    simpl in Hn. cbn [_run_bot].
    destruct (_running st) eqn:Hr; [|done].
    destruct (_client st) as [c|] eqn:Hc.
    + destruct (ended a); rewrite ?prepend_events; cbn [fst snd].
      * cbn [app spaced andb]. apply Hback. lia.
      * cbn [app spaced andb]. apply Hback. lia.
      * done.
    + rewrite prepend_events. cbn [app spaced].
      apply spaced_false_true.
      unfold sleep_then.
      destruct (ended a); rewrite ?prepend_events; cbn; try done.
      apply IH. lia.
Qed.

(** X10: [_run_bot] never reconnects without backing off: in the trace of
    any run, from any state and under any script, every start of the
    connection after the first one comes after a five-second sleep made
    since the start before it. *)
Theorem reconnect_only_after_backoff (script : list await_obs)
    (st : QQChannel) :
  spaced true (_run_bot script st).1.2 = true.
Proof. by apply (run_bot_spaced (length script)). Qed.

(** X11: [_run_bot] never gives up on its own.  While nothing stops or
    cancels it, whether the connections return or raise, the loop goes on:
    after [n] connections that ended it is in its [n+1]-th attempt, with the
    channel unchanged. *)
Theorem loop_retries_forever (ends : list await_end) (st : QQChannel) :
  _running st = true ->
  is_Some (_client st) ->
  Forall (fun e => e <> Cancelled) ends ->
  (_run_bot (uneventful ends) st).2 = LoopSuspended
  /\ (_run_bot (uneventful ends) st).1.1 = st
  /\ attempts (_run_bot (uneventful ends) st).1.2 = S (length ends).
Proof.
  intros Hr [c Hc] Hends. induction Hends as [|e ends He _ IH].
  - simpl. by rewrite Hr, Hc.
  - cbn [uneventful flat_map app]. fold (uneventful ends).
    cbn [_run_bot env ended during]. rewrite Hr, Hc.
    unfold backoff, sleep_then. cbn [env ended during]. rewrite Hr.
    destruct IH as (IH1 & IH2 & IH3).
    destruct e; [| |done];
      rewrite !prepend_status, !prepend_state, !prepend_events,
        !attempts_app, IH1, IH2, IH3; cbn; done.
Qed.

Lemma loop_retries_forever_witness :
  (_run_bot (uneventful [Raised "reset"; Returned; Raised "dns"])
            started).2 = LoopSuspended
  /\ (_run_bot (uneventful [Raised "reset"; Returned; Raised "dns"])
               started).1.1 = started
  /\ attempts (_run_bot (uneventful [Raised "reset"; Returned; Raised "dns"])
                        started).1.2
     = S (length [Raised "reset"; Returned; Raised "dns"]).
Proof.
  apply (loop_retries_forever [Raised "reset"; Returned; Raised "dns"]
           started).
  - reflexivity.
  - simpl. eauto.
  - repeat constructor; discriminate.
Defined.

End QQMore.

(** * Properties of the web tools *)

Module WebFacts.
Import Tools Web.

(** ** Substrings *)

Lemma starts_with_append (needle p b : string) :
  starts_with needle p = true -> starts_with needle (p +:+ b) = true.
Proof.
  revert p. induction needle as [|a n IH]; intros p H; [done|].
  destruct p as [|c p]; [done|]. simpl in *.
  apply andb_true_iff in H as [-> H]. simpl. by apply IH.
Qed.

Lemma contains_append_l (needle p b : string) :
  contains needle p = true -> contains needle (p +:+ b) = true.
Proof.
  induction p as [|c p IH]; intros H.
  - simpl in H. rewrite orb_false_r in H.
    destruct needle; [by destruct b|done].
  - cbn [contains] in H. apply orb_true_iff in H as [H|H].
    + change (String c p +:+ b) with (String c (p +:+ b)).
      cbn [contains]. apply orb_true_iff. left.
      by apply (starts_with_append needle (String c p) b).
    + change (String c p +:+ b) with (String c (p +:+ b)).
      cbn [contains]. apply orb_true_iff. right. by apply IH.
Qed.

Lemma contains_tail (needle : string) (c : ascii) (r : string) :
  contains needle r = true -> contains needle (String c r) = true.
Proof. intros H. cbn [contains]. rewrite H. apply orb_true_r. Qed.

Lemma contains_lstrip (needle s : string) :
  contains needle (lstrip s) = true -> contains needle s = true.
Proof.
  induction s as [|c r IH]; [done|]. cbn [lstrip].
  destruct (is_space c); [|done]. intros H. by apply contains_tail, IH.
Qed.

Lemma rstrip_prefix (s : string) : exists b, s = rstrip s +:+ b.
Proof.
  induction s as [|c r [b IH]]; [by exists ""|]. cbn [rstrip].
  destruct (rstrip r) as [|c' r'] eqn:E.
  - destruct (is_space c); [by exists (String c r)|by exists r].
  - exists b. change (String c r = String c (String c' r' +:+ b)).
    f_equal. exact IH.
Qed.

Lemma contains_rstrip (needle s : string) :
  contains needle (rstrip s) = true -> contains needle s = true.
Proof.
  intros H. destruct (rstrip_prefix s) as [b Hb]. rewrite Hb.
  by apply contains_append_l.
Qed.

Lemma contains_strip (needle s : string) :
  contains needle (strip s) = true -> contains needle s = true.
Proof. intros H. by apply contains_lstrip, contains_rstrip. Qed.

(** ** [_normalize] *)

Lemma is_blank_cases (c : ascii) :
  is_blank c = true -> c = " "%char \/ c = "009"%char.
Proof.
  unfold is_blank. intros H. apply orb_true_iff in H as [H|H];
    apply Ascii.eqb_eq in H; auto.
Qed.

Lemma sub_blank_runs_no_tab (s : string) :
  contains (String "009" "") (sub_blank_runs s) = false.
Proof.
  induction s as [|c r IH]; [done|]. cbn [sub_blank_runs].
  destruct (is_blank c) eqn:Hc.
  - destruct r as [|c' r']; [done|].
    destruct (is_blank c'); [exact IH|].
    cbn [contains starts_with]. by rewrite IH.
  - cbn [contains starts_with]. rewrite IH.
    unfold is_blank in Hc. apply orb_false_iff in Hc as [_ Hc].
    rewrite Ascii.eqb_sym, Hc. done.
Qed.

Lemma sub_blank_runs_single (s : string) :
  contains "  " (sub_blank_runs s) = false.
Proof.
  induction s as [|c r IH]; [done|]. cbn [sub_blank_runs].
  destruct (is_blank c) eqn:Hc.
  - destruct r as [|c' r']; [done|].
    destruct (is_blank c') eqn:Hc'; [exact IH|].
    cbn [contains]. rewrite IH, orb_false_r.
    cbn [sub_blank_runs]. rewrite Hc'. cbn [starts_with].
    unfold is_blank in Hc'. apply orb_false_iff in Hc' as [Hc' _].
    rewrite (Ascii.eqb_sym " " c'), Hc'. by rewrite andb_false_r.
  - cbn [contains]. rewrite IH, orb_false_r. cbn [starts_with].
    unfold is_blank in Hc. apply orb_false_iff in Hc as [Hc _].
    by rewrite (Ascii.eqb_sym " " c), Hc.
Qed.

Lemma starts_with_cons (a b : ascii) (n s : string) :
  starts_with (String a n) (String b s) = Ascii.eqb a b && starts_with n s.
Proof. reflexivity. Qed.

Lemma starts_with_first (a : ascii) (n r : string) :
  starts_with (String a n) r = true -> starts_with (String a "") r = true.
Proof.
  destruct r as [|c r]; [done|]. cbn [starts_with]. intros H.
  apply andb_true_iff in H as [-> _]. done.
Qed.

(** [sub_newline_runs] keeps the first character. *)
Lemma sub_newline_runs_head (a : ascii) (s : string) :
  starts_with (String a "") (sub_newline_runs s)
  = starts_with (String a "") s.
Proof.
  induction s as [|c r IH]; [done|]. cbn [sub_newline_runs].
  destruct (is_newline c && starts_with (NL +:+ NL) r) eqn:Hd; [|done].
  apply andb_true_iff in Hd as [Hc Hr]. rewrite IH.
  unfold is_newline in Hc. apply Ascii.eqb_eq in Hc. subst c.
  change (NL +:+ NL) with (String "010" (String "010" "")) in Hr.
  destruct r as [|c' r']; [done|]. cbn [starts_with] in *.
  apply andb_true_iff in Hr as [Hr _]. apply Ascii.eqb_eq in Hr. by subst c'.
Qed.

Lemma sub_newline_runs_two (s : string) :
  starts_with (NL +:+ NL) (sub_newline_runs s) = starts_with (NL +:+ NL) s.
Proof.
  induction s as [|c r IH]; [done|]. cbn [sub_newline_runs].
  destruct (is_newline c && starts_with (NL +:+ NL) r) eqn:Hd.
  - apply andb_true_iff in Hd as [Hc Hr]. rewrite IH, Hr.
    unfold is_newline in Hc. apply Ascii.eqb_eq in Hc. subst c.
    change (NL +:+ NL) with (String "010" (String "010" "")) in *.
    rewrite starts_with_cons, (starts_with_first _ _ _ Hr). done.
  - change (NL +:+ NL) with (String "010" (String "010" "")).
    rewrite !starts_with_cons. by rewrite sub_newline_runs_head.
Qed.

Lemma sub_newline_runs_at_most_two (s : string) :
  contains (NL +:+ NL +:+ NL) (sub_newline_runs s) = false.
Proof.
  induction s as [|c r IH]; [done|]. cbn [sub_newline_runs].
  destruct (is_newline c && starts_with (NL +:+ NL) r) eqn:Hd; [exact IH|].
  cbn [contains]. rewrite IH, orb_false_r.
  change (NL +:+ NL +:+ NL) with (String "010" (NL +:+ NL)).
  rewrite starts_with_cons, sub_newline_runs_two.
  unfold is_newline in Hd. rewrite (Ascii.eqb_sym "010" c). exact Hd.
Qed.

(** [sub_newline_runs] brings no two characters together that are not line
    feeds: a needle without line feed found after it was there before. *)
Lemma sub_newline_runs_keeps_pair (a b : ascii) (s : string) :
  is_newline a = false ->
  contains (String a (String b "")) (sub_newline_runs s) = true ->
  contains (String a (String b "")) s = true.
Proof.
  intros Ha. induction s as [|c r IH]; [done|]. cbn [sub_newline_runs].
  destruct (is_newline c && starts_with (NL +:+ NL) r) eqn:Hd.
  - intros H. by apply contains_tail, IH.
  - cbn [contains]. intros H. apply orb_true_iff in H as [H|H].
    + apply orb_true_iff. left. rewrite starts_with_cons in *.
      apply andb_true_iff in H as [Hac H]. rewrite Hac. cbn [andb].
      by rewrite sub_newline_runs_head in H.
    + apply orb_true_iff. right. by apply IH.
Qed.

Lemma sub_newline_runs_keeps_char (a : ascii) (s : string) :
  contains (String a "") (sub_newline_runs s) = true ->
  contains (String a "") s = true.
Proof.
  induction s as [|c r IH]; [done|]. cbn [sub_newline_runs].
  destruct (is_newline c && starts_with (NL +:+ NL) r) eqn:Hd.
  - intros H. by apply contains_tail, IH.
  - cbn [contains]. intros H. apply orb_true_iff in H as [H|H];
      apply orb_true_iff; [by left|right; by apply IH].
Qed.

Lemma not_true_false (b : bool) : (b = true -> False) -> b = false.
Proof. by destruct b; [intros []|]. Qed.

Lemma normalize_shape_lemma (text : string) :
  contains (String "009" "") (_normalize text) = false
  /\ contains "  " (_normalize text) = false
  /\ contains (NL +:+ NL +:+ NL) (_normalize text) = false
  /\ strip (_normalize text) = _normalize text.
Proof.
  unfold _normalize. split; [|split; [|split]].
  - apply not_true_false. intros H.
    apply contains_strip, sub_newline_runs_keeps_char in H.
    by rewrite sub_blank_runs_no_tab in H.
  - apply not_true_false. intros H.
    apply contains_strip, sub_newline_runs_keeps_pair in H; [|done].
    by rewrite sub_blank_runs_single in H.
  - apply not_true_false. intros H. apply contains_strip in H.
    by rewrite sub_newline_runs_at_most_two in H.
  - apply QQMore.strip_idem.
Qed.

(** X12: the shape of what [_normalize] returns: no tab, no two spaces in a
    row, no three line feeds in a row, and no white space at either end. *)
Theorem normalize_shape (text : string) :
  contains (String "009" "") (_normalize text) = false
  /\ contains "  " (_normalize text) = false
  /\ contains (NL +:+ NL +:+ NL) (_normalize text) = false
  /\ strip (_normalize text) = _normalize text.
Proof. apply normalize_shape_lemma. Qed.

Lemma contains_cons_false (needle : string) (c : ascii) (r : string) :
  contains needle (String c r) = false ->
  starts_with needle (String c r) = false /\ contains needle r = false.
Proof. cbn [contains]. intros H. by apply orb_false_iff in H. Qed.

Lemma sub_blank_runs_fixed (s : string) :
  contains (String "009" "") s = false ->
  contains "  " s = false ->
  sub_blank_runs s = s.
Proof.
  induction s as [|c r IH]; [done|]. intros Ht Hs.
  apply contains_cons_false in Ht as [Ht1 Ht2].
  apply contains_cons_false in Hs as [Hs1 Hs2].
  cbn [sub_blank_runs]. rewrite (IH Ht2 Hs2).
  destruct (is_blank c) eqn:Hc; [|done].
  apply is_blank_cases in Hc as [->| ->]; [|done].
  destruct r as [|c' r']; [done|].
  destruct (is_blank c') eqn:Hc'; [|done].
  apply is_blank_cases in Hc' as [->| ->]; [done|].
  apply contains_cons_false in Ht2 as [Ht2 _]. done.
Qed.

Lemma sub_newline_runs_fixed (s : string) :
  contains (NL +:+ NL +:+ NL) s = false -> sub_newline_runs s = s.
Proof.
  induction s as [|c r IH]; [done|]. intros H.
  apply contains_cons_false in H as [H1 H2].
  cbn [sub_newline_runs]. rewrite (IH H2).
  destruct (is_newline c && starts_with (NL +:+ NL) r) eqn:Hd; [|done].
  change (NL +:+ NL +:+ NL) with (String "010" (NL +:+ NL)) in H1.
  rewrite starts_with_cons in H1. unfold is_newline in Hd.
  rewrite (Ascii.eqb_sym "010" c) in H1. congruence.
Qed.

Example normalize_example :
  _normalize ("  a " +:+ String "009" "" +:+ "  b" +:+ NL +:+ NL +:+ NL +:+ NL
              +:+ "c" +:+ NL +:+ " ")
  = "a b" +:+ NL +:+ NL +:+ "c".
Proof. reflexivity. Qed.

(** X13: [_normalize] is idempotent: normalizing a normalized text changes
    nothing. *)
Theorem normalize_idempotent (text : string) :
  _normalize (_normalize text) = _normalize text.
Proof.
  destruct (normalize_shape_lemma text) as (Ht & Hs & Hn & Hstrip).
  unfold _normalize at 1.
  rewrite (sub_blank_runs_fixed _ Ht Hs), (sub_newline_runs_fixed _ Hn).
  exact Hstrip.
Qed.

(** ** The result count *)

Lemma result_count_range (count : option Z) (self_max : Z) :
  1 <= result_count count self_max <= 10.
Proof. unfold result_count. lia. Qed.

(** X14: the result count sent to the Brave API by both tools is always
    between 1 and 10; a requested count in that range is used as it is; and a
    count that is absent or zero stands for the tool's own default, clamped
    the same way. *)
Theorem result_count_bounds (count : option Z) (self_max : Z) :
  1 <= result_count count self_max <= 10
  /\ (forall c, count = Some c -> 1 <= c <= 10 ->
      result_count count self_max = c)
  /\ (count = None \/ count = Some 0 ->
      result_count count self_max = Z.min (Z.max self_max 1) 10).
Proof.
  split; [apply result_count_range|]. unfold result_count. split.
  - intros c -> Hc. destruct (Z.eqb_spec c 0); lia.
  - intros [->| ->]; done.
Qed.

Lemma result_count_bounds_witness :
  1 <= result_count (Some 25) 5 <= 10
  /\ result_count (Some 7) 5 = 7
  /\ result_count (Some 0) 50 = Z.min (Z.max 50 1) 10.
Proof.
  destruct (result_count_bounds (Some 25) 5) as [H1 _].
  destruct (result_count_bounds (Some 7) 5) as (_ & H2 & _).
  destruct (result_count_bounds (Some 0) 50) as (_ & _ & H3).
  split; [exact H1|]. split.
  - apply (H2 7); [reflexivity|lia].
  - apply H3. by right.
Defined.

(** ** [WebLLMContextTool] *)

Lemma request_context_targets (params : list (string * value))
    (headers : list (string * string)) (got posted : http_outcome)
    (q : request) :
  q ∈ (_request_context params headers got posted).2 ->
  request_target q = BRAVE_LLM_CONTEXT_URL /\ request_params q = params.
Proof.
  unfold _request_context. destruct got as [r|e|].
  - destruct (status_code r =? 405).
    + destruct posted; cbn [snd]; intros Hq;
        apply elem_of_cons in Hq as [->|Hq]; try done;
        apply list_elem_of_singleton in Hq; by subst q.
    + cbn [snd]. intros Hq. apply list_elem_of_singleton in Hq.
      by subst q.
  - cbn [snd]. intros Hq. apply list_elem_of_singleton in Hq. by subst q.
  - cbn [snd]. intros Hq. apply list_elem_of_singleton in Hq. by subst q.
Qed.

(** X15: [_request_context] retries with POST exactly when the GET was
    answered with status 405.  Any other answer, 404 included, stands as it
    is: one GET is all that is sent.  Both requests go to the context
    endpoint with the same parameters. *)
Theorem post_only_after_405 (params : list (string * value))
    (headers : list (string * string)) (got posted : http_outcome) :
  (existsb is_http_post (_request_context params headers got posted).2 = true
   <-> exists r, got = Responded r /\ status_code r = 405)
  /\ (existsb is_http_post (_request_context params headers got posted).2
      = false ->
      (_request_context params headers got posted).2
      = [Get BRAVE_LLM_CONTEXT_URL params headers 20 None])
  /\ (forall q, q ∈ (_request_context params headers got posted).2 ->
      request_target q = BRAVE_LLM_CONTEXT_URL
      /\ request_params q = params)
  /\ (forall r e, got = Responded r -> status_code r <> 405 ->
      status_error r = Some e ->
      _request_context params headers got posted
      = (Raised_ e, [Get BRAVE_LLM_CONTEXT_URL params headers 20 None])).
Proof.
  unfold _request_context. split; [|split; [|split]].
  - destruct got as [r|e|]; [|split; [done|by intros (? & ? & _)]..].
    destruct (Z.eqb_spec (status_code r) 405) as [H|H].
    + split; [eauto|]. intros _. by destruct posted.
    + split; [done|]. intros (r' & [= <-] & ?). done.
  - destruct got as [r|e|]; [|done..].
    destruct (status_code r =? 405); [|done]. by destruct posted.
  - intros q. apply request_context_targets.
  - intros r e -> H405 He.
    destruct (Z.eqb_spec (status_code r) 405); [done|].
    unfold checked. by rewrite He.
Qed.

Lemma post_only_after_405_witness :
  existsb is_http_post
    (_request_context (brave_params "q" 5) [] 
       (Responded (_FakeResponse (VObj []) 405))
       (Responded (_FakeResponse (VObj []) 200))).2 = true
  /\ _request_context (brave_params "q" 5) []
       (Responded (_FakeResponse (VObj []) 404))
       (Responded (_FakeResponse (VObj []) 200))
     = (Raised_ "http 404",
        [Get BRAVE_LLM_CONTEXT_URL (brave_params "q" 5) [] 20 None]).
Proof.
  split.
  - apply (post_only_after_405 (brave_params "q" 5) []
             (Responded (_FakeResponse (VObj []) 405))
             (Responded (_FakeResponse (VObj []) 200))).
    eexists. split; reflexivity.
  - destruct (post_only_after_405 (brave_params "q" 5) []
                (Responded (_FakeResponse (VObj []) 404))
                (Responded (_FakeResponse (VObj []) 200)))
      as (_ & _ & _ & H).
    apply (H (_FakeResponse (VObj []) 404) "http 404").
    + reflexivity.
    + simpl. lia.
    + reflexivity.
Defined.

Lemma truthy_nonempty (s : string) : truthy s = true -> s <> "".
Proof. unfold truthy. intros H ->. done. Qed.

Lemma brave_request_fields (self : BraveTool) (query : string) (n : Z)
    (q : request) :
  request_params q = brave_params query n ->
  request_headers q = brave_headers self
  \/ request_headers q
     = brave_headers self ++ [("Content-Type", "application/json")] ->
  header "X-Subscription-Token" (request_headers q) = Some (api_key self)
  /\ lookup_field "q" (request_params q) = Some (VStr query)
  /\ lookup_field "count" (request_params q) = Some (VInt n).
Proof. intros -> [-> | ->]; done. Qed.

(** X16: [WebLLMContextTool.execute] sends nothing without an API key; and
    every request it sends goes to the context endpoint, carries the key in
    [X-Subscription-Token], the query, and a count between 1 and 10. *)
Theorem context_requests_carry_key_and_count (dumps dumps_unicode : value -> string)
    (self : BraveTool) (query : string) (count : option Z)
    (output_mode : option string) (got posted : http_outcome) (q : request) :
  q ∈ (context_execute dumps dumps_unicode self query count output_mode
                       got posted).2 ->
  api_key self <> ""
  /\ request_target q = BRAVE_LLM_CONTEXT_URL
  /\ header "X-Subscription-Token" (request_headers q) = Some (api_key self)
  /\ lookup_field "q" (request_params q) = Some (VStr query)
  /\ exists n, lookup_field "count" (request_params q) = Some (VInt n)
               /\ 1 <= n <= 10.
Proof.
  unfold context_execute.
  destruct (truthy (api_key self)) eqn:Hk; cbn [negb].
  2:{ cbn [snd]. intros H. by apply not_elem_of_nil in H. }
  set (n := result_count count (max_results self)).
  destruct (_request_context (brave_params query n) (brave_headers self)
                             got posted) as [resp reqs] eqn:Hreq.
  intros Hq.
  assert (q ∈ reqs) as Hin.
  { destruct resp as [r| |]; [destruct (json r)|..]; exact Hq. }
  assert (reqs = (_request_context (brave_params query n)
                    (brave_headers self) got posted).2) as Hreqs
    by by rewrite Hreq.
  rewrite Hreqs in Hin.
  destruct (request_context_targets _ _ _ _ q Hin) as [Ht Hp].
  assert (request_headers q = brave_headers self
          \/ request_headers q
             = brave_headers self ++ [("Content-Type", "application/json")])
    as Hh.
  { revert Hin. unfold _request_context.
    destruct got as [r|e|].
    - destruct (status_code r =? 405).
      + destruct posted; cbn [snd]; intros Hin;
          apply elem_of_cons in Hin as [->|Hin]; try (by left);
          apply list_elem_of_singleton in Hin; subst q; by right.
      + cbn [snd]. intros Hin. apply list_elem_of_singleton in Hin.
        subst q. by left.
    - cbn [snd]. intros Hin. apply list_elem_of_singleton in Hin.
      subst q. by left.
    - cbn [snd]. intros Hin. apply list_elem_of_singleton in Hin.
      subst q. by left. }
  destruct (brave_request_fields self query n q Hp Hh) as (H1 & H2 & H3).
  split; [by apply truthy_nonempty|]. split; [exact Ht|].
  split; [exact H1|]. split; [exact H2|].
  exists n. split; [exact H3|]. apply result_count_range.
Qed.

Lemma context_requests_carry_key_and_count_witness :
  api_key {| api_key := "k"; max_results := 5 |} <> ""
  /\ request_target
       (Get BRAVE_LLM_CONTEXT_URL (brave_params "q" 10)
          (brave_headers {| api_key := "k"; max_results := 5 |}) 20 None)
     = BRAVE_LLM_CONTEXT_URL
  /\ header "X-Subscription-Token"
       (request_headers
          (Get BRAVE_LLM_CONTEXT_URL (brave_params "q" 10)
             (brave_headers {| api_key := "k"; max_results := 5 |}) 20 None))
     = Some (api_key {| api_key := "k"; max_results := 5 |})
  /\ lookup_field "q"
       (request_params
          (Get BRAVE_LLM_CONTEXT_URL (brave_params "q" 10)
             (brave_headers {| api_key := "k"; max_results := 5 |}) 20 None))
     = Some (VStr "q")
  /\ exists n,
       lookup_field "count"
         (request_params
            (Get BRAVE_LLM_CONTEXT_URL (brave_params "q" 10)
               (brave_headers {| api_key := "k"; max_results := 5 |}) 20
               None)) = Some (VInt n)
       /\ 1 <= n <= 10.
Proof.
  apply (context_requests_carry_key_and_count (fun _ => "{}") (fun _ => "{}")
           {| api_key := "k"; max_results := 5 |} "q" (Some 99) None
           (Failed "timeout") Aborted).
  vm_compute. apply list_elem_of_here.
Defined.



(** The three tests of [WebLLMContextTool] in
    [tests/test_tool_validation.py], with [json.dumps] left open. *)
Example test_web_llm_context_get_params (dumps du : value -> string) :
  context_execute dumps du (brave_init (Some "k") None 5) "asplos 2026"
    (Some 5) None
    (Responded (_FakeResponse (VObj [("context", VStr "ok")]) 200)) Aborted
  = (Returns (dumps (VObj [("query", VStr "asplos 2026");
                           ("count", VInt 5);
                           ("endpoint", VStr BRAVE_LLM_CONTEXT_URL);
                           ("status", VInt 200);
                           ("data", VObj [("context", VStr "ok")])])),
     [Get BRAVE_LLM_CONTEXT_URL
          [("q", VStr "asplos 2026"); ("count", VInt 5)]
          [("Accept", "application/json"); ("X-Subscription-Token", "k")]
          20 None]).
Proof. reflexivity. Qed.

Example test_web_llm_context_post_fallback (dumps du : value -> string) :
  (context_execute dumps du (brave_init (Some "k") None 5) "fallback"
     None None
     (Responded (_FakeResponse (VObj []) 405))
     (Responded (_FakeResponse (VObj [("context", VStr "from-post")]) 200))).1
  = Returns (dumps (VObj [("query", VStr "fallback");
                          ("count", VInt 5);
                          ("endpoint", VStr BRAVE_LLM_CONTEXT_URL);
                          ("status", VInt 200);
                          ("data", VObj [("context", VStr "from-post")])]))
  /\ length (List.filter is_http_post
       (context_execute dumps du (brave_init (Some "k") None 5) "fallback"
          None None
          (Responded (_FakeResponse (VObj []) 405))
          (Responded (_FakeResponse (VObj [("context", VStr "from-post")])
                        200))).2) = 1%nat.
Proof. split; reflexivity. Qed.

Example test_web_llm_context_web_fetch_mode (dumps du : value -> string) :
  (context_execute dumps du (brave_init (Some "k") None 5) "mode test"
     None (Some "web_fetch")
     (Responded (_FakeResponse
                   (VObj [("results",
                           VArr [VObj [("snippet", VStr "alpha")];
                                 VObj [("snippet", VStr "beta")]])]) 200))
     Aborted).1
  = Returns (dumps (VObj [("url", VStr BRAVE_LLM_CONTEXT_URL);
                          ("finalUrl", VStr BRAVE_LLM_CONTEXT_URL);
                          ("status", VInt 200);
                          ("extractor", VStr "brave_llm_context");
                          ("truncated", VBool false);
                          ("length", VInt 11);
                          ("text", VStr ("alpha" +:+ NL +:+ NL +:+ "beta"));
                          ("data",
                           VObj [("results",
                                  VArr [VObj [("snippet", VStr "alpha")];
                                        VObj [("snippet", VStr "beta")]])])])).
Proof. reflexivity. Qed.

(** ** [_extract_context_text] *)

Lemma append_cons (c : ascii) (a b : string) :
  String c a +:+ b = String c (a +:+ b).
Proof. reflexivity. Qed.

Lemma has_ink_lstrip (s : string) : has_ink (lstrip s) = has_ink s.
Proof.
  induction s as [|c r IH]; [done|]. cbn [lstrip].
  destruct (is_space c) eqn:Hc; [|done].
  rewrite IH. cbn [has_ink]. by rewrite Hc.
Qed.

Lemma has_ink_rstrip (s : string) : has_ink (rstrip s) = has_ink s.
Proof.
  induction s as [|c r IH]; [done|]. cbn [rstrip].
  destruct (rstrip r) as [|c' r'] eqn:E.
  - cbn [has_ink]. rewrite <- IH. cbn [has_ink].
    destruct (is_space c) eqn:Hc; cbn [has_ink]; rewrite ?Hc; done.
  - cbn [has_ink]. rewrite <- IH. done.
Qed.

Lemma has_ink_strip (s : string) : has_ink (strip s) = has_ink s.
Proof. unfold strip. by rewrite has_ink_rstrip, has_ink_lstrip. Qed.

Lemma has_ink_nonempty (s : string) : has_ink s = true -> s <> "".
Proof. by intros H ->. Qed.

Lemma lstrip_blank (s : string) : has_ink s = false -> lstrip s = "".
Proof.
  induction s as [|c r IH]; [done|]. cbn [lstrip has_ink]. intros H.
  apply orb_false_iff in H as [Hc Hr]. apply negb_false_iff in Hc.
  rewrite Hc. by apply IH.
Qed.

(** A string is blank for [strip] exactly when it holds no ink. *)
Lemma truthy_strip (s : string) : truthy (strip s) = has_ink s.
Proof.
  destruct (has_ink s) eqn:H.
  - rewrite <- has_ink_strip in H. unfold truthy.
    destruct (String.eqb_spec (strip s) "") as [E|_]; [|done].
    by rewrite E in H.
  - unfold strip. by rewrite (lstrip_blank _ H).
Qed.

Lemma is_blank_space (c : ascii) : is_blank c = true -> is_space c = true.
Proof. intros [->| ->]%is_blank_cases; done. Qed.

Lemma has_ink_sub_blank_runs (s : string) :
  has_ink (sub_blank_runs s) = has_ink s.
Proof.
  induction s as [|c r IH]; [done|]. cbn [sub_blank_runs].
  destruct (is_blank c) eqn:Hc.
  - apply is_blank_space in Hc. cbn [has_ink]. rewrite Hc. cbn [negb orb].
    destruct r as [|c' r']; [done|].
    destruct (is_blank c'); [exact IH|]. cbn [has_ink] in *. by rewrite IH.
  - cbn [has_ink]. by rewrite IH.
Qed.

Lemma has_ink_sub_newline_runs (s : string) :
  has_ink (sub_newline_runs s) = has_ink s.
Proof.
  induction s as [|c r IH]; [done|]. cbn [sub_newline_runs].
  destruct (is_newline c && starts_with (NL +:+ NL) r) eqn:Hd.
  - apply andb_true_iff in Hd as [Hc _]. unfold is_newline in Hc.
    apply Ascii.eqb_eq in Hc. subst c. cbn [has_ink]. by rewrite IH.
  - cbn [has_ink]. by rewrite IH.
Qed.

Lemma has_ink_normalize (s : string) : has_ink (_normalize s) = has_ink s.
Proof.
  unfold _normalize.
  by rewrite has_ink_strip, has_ink_sub_newline_runs, has_ink_sub_blank_runs.
Qed.

Lemma has_ink_append (a b : string) :
  has_ink (a +:+ b) = has_ink a || has_ink b.
Proof.
  induction a as [|c a IH]; [done|].
  rewrite append_cons. cbn [has_ink]. by rewrite IH, orb_assoc.
Qed.

Lemma has_ink_join (sep x : string) (xs : list string) :
  has_ink x = true -> has_ink (join sep (x :: xs)) = true.
Proof.
  intros H. destruct xs as [|y ys]; [done|].
  cbn [join]. by rewrite has_ink_append, H.
Qed.

Lemma Forall_flat_map {A B : Type} (P : B -> Prop) (f : A -> list B)
    (l : list A) :
  (forall x, Forall P (f x)) -> Forall P (flat_map f l).
Proof.
  intros H. induction l as [|x l IH]; [constructor|].
  cbn [flat_map]. apply Forall_app. by split.
Qed.

Lemma snippet_of_inked (part : option value) :
  Forall (fun x => has_ink x = true) (snippet_of part).
Proof.
  unfold snippet_of. destruct part as [[| | | |s| |]|]; try constructor.
  destruct (truthy (strip s)) eqn:H; constructor; [|constructor].
  by rewrite truthy_strip, <- has_ink_strip in H.
Qed.

Lemma collect_snippets_inked (fields : list (string * value)) :
  Forall (fun x => has_ink x = true) (collect_snippets fields).
Proof.
  unfold collect_snippets. apply Forall_flat_map. intros key.
  destruct (lookup_field key fields) as [[| | | | |found|]|];
    try constructor.
  apply Forall_flat_map. intros item. unfold item_snippets.
  destruct item as [| | | | | |f]; try constructor.
  apply Forall_app. split.
  - apply Forall_flat_map. intros field. apply snippet_of_inked.
  - destruct (lookup_field "extra_snippets" f) as [[| | | | |extra|]|];
      try constructor.
    apply Forall_flat_map. intros p. apply snippet_of_inked.
Qed.

Lemma stripped_field_inked (key : string) (fields : list (string * value))
    (s : string) :
  stripped_field key fields = Some s -> s <> "" /\ strip s = s.
Proof.
  unfold stripped_field.
  destruct (lookup_field key fields) as [[| | | |x| |]|]; try done.
  destruct (truthy (strip x)) eqn:H; [|done]. intros [= <-].
  split; [by apply truthy_nonempty|apply QQMore.strip_idem].
Qed.

(** X18: whatever [_extract_context_text] extracts is a text: unless it
    falls back on the JSON dump of the data, its result is not empty and has
    no white space at either end. *)
Theorem extract_context_text_shape (dumps_unicode : value -> string)
    (data : value) :
  _extract_context_text dumps_unicode data = dumps_unicode data
  \/ (_extract_context_text dumps_unicode data <> ""
      /\ strip (_extract_context_text dumps_unicode data)
         = _extract_context_text dumps_unicode data).
Proof.
  unfold _extract_context_text.
  destruct data as [| | | | | |fields]; try by left.
  destruct (stripped_field "context" fields) as [s|] eqn:Hc.
  { right. by apply (stripped_field_inked "context" fields). }
  destruct (stripped_field "summary" fields) as [s|] eqn:Hs.
  { right. by apply (stripped_field_inked "summary" fields). }
  pose proof (collect_snippets_inked fields) as Hink.
  destruct (collect_snippets fields) as [|x xs]; [by left|].
  right. split.
  - apply has_ink_nonempty. rewrite has_ink_normalize.
    apply has_ink_join. by apply Forall_cons in Hink as [-> _].
  - apply normalize_shape_lemma.
Qed.

(** ** [WebFetchTool] *)

Lemma str_take_length (n : nat) (s : string) :
  String.length (str_take n s) = Nat.min n (String.length s).
Proof.
  revert s. induction n as [|n IH]; intros [|c r]; simpl; try done.
  by rewrite IH.
Qed.

Lemma str_take_prefix (n : nat) (s : string) :
  exists rest, s = str_take n s +:+ rest.
Proof.
  revert s. induction n as [|n IH]; intros s.
  - exists s. by destruct s.
  - destruct s as [|c r]; [by exists ""|].
    destruct (IH r) as [rest Hr]. exists rest.
    cbn [str_take]. rewrite append_cons. by rewrite <- Hr.
Qed.

Lemma str_take_all (n : nat) (s : string) :
  (String.length s <= n)%nat -> str_take n s = s.
Proof.
  revert s. induction n as [|n IH]; intros [|c r]; simpl; try done.
  - lia.
  - intros H. rewrite IH; [done|lia].
Qed.

(** X19: the text [WebFetchTool.execute] puts in its payload.  It is a
    prefix of the text extracted; with a non-negative bound it is never
    longer than the bound and is the whole text when that fits; the payload
    says so in [truncated] and gives its length in [length].  A negative
    bound cuts that many characters off the end instead. *)
Theorem page_payload_bounded (target final : string) (r : Response)
    (found extractor : string) (m : Z) :
  exists kept rest,
    page_payload target final r found extractor m
    = VObj [("url", VStr target);
            ("finalUrl", VStr final);
            ("status", VInt (status_code r));
            ("extractor", VStr extractor);
            ("truncated", VBool (m <? Z.of_nat (String.length found)));
            ("length", VInt (Z.of_nat (String.length kept)));
            ("text", VStr kept)]
    /\ found = kept +:+ rest
    /\ (0 <= m -> Z.of_nat (String.length kept) <= m)
    /\ (Z.of_nat (String.length found) <= m -> kept = found)
    /\ (m < 0 ->
        Z.of_nat (String.length kept)
        = Z.max 0 (Z.of_nat (String.length found) + m)).
Proof.
  unfold page_payload, slice_to.
  destruct (Z.ltb_spec m (Z.of_nat (String.length found))) as [Hlt|Hge].
  - destruct (Z.leb_spec 0 m) as [Hpos|Hneg].
    + destruct (str_take_prefix (Z.to_nat m) found) as [rest Hrest].
      exists (str_take (Z.to_nat m) found), rest.
      split; [done|]. split; [exact Hrest|].
      rewrite str_take_length. repeat split; intros; lia.
    + destruct (str_take_prefix
                  (Z.to_nat (Z.of_nat (String.length found) + m)) found)
        as [rest Hrest].
      exists (str_take (Z.to_nat (Z.of_nat (String.length found) + m)) found),
        rest.
      split; [done|]. split; [exact Hrest|].
      rewrite str_take_length. repeat split; intros; lia.
  - exists found, "". split; [done|]. split.
    + clear. induction found as [|c f IH]; [done|].
      rewrite append_cons. by rewrite <- IH.
    + repeat split; intros; lia.
Qed.

Lemma page_payload_bounded_witness :
  exists kept rest,
    page_payload "https://a.example/x" "https://a.example/x"
      (_FakeResponse VNull 200) "0123456789" "raw" 4
    = VObj [("url", VStr "https://a.example/x");
            ("finalUrl", VStr "https://a.example/x");
            ("status", VInt (status_code (_FakeResponse VNull 200)));
            ("extractor", VStr "raw");
            ("truncated", VBool (4 <? Z.of_nat (String.length "0123456789")));
            ("length", VInt (Z.of_nat (String.length kept)));
            ("text", VStr kept)]
    /\ "0123456789" = kept +:+ rest
    /\ Z.of_nat (String.length kept) <= 4.
Proof.
  destruct (page_payload_bounded "https://a.example/x" "https://a.example/x"
              (_FakeResponse VNull 200) "0123456789" "raw" 4)
    as (kept & rest & H1 & H2 & H3 & _).
  exists kept, rest. split; [exact H1|]. split; [exact H2|].
  apply H3. lia.
Defined.

Section FetchFacts.

Variable urlparse : string -> parsed.
Variable dumps dumps_indent : value -> string.
Variable readability : string -> document.
Variable to_markdown strip_tags : string -> string.

Lemma validate_url_true (target : string) :
  (_validate_url urlparse target).1 = true ->
  exists scheme netloc,
    urlparse target = Parsed scheme netloc
    /\ (scheme = "http" \/ scheme = "https") /\ netloc <> "".
Proof.
  unfold _validate_url. destruct (urlparse target) as [scheme netloc|e];
    [|done].
  destruct (String.eqb_spec scheme "http") as [->|H1].
  - cbn. destruct (truthy netloc) eqn:Hn; [|done]. intros _.
    exists "http", netloc. split; [done|]. split; [by left|].
    by apply truthy_nonempty.
  - destruct (String.eqb_spec scheme "https") as [->|H2]; [|done].
    cbn. destruct (truthy netloc) eqn:Hn; [|done]. intros _.
    exists "https", netloc. split; [done|]. split; [by right|].
    by apply truthy_nonempty.
Qed.

Lemma validate_url_iff (target : string) :
  (_validate_url urlparse target).1 = true
  <-> exists scheme netloc,
        urlparse target = Parsed scheme netloc
        /\ (scheme = "http" \/ scheme = "https") /\ netloc <> "".
Proof.
  split; [apply validate_url_true|].
  intros (scheme & netloc & Hp & Hs & Hn). unfold _validate_url. rewrite Hp.
  assert (truthy netloc = true) as ->.
  { unfold truthy. by destruct (String.eqb_spec netloc ""). }
  by destruct Hs as [->| ->].
Qed.

(** X20: [WebFetchTool.execute] fetches exactly what it has validated.  With
    [readability] importable, a target that [urlparse] splits into the scheme
    http or https and a non-empty network location gets exactly one GET of
    that target, following at most [MAX_REDIRECTS] redirects, however the
    request ends; for any other target the answer is the validation error
    and nothing is sent.  So every request made is that GET of a validated
    target. *)
Theorem fetch_only_validated_urls (self_max : Z) (importable : bool)
    (no_url target extractMode : string) (maxChars : option Z)
    (got : http_outcome) :
  (forall q,
     q ∈ (fetch_execute urlparse dumps dumps_indent readability to_markdown
            strip_tags self_max importable no_url target extractMode maxChars
            got).2 ->
     q = Get target [] [("User-Agent", USER_AGENT)] 30 (Some MAX_REDIRECTS)
     /\ exists scheme netloc,
          urlparse target = Parsed scheme netloc
          /\ (scheme = "http" \/ scheme = "https") /\ netloc <> "")
  /\ (importable = true -> (_validate_url urlparse target).1 = false ->
      fetch_execute urlparse dumps dumps_indent readability to_markdown
        strip_tags self_max importable no_url target extractMode maxChars got
      = (Returns (dumps (error_payload
                           ("URL validation failed: "
                            +:+ (_validate_url urlparse target).2) target)),
         []))
  /\ (fetch_execute urlparse dumps dumps_indent readability to_markdown
        strip_tags self_max importable no_url target extractMode maxChars
        got).2
     = (if importable && (_validate_url urlparse target).1
        then [Get target [] [("User-Agent", USER_AGENT)] 30
                  (Some MAX_REDIRECTS)]
        else [])
  /\ (importable = true ->
      (exists scheme netloc,
         urlparse target = Parsed scheme netloc
         /\ (scheme = "http" \/ scheme = "https") /\ netloc <> "") ->
      (fetch_execute urlparse dumps dumps_indent readability to_markdown
         strip_tags self_max importable no_url target extractMode maxChars
         got).2
      = [Get target [] [("User-Agent", USER_AGENT)] 30
             (Some MAX_REDIRECTS)]).
Proof.
  assert ((fetch_execute urlparse dumps dumps_indent readability to_markdown
             strip_tags self_max importable no_url target extractMode
             maxChars got).2
          = (if importable && (_validate_url urlparse target).1
             then [Get target [] [("User-Agent", USER_AGENT)] 30
                       (Some MAX_REDIRECTS)]
             else [])) as Hreqs.
  { unfold fetch_execute. destruct importable; cbn [negb andb]; [|done].
    destruct (_validate_url urlparse target) as [[] msg]; cbn [negb fst];
      [|done].
    destruct got as [r|e|]; [|done..].
    destruct (status_error r); [done|].
    destruct (page_text _ _ _ _ _ _) as [[found ex]|e]; [|done].
    by destruct (url r). }
  split; [|split; [|split]].
  - intros q Hq. rewrite Hreqs in Hq.
    destruct importable; cbn [andb] in Hq;
      [|by apply not_elem_of_nil in Hq].
    destruct ((_validate_url urlparse target).1) eqn:Hv;
      [|by apply not_elem_of_nil in Hq].
    apply list_elem_of_singleton in Hq. split; [done|].
    by apply validate_url_true.
  - intros -> Hv. unfold fetch_execute. cbn [negb].
    destruct (_validate_url urlparse target) as [ok msg].
    simpl in Hv. subst ok. done.
  - exact Hreqs.
  - intros -> Hvalid. rewrite Hreqs.
    apply validate_url_iff in Hvalid. by rewrite Hvalid.
Qed.

(** X21: [WebFetchTool.execute] contains every failure of the fetch.  Once
    [readability] is importable, nothing is raised: a request that fails, an
    error status, a body that cannot be decoded or read, all come back as the
    JSON text of [{"error": ..., "url": target}], and the call is abandoned
    only when the request is cancelled.  Without [readability] the import
    error is raised before anything else is done. *)
Theorem fetch_failures_become_payload (self_max : Z) (importable : bool)
    (no_url target extractMode : string) (maxChars : option Z)
    (got : http_outcome) :
  (importable = false ->
   fetch_execute urlparse dumps dumps_indent readability to_markdown
     strip_tags self_max importable no_url target extractMode maxChars got
   = (Raises "No module named 'readability'", []))
  /\ (importable = true ->
      (forall e,
         (fetch_execute urlparse dumps dumps_indent readability to_markdown
            strip_tags self_max importable no_url target extractMode
            maxChars got).1 <> Raises e)
      /\ ((fetch_execute urlparse dumps dumps_indent readability to_markdown
             strip_tags self_max importable no_url target extractMode
             maxChars got).1 = Aborts -> got = Aborted)
      /\ (forall e, (_validate_url urlparse target).1 = true ->
          got = Failed e
          \/ (exists r, got = Responded r /\ status_error r = Some e)
          \/ (exists r, got = Responded r /\ status_error r = None
                        /\ page_text dumps_indent readability to_markdown
                             strip_tags r extractMode = inr e) ->
          (fetch_execute urlparse dumps dumps_indent readability to_markdown
             strip_tags self_max importable no_url target extractMode
             maxChars got).1
          = Returns (dumps (error_payload e target)))).
Proof.
  unfold fetch_execute. split; [by intros ->|]. intros ->. cbn [negb].
  destruct (_validate_url urlparse target) as [ok msg]. split; [|split].
  - intros e. destruct ok; cbn [negb]; [|done].
    destruct got as [r| |]; [|done..].
    destruct (status_error r); [done|].
    destruct (page_text _ _ _ _ _ _) as [[found ex]|]; [|done].
    by destruct (url r).
  - destruct ok; cbn [negb]; [|done].
    destruct got as [r| |]; [|done..].
    destruct (status_error r); [done|].
    destruct (page_text _ _ _ _ _ _) as [[found ex]|]; [|done].
    by destruct (url r).
  - intros e Hok. simpl in Hok. subst ok. cbn [negb].
    intros [->|[(r & -> & He)|(r & -> & He & Hp)]]; [done|by rewrite He|].
    by rewrite He, Hp.
Qed.

End FetchFacts.

Lemma fetch_only_validated_urls_witness :
  fetch_execute (fun _ => Parsed "file" "") (fun _ => "{}") (fun _ => "{}")
    (fun _ => Unreadable "") (fun s => s) (fun s => s) 50000 true "no url"
    "file:///etc/passwd" "markdown" None
    (Responded (_FakeResponse VNull 200))
  = (Returns ((fun _ : value => "{}")
                (error_payload
                   ("URL validation failed: "
                    +:+ (_validate_url (fun _ => Parsed "file" "")
                                       "file:///etc/passwd").2)
                   "file:///etc/passwd")), [])
  /\ (fetch_execute (fun _ => Parsed "https" "a.example") (fun _ => "{}")
        (fun _ => "{}") (fun _ => Unreadable "") (fun s => s) (fun s => s)
        50000 true "no url" "https://a.example/x" "markdown" None
        (Failed "timeout")).2
     = [Get "https://a.example/x" [] [("User-Agent", USER_AGENT)] 30
            (Some MAX_REDIRECTS)].
Proof.
  destruct (fetch_only_validated_urls (fun _ => Parsed "file" "")
              (fun _ => "{}") (fun _ => "{}") (fun _ => Unreadable "")
              (fun s => s) (fun s => s) 50000 true "no url"
              "file:///etc/passwd" "markdown" None
              (Responded (_FakeResponse VNull 200))) as (_ & H & _).
  destruct (fetch_only_validated_urls (fun _ => Parsed "https" "a.example")
              (fun _ => "{}") (fun _ => "{}") (fun _ => Unreadable "")
              (fun s => s) (fun s => s) 50000 true "no url"
              "https://a.example/x" "markdown" None (Failed "timeout"))
    as (_ & _ & _ & H').
  split.
  - apply H; reflexivity.
  - apply H'; [reflexivity|].
    exists "https", "a.example". split; [reflexivity|].
    split; [by right|discriminate].
Defined.

Lemma fetch_failures_become_payload_witness :
  (fetch_execute (fun _ => Parsed "https" "a.example") (fun _ => "{}")
     (fun _ => "{}") (fun _ => Unreadable "") (fun s => s) (fun s => s)
     50000 true "no url" "https://a.example/x" "markdown" None
     (Failed "timeout")).1
  = Returns ((fun _ : value => "{}")
               (error_payload "timeout" "https://a.example/x")).
Proof.
  destruct (fetch_failures_become_payload (fun _ => Parsed "https" "a.example")
              (fun _ => "{}") (fun _ => "{}") (fun _ => Unreadable "")
              (fun s => s) (fun s => s) 50000 true "no url"
              "https://a.example/x" "markdown" None (Failed "timeout"))
    as [_ H].
  destruct (H eq_refl) as (_ & _ & H3).
  apply (H3 "timeout"); [reflexivity|by left].
Defined.

(** ** [WebSearchTool] *)

Lemma starts_with_refl (s : string) : starts_with s s = true.
Proof.
  induction s as [|c s IH]; [done|]. rewrite starts_with_cons.
  by rewrite Ascii.eqb_refl, IH.
Qed.

Lemma join_starts_with (sep h : string) (ls : list string) :
  starts_with h (join sep (h :: ls)) = true.
Proof.
  destruct ls as [|x xs]; cbn [join]; [apply starts_with_refl|].
  apply starts_with_append, starts_with_refl.
Qed.

Section SearchFacts.

Variable float_truthy : string -> bool.
Variable py_str : value -> string.
Variable dict_slice_error : string.

(** X22: [WebSearchTool.execute] sends nothing without an API key and
    answers with the fixed configuration error; with a key it sends exactly
    one GET to the search endpoint, carrying the key, the query and a count
    between 1 and 10. *)
Theorem search_requests_carry_key_and_count (self : BraveTool)
    (query : string) (count : option Z) (got : http_outcome) :
  (api_key self = "" ->
   search_execute float_truthy py_str dict_slice_error self query count got
   = (Returns "Error: BRAVE_API_KEY not configured", []))
  /\ (api_key self <> "" ->
      (search_execute float_truthy py_str dict_slice_error self query count
                      got).2
      = [Get BRAVE_WEB_SEARCH_URL
             [("q", VStr query);
              ("count", VInt (result_count count (max_results self)))]
             [("Accept", "application/json");
              ("X-Subscription-Token", api_key self)] 10 None]
      /\ 1 <= result_count count (max_results self) <= 10).
Proof.
  unfold search_execute, truthy. split.
  - by intros ->.
  - intros Hk. destruct (String.eqb_spec (api_key self) "") as [E|_]; [done|].
    cbn [negb]. split; [|apply result_count_range].
    destruct got as [r| |]; [|done..].
    destruct (status_error r); [done|]. by destruct (search_text _ _ _ _ _ _).
Qed.

(** X23: [WebSearchTool.execute] reads no more results than the count it
    asked for.  Two responses whose result lists are not empty and agree on
    their first [n] entries, [n] being the count sent, get the same answer,
    whatever follows in the lists. *)
Theorem search_reads_only_counted_results (self : BraveTool)
    (query : string) (count : option Z) (r r' : Response)
    (top web top' web' : list (string * value)) (found found' : list value) :
  status_error r = None -> status_error r' = None ->
  json r = Json (VObj top) -> json r' = Json (VObj top') ->
  lookup_field "web" top = Some (VObj web) ->
  lookup_field "web" top' = Some (VObj web') ->
  lookup_field "results" web = Some (VArr found) ->
  lookup_field "results" web' = Some (VArr found') ->
  found <> [] -> found' <> [] ->
  take (Z.to_nat (result_count count (max_results self))) found
  = take (Z.to_nat (result_count count (max_results self))) found' ->
  search_execute float_truthy py_str dict_slice_error self query count
                 (Responded r)
  = search_execute float_truthy py_str dict_slice_error self query count
                   (Responded r').
Proof.
  intros He He' Hj Hj' Hw Hw' Hf Hf' Hne Hne' Htake.
  unfold search_execute. destruct (negb (truthy (api_key self))); [done|].
  rewrite He, He'. unfold search_text. rewrite Hj, Hj'.
  cbn [get_or]. rewrite Hw, Hw'. cbn [default from_option id get_or].
  rewrite Hf, Hf'. cbn [default from_option id value_truthy sliced].
  destruct found as [|x xs]; [done|]. destruct found' as [|x' xs']; [done|].
  cbn [negb]. by rewrite Htake.
Qed.

Lemma result_lines_dicts (found : list value) (i : nat) :
  forallb is_dict found = true ->
  exists ls,
    result_lines float_truthy py_str i found = inl ls
    /\ (length found <= length ls <= 2 * length found)%nat.
Proof.
  revert i. induction found as [|item rest IH]; intros i H.
  - exists []. split; [done|simpl; lia].
  - cbn [forallb] in H. apply andb_true_iff in H as [Hd Hrest].
    destruct item as [| | | | | |fields]; try done.
    destruct (IH (S i) Hrest) as (ls & Hls & Hlen).
    cbn [result_lines]. rewrite Hls. eexists. split; [done|].
    cbn [length]. rewrite length_app.
    destruct (lookup_field "description" fields) as [d|]; cbn [length];
      [destruct (value_truthy float_truthy d); cbn [length]|]; lia.
Qed.

Lemma result_lines_not_dict (found : list value) (i : nat) (item : value) :
  item ∈ found -> is_dict item = false ->
  exists e, result_lines float_truthy py_str i found = inr e.
Proof.
  revert i. induction found as [|x rest IH]; intros i Hin Hd;
    [by apply not_elem_of_nil in Hin|].
  apply elem_of_cons in Hin as [<-|Hin].
  - destruct item; try done; cbn [result_lines]; eauto.
  - destruct (IH (S i) Hin Hd) as [e He]. cbn [result_lines].
    destruct x; eauto. rewrite He. eauto.
Qed.

(** X24: what [WebSearchTool.execute] answers, with an API key set.  The
    call is abandoned only when the request is cancelled; otherwise it
    raises nothing and returns a text.  It is [Error: <e>] when the request
    fails with [e], when the status is an error [e] and when the body is not
    JSON; it starts with [Error: ] when one of the first [n] results is not
    a dict.  It is [No results for: <query>] when the body is a dict whose
    [web] is missing, or a dict whose [results] is missing or the empty
    list.  When [results] is a non-empty list whose first [n] entries are
    dicts, it is the line [Results for: <query>] followed by the lines of
    these entries, one or two for each, joined by line feeds. *)
Theorem search_answer_shape (self : BraveTool) (query : string)
    (count : option Z) (got : http_outcome) :
  api_key self <> "" ->
  (got <> Aborted ->
   exists text,
     (search_execute float_truthy py_str dict_slice_error self query count
                     got).1 = Returns text
     /\ (starts_with "Error: " text = true
         \/ text = "No results for: " +:+ query
         \/ starts_with ("Results for: " +:+ query +:+ NL) text = true))
  /\ (got = Aborted ->
      (search_execute float_truthy py_str dict_slice_error self query count
                      got).1 = Aborts)
  /\ (forall e, got = Failed e ->
      (search_execute float_truthy py_str dict_slice_error self query count
                      got).1 = Returns ("Error: " +:+ e))
  /\ (forall r e, got = Responded r -> status_error r = Some e ->
      (search_execute float_truthy py_str dict_slice_error self query count
                      got).1 = Returns ("Error: " +:+ e))
  /\ (forall r e, got = Responded r -> status_error r = None ->
      json r = NotJson e ->
      (search_execute float_truthy py_str dict_slice_error self query count
                      got).1 = Returns ("Error: " +:+ e))
  /\ (forall r top, got = Responded r -> status_error r = None ->
      json r = Json (VObj top) ->
      lookup_field "web" top = None
      \/ (exists web, lookup_field "web" top = Some (VObj web)
                      /\ (lookup_field "results" web = None
                          \/ lookup_field "results" web = Some (VArr []))) ->
      (search_execute float_truthy py_str dict_slice_error self query count
                      got).1 = Returns ("No results for: " +:+ query))
  /\ (forall r top web found, got = Responded r -> status_error r = None ->
      json r = Json (VObj top) ->
      lookup_field "web" top = Some (VObj web) ->
      lookup_field "results" web = Some (VArr found) ->
      found <> [] ->
      (forallb is_dict
         (take (Z.to_nat (result_count count (max_results self))) found)
       = true ->
       exists ls,
         (search_execute float_truthy py_str dict_slice_error self query
                         count got).1
         = Returns (join NL (("Results for: " +:+ query +:+ NL) :: ls))
         /\ (length (take (Z.to_nat (result_count count (max_results self)))
                          found)
              <= length ls
              <= 2 * length (take (Z.to_nat (result_count count
                                               (max_results self))) found))%nat)
      /\ (forall item,
            item ∈ take (Z.to_nat (result_count count (max_results self)))
                        found ->
            is_dict item = false ->
            exists e,
              (search_execute float_truthy py_str dict_slice_error self query
                              count got).1 = Returns ("Error: " +:+ e))).
Proof.
  intros Hk.
  assert (forall g,
            search_execute float_truthy py_str dict_slice_error self query
                           count g
            = let n := result_count count (max_results self) in
              let req := Get BRAVE_WEB_SEARCH_URL (brave_params query n)
                             (brave_headers self) 10 None in
              match g with
              | Aborted => (Aborts, [req])
              | Failed e => (Returns ("Error: " +:+ e), [req])
              | Responded r =>
                  match status_error r with
                  | Some e => (Returns ("Error: " +:+ e), [req])
                  | None =>
                      match search_text float_truthy py_str dict_slice_error
                                        query n r with
                      | inl s => (Returns s, [req])
                      | inr e => (Returns ("Error: " +:+ e), [req])
                      end
                  end
              end) as Hexec.
  { intros g. unfold search_execute, truthy.
    by destruct (String.eqb_spec (api_key self) ""). }
  rewrite Hexec. cbv zeta.
  assert (forall e, starts_with "Error: " ("Error: " +:+ e) = true) as Herr.
  { intros e. apply starts_with_append, starts_with_refl. }
  split; [|split; [|split; [|split; [|split; [|split]]]]].
  - intros Hgot. destruct got as [r|e|]; [|eauto|done].
    destruct (status_error r) as [e|]; [eauto|].
    destruct (search_text _ _ _ _ _ _) as [text|e] eqn:Ht; [|eauto].
    exists text. split; [done|]. right.
    revert Ht. unfold search_text.
    destruct (json r) as [j|]; [|done].
    destruct (get_or "web" (VObj []) j) as [web|]; [|done].
    destruct (get_or "results" (VArr []) web) as [results|]; [|done].
    destruct (negb (value_truthy float_truthy results)).
    + intros [= <-]. by left.
    + destruct (sliced dict_slice_error results _) as [found|]; [|done].
      destruct (result_lines float_truthy py_str 1 found) as [ls|]; [|done].
      intros [= <-]. right. apply join_starts_with.
  - by intros ->.
  - by intros e ->.
  - intros r e -> He. by rewrite He.
  - intros r e -> He Hj. rewrite He. unfold search_text. by rewrite Hj.
  - intros r top -> He Hj Hcase. rewrite He. unfold search_text.
    rewrite Hj. cbn [get_or].
    destruct Hcase as [Hw|(web & Hw & [Hr|Hr])]; rewrite Hw;
      cbn [default from_option id get_or]; rewrite ?Hr; done.
  - intros r top web found -> He Hj Hw Hr Hne. rewrite He.
    unfold search_text. rewrite Hj. cbn [get_or]. rewrite Hw.
    cbn [default from_option id get_or]. rewrite Hr.
    cbn [default from_option id value_truthy sliced].
    destruct found as [|x xs] eqn:Hf; [done|]. cbn [negb].
    rewrite <- Hf. split.
    + intros Hd. destruct (result_lines_dicts _ 1 Hd) as (ls & Hls & Hlen).
      rewrite Hls. eauto.
    + intros item Hin Hd.
      destruct (result_lines_not_dict _ 1 item Hin Hd) as [e' He'].
      rewrite He'. eauto.
Qed.

End SearchFacts.

Lemma search_requests_carry_key_and_count_witness :
  (search_execute (fun _ => true) (fun _ => "") "" 
     {| api_key := "k"; max_results := 5 |} "rocq" (Some 50)
     (Failed "timeout")).2
  = [Get BRAVE_WEB_SEARCH_URL
       [("q", VStr "rocq");
        ("count", VInt (result_count (Some 50)
                          (max_results {| api_key := "k";
                                          max_results := 5 |})))]
       [("Accept", "application/json");
        ("X-Subscription-Token",
         api_key {| api_key := "k"; max_results := 5 |})] 10 None]
  /\ 1 <= result_count (Some 50)
            (max_results {| api_key := "k"; max_results := 5 |}) <= 10.
Proof.
  destruct (search_requests_carry_key_and_count (fun _ => true)
              (fun _ => "") "" {| api_key := "k"; max_results := 5 |}
              "rocq" (Some 50) (Failed "timeout")) as [_ H].
  apply H. simpl. discriminate.
Defined.

Lemma search_reads_only_counted_results_witness :
  search_execute (fun _ => true) (fun _ => "") ""
    {| api_key := "k"; max_results := 5 |} "rocq" (Some 1)
    (Responded (_FakeResponse
       (VObj [("web", VObj [("results",
           VArr [VObj [("title", VStr "a"); ("url", VStr "u")];
                 VInt 3])])]) 200))
  = search_execute (fun _ => true) (fun _ => "") ""
      {| api_key := "k"; max_results := 5 |} "rocq" (Some 1)
      (Responded (_FakeResponse
         (VObj [("web", VObj [("results",
             VArr [VObj [("title", VStr "a"); ("url", VStr "u")]])])])
         200)).
Proof.
  apply (search_reads_only_counted_results (fun _ => true) (fun _ => "") ""
           {| api_key := "k"; max_results := 5 |} "rocq" (Some 1)
           (_FakeResponse
              (VObj [("web", VObj [("results",
                  VArr [VObj [("title", VStr "a"); ("url", VStr "u")];
                        VInt 3])])]) 200)
           (_FakeResponse
              (VObj [("web", VObj [("results",
                  VArr [VObj [("title", VStr "a"); ("url", VStr "u")]])])])
              200)
           [("web", VObj [("results",
                VArr [VObj [("title", VStr "a"); ("url", VStr "u")];
                      VInt 3])])]
           [("results",
             VArr [VObj [("title", VStr "a"); ("url", VStr "u")]; VInt 3])]
           [("web", VObj [("results",
                VArr [VObj [("title", VStr "a"); ("url", VStr "u")]])])]
           [("results",
             VArr [VObj [("title", VStr "a"); ("url", VStr "u")]])]
           [VObj [("title", VStr "a"); ("url", VStr "u")]; VInt 3]
           [VObj [("title", VStr "a"); ("url", VStr "u")]]);
    try reflexivity; discriminate.
Defined.

Lemma search_answer_shape_witness :
  (search_execute (fun _ => true) (fun _ => "") ""
     {| api_key := "k"; max_results := 5 |} "rocq" None
     (Responded (_FakeResponse (VObj [("web", VObj [])]) 200))).1
  = Returns ("No results for: " +:+ "rocq")
  /\ (search_execute (fun _ => true) (fun _ => "") ""
        {| api_key := "k"; max_results := 5 |} "rocq" None
        (Failed "timeout")).1
     = Returns ("Error: " +:+ "timeout")
  /\ exists ls,
       (search_execute (fun _ => true) (fun _ => "") ""
          {| api_key := "k"; max_results := 5 |} "rocq" (Some 1)
          (Responded (_FakeResponse
             (VObj [("web", VObj [("results",
                 VArr [VObj [("title", VStr "a"); ("url", VStr "u")];
                       VInt 3])])]) 200))).1
       = Returns (join NL (("Results for: " +:+ "rocq" +:+ NL) :: ls))
       /\ (1 <= length ls <= 2)%nat.
Proof.
  destruct (search_answer_shape (fun _ => true) (fun _ => "") ""
              {| api_key := "k"; max_results := 5 |} "rocq" None
              (Responded (_FakeResponse (VObj [("web", VObj [])]) 200)))
    as (_ & _ & _ & _ & _ & Hnone & _); [simpl; discriminate|].
  destruct (search_answer_shape (fun _ => true) (fun _ => "") ""
              {| api_key := "k"; max_results := 5 |} "rocq" None
              (Failed "timeout"))
    as (_ & _ & Hfail & _); [simpl; discriminate|].
  destruct (search_answer_shape (fun _ => true) (fun _ => "") ""
              {| api_key := "k"; max_results := 5 |} "rocq" (Some 1)
              (Responded (_FakeResponse
                 (VObj [("web", VObj [("results",
                     VArr [VObj [("title", VStr "a"); ("url", VStr "u")];
                           VInt 3])])]) 200)))
    as (_ & _ & _ & _ & _ & _ & Hsome); [simpl; discriminate|].
  split; [|split].
  - apply (Hnone (_FakeResponse (VObj [("web", VObj [])]) 200)
                 [("web", VObj [])]); try reflexivity.
    right. exists []. split; [reflexivity|by left].
  - by apply Hfail.
  - destruct (Hsome _ _ _ _ eq_refl eq_refl eq_refl eq_refl eq_refl
                (ltac:(discriminate))) as [Hok _].
    destruct (Hok eq_refl) as (ls & Hls & Hlen).
    exists ls. split; [exact Hls|exact Hlen].
Defined.

(** The answer of [WebSearchTool.execute] to a response with two results,
    of which the count lets one through. *)
Example search_execute_example :
  (search_execute (fun _ => true) (fun _ => "") ""
     {| api_key := "k"; max_results := 5 |} "rocq" (Some 1)
     (Responded (_FakeResponse
        (VObj [("web", VObj [("results",
            VArr [VObj [("title", VStr "Rocq"); ("url", VStr "https://r");
                        ("description", VStr "prover")];
                  VObj [("title", VStr "Other")]])])]) 200))).1
  = Returns ("Results for: rocq" +:+ NL +:+ NL
             +:+ "1. Rocq" +:+ NL +:+ "   https://r" +:+ NL
             +:+ "   prover").
Proof. reflexivity. Qed.

End WebFacts.
